(** * Crono Public API node: request construction

    A model of the node class [CronoPublicApi]: the parameter extractor
    ([getJsonParameter]), the additional-fields merger
    ([getAdditionalFields]), the per-resource dispatcher inside [execute]
    and the HTTP executor ([cronoApiRequest]).

    JavaScript values are modelled by the type [value]; plain objects are
    finite maps from their own property names to values.  A string is a
    sequence of code units below 256.  A number is an integer ([VNum]), a
    fraction with a power of two as denominator ([VFrac]), an infinity or
    [NaN]; the doubles are among these, and the two zeros are one [VNum 0]:
    the node never divides by a number or compares two of them. *)

From Stdlib Require Import ZArith String Ascii List.
From stdpp Require Import gmap strings list fin_maps pretty.

#[local] Set Warnings "-register-all".
#[local] Open Scope string_scope.

(** ** JavaScript values *)

Inductive value :=
  | VUndefined
  | VNull
  | VBool (b : bool)
  | VNum (n : Z)
  | VNaN
  | VStr (s : string)
  | VArr (l : list value)
  | VObj (m : gmap string value)
  (** the number [± m / 2 ^ e], [m] odd *)
  | VFrac (negative : bool) (m e : positive)
  | VInfinity (negative : bool).

(** [IDataObject]: a plain object keyed by property name. *)
Abbreviation IDataObject := (gmap string value).

(** The double quote character, for messages that quote a name. *)
Definition dquote : string := String "034"%char "".

(** ** Errors and results *)

Inductive error :=
  | NodeOperationError (message : string) (itemIndex : nat)
  | ApplicationError (message : string)
  | TypeError (message : string)
  | RequestError (message : string).

Inductive result (A : Type) :=
  | Ok (a : A)
  | Err (e : error).
Arguments Ok {A} a.
Arguments Err {A} e.

#[global] Instance result_ret : MRet result := fun A a => Ok a.
#[global] Instance result_bind : MBind result := fun A B f m =>
  match m with
  | Ok a => f a
  | Err e => Err e
  end.

(** ** Primitive operations of the language *)

(** ToBoolean. *)
Definition truthy (v : value) : bool :=
  match v with
  | VUndefined | VNull | VNaN => false
  | VBool b => b
  | VNum n => negb (n =? 0)%Z
  | VStr s => negb (String.eqb s "")
  | VArr _ | VObj _ | VFrac _ _ _ | VInfinity _ => true
  end.

(** [v === '' || v === undefined || v === null]. *)
Definition is_empty (v : value) : bool :=
  match v with
  | VUndefined | VNull => true
  | VStr s => String.eqb s ""
  | _ => false
  end.

(** [typeof v === 'object']. *)
Definition typeof_object (v : value) : bool :=
  match v with VNull | VArr _ | VObj _ => true | _ => false end.

(** [Object.keys(v).length]; [Object.keys] throws on [null] and
    [undefined]. *)
Definition Object_keys_length (v : value) : result nat :=
  match v with
  | VUndefined | VNull =>
      Err (TypeError "Cannot convert undefined or null to object")
  | VObj m => Ok (size m)
  | VArr l => Ok (length l)
  | VStr s => Ok (String.length s)
  | VBool _ | VNum _ | VNaN | VFrac _ _ _ | VInfinity _ => Ok 0
  end.

(** [v.length], as a truth value: the test [if (v.length)]. *)
Definition has_length (v : value) : result bool :=
  match v with
  | VUndefined | VNull =>
      Err (TypeError "Cannot read properties of undefined (reading 'length')")
  | VArr l => Ok (negb (Nat.eqb (length l) 0))
  | VStr s => Ok (negb (Nat.eqb (String.length s) 0))
  | VObj m => Ok (truthy (default VUndefined (m !! "length")))
  | VBool _ | VNum _ | VNaN | VFrac _ _ _ | VInfinity _ => Ok false
  end.

(** [v.name] for a named (non-index) property other than [length]. *)
Definition get_prop (v : value) (name : string) : result value :=
  match v with
  | VUndefined | VNull =>
      Err (TypeError ("Cannot read properties of undefined (reading '"
                      +:+ name +:+ "')"))
  | VObj m => Ok (default VUndefined (m !! name))
  | _ => Ok VUndefined
  end.

(** [a ?? b]. *)
Definition nullish_or (a b : value) : value :=
  match a with
  | VUndefined | VNull => b
  | _ => a
  end.

(** ** Numbers as text and text as numbers

    Number::toString prints the shortest decimal numeral that reads back as
    the same double, and switches to exponent notation from [1e21] up and
    below [1e-6].  The positive number at hand is the quotient [a / b]. *)

(** The number of decimal digits of [q >= 1]. *)
Fixpoint countDigits (fuel : nat) (q : Z) : Z :=
  match fuel with
  | O => 1
  | S fuel => if (q <? 10)%Z then 1%Z else (1 + countDigits fuel (q / 10))%Z
  end.

(** The least [j] with [a * 10 ^ j >= b]. *)
Fixpoint leadingZeros (fuel : nat) (a b : Z) : Z :=
  match fuel with
  | O => 0
  | S fuel => if (b <=? a)%Z then 0%Z else (1 + leadingZeros fuel (10 * a) b)%Z
  end.

(** The [n] with [10 ^ (n - 1) <= a / b < 10 ^ n]. *)
Definition decimalExponent (a b : Z) : Z :=
  if (b <=? a)%Z then countDigits (S (Z.to_nat (Z.log2 (a / b)))) (a / b)
  else (1 - leadingZeros (S (Z.to_nat (Z.log2 b))) a b)%Z.

(** The [c] with [2 ^ c <= a / b < 2 ^ (c + 1)]. *)
Definition binaryExponent (a b : Z) : Z :=
  let c := (Z.log2 a - Z.log2 b)%Z in
  if (if (0 <=? c)%Z then (b * 2 ^ c <=? a)%Z else (b <=? a * 2 ^ (- c))%Z)
  then c else (c - 1)%Z.

(** The double nearest to [a / b], a tie going to the even mantissa:
    the pair [(M, E)] stands for [M * 2 ^ E]. *)
Definition nearestDouble (a b : Z) : Z * Z :=
  let E := (Z.max (binaryExponent a b) (-1022) - 52)%Z in
  let num := if (0 <=? E)%Z then a else (a * 2 ^ (- E))%Z in
  let den := if (0 <=? E)%Z then (b * 2 ^ E)%Z else b in
  let q := (num / den)%Z in
  let r := (num mod den)%Z in
  let M := if (2 * r <? den)%Z then q
           else if (den <? 2 * r)%Z then (q + 1)%Z
           else if Z.even q then q else (q + 1)%Z in
  (M, E).

(** [M * 2 ^ E = a / b]. *)
Definition sameNumber (d : Z * Z) (a b : Z) : bool :=
  let '(M, E) := d in
  if (0 <=? E)%Z then (M * 2 ^ E * b =? a)%Z else (M * b =? a * 2 ^ (- E))%Z.

(** The numeral [s * 10 ^ p] reads back as [a / b]. *)
Definition roundTrips (s p a b : Z) : bool :=
  if (0 <=? p)%Z then sameNumber (nearestDouble (s * 10 ^ p) 1) a b
  else sameNumber (nearestDouble s (10 ^ (- p))) a b.

(** The shortest digits [s], with their exponent [p], that read back as
    [a / b]: [k] digits are tried before [k + 1], and of two candidates
    the nearer one is taken. *)
Fixpoint shortestDigits (fuel : nat) (k n a b : Z) : Z * Z :=
  let p := (n - k)%Z in
  let tn := if (0 <=? p)%Z then a else (a * 10 ^ (- p))%Z in
  let td := if (0 <=? p)%Z then (b * 10 ^ p)%Z else b in
  let lo := (tn / td)%Z in
  let r := (tn mod td)%Z in
  let hi := (lo + 1)%Z in
  let nearer := if (2 * r <? td)%Z then lo
                else if (td <? 2 * r)%Z then hi
                else if Z.even lo then lo else hi in
  match fuel with
  | O => (nearer, p)
  | S fuel =>
      match roundTrips lo p a b, roundTrips hi p a b with
      | true, true => (nearer, p)
      | true, false => (lo, p)
      | false, true => (hi, p)
      | false, false => shortestDigits fuel (k + 1) n a b
      end
  end.

Fixpoint stripZeros (fuel : nat) (s p : Z) : Z * Z :=
  match fuel with
  | O => (s, p)
  | S fuel => if (s mod 10 =? 0)%Z then stripZeros fuel (s / 10) (p + 1) else (s, p)
  end.

Fixpoint zeros (n : nat) : string :=
  match n with O => "" | S n => String "0" (zeros n) end.

Definition formatDigits (ds : string) (n : Z) : string :=
  let k := Z.of_nat (String.length ds) in
  if (k <=? n)%Z && (n <=? 21)%Z then ds +:+ zeros (Z.to_nat (n - k))
  else if (0 <? n)%Z && (n <=? 21)%Z then
    String.substring 0 (Z.to_nat n) ds +:+ "." +:+
    String.substring (Z.to_nat n) (Z.to_nat (k - n)) ds
  else if (-6 <? n)%Z && (n <=? 0)%Z then "0." +:+ zeros (Z.to_nat (- n)) +:+ ds
  else
    (if (k =? 1)%Z then ds
     else String.substring 0 1 ds +:+ "." +:+
          String.substring 1 (Z.to_nat (k - 1)) ds)
    +:+ "e" +:+ (if (1 <=? n)%Z then "+" else "-") +:+ pretty (Z.abs (n - 1)).

(** Number::toString of the positive number [a / b]. *)
Definition positiveToString (a b : Z) : string :=
  let n := decimalExponent a b in
  let '(s, p) := shortestDigits 16 1 n a b in
  let '(s, p) := stripZeros 20 s p in
  let ds := pretty s in
  formatDigits ds (Z.of_nat (String.length ds) + p).

(** The Number value of the integer [n]: [n] itself up to [2 ^ 53], the
    nearest double above, and no finite number from [2 ^ 1024 - 2 ^ 970]
    on. *)
Definition roundInteger (n : Z) : option Z :=
  if (Z.abs n <=? 2 ^ 53)%Z then Some n
  else
    let '(M, E) := nearestDouble (Z.abs n) 1 in
    let x := (M * 2 ^ E)%Z in
    if (2 ^ 1024 <=? x)%Z then None
    else Some (if (n <? 0)%Z then (- x)%Z else x).

(** ToString, as used by template literals and property keys. *)
Fixpoint toString (v : value) : string :=
  match v with
  | VUndefined => "undefined"
  | VNull => "null"
  | VBool true => "true"
  | VBool false => "false"
  | VNum n =>
      if (Z.abs n <=? 2 ^ 53)%Z then pretty n
      else (if (n <? 0)%Z then "-" else "") +:+ positiveToString (Z.abs n) 1
  | VNaN => "NaN"
  | VStr s => s
  | VArr l =>
      (fix join (l : list value) : string :=
         match l with
         | [] => ""
         | [x] => match x with VUndefined | VNull => "" | _ => toString x end
         | x :: rest =>
             match x with VUndefined | VNull => "" | _ => toString x end
             +:+ "," +:+ join rest
         end) l
  | VObj _ => "[object Object]"
  | VFrac negative m e =>
      (if negative then "-" else "") +:+ positiveToString (Zpos m) (2 ^ Zpos e)
  | VInfinity negative => if negative then "-Infinity" else "Infinity"
  end.

(** The own enumerable properties copied by object spread [{...v}]. *)
Fixpoint index_entries (i : nat) (l : list value) : IDataObject :=
  match l with
  | [] => ∅
  | x :: rest => <[pretty i := x]> (index_entries (S i) rest)
  end.

Fixpoint string_chars (s : string) : list value :=
  match s with
  | EmptyString => []
  | String a rest => VStr (String a "") :: string_chars rest
  end.

Definition spread (v : value) : IDataObject :=
  match v with
  | VObj m => m
  | VArr l => index_entries 0 l
  | VStr s => index_entries 0 (string_chars s)
  | _ => ∅
  end.

(** [Object.assign(target, source)] and [{...a, ...b}]: the keys of the
    later operand win. *)
Definition Object_assign (target source : IDataObject) : IDataObject :=
  source ∪ target.

(** ** String helpers: [split(',')], [trim], [parseInt(s, 10)] *)

Fixpoint split_comma (s : string) : list string :=
  match s with
  | EmptyString => [""]
  | String a rest =>
      if Ascii.eqb a ","%char then "" :: split_comma rest
      else match split_comma rest with
           | [] => [String a ""]
           | h :: t => String a h :: t
           end
  end.

(** White space and line terminators among the code units below 256: tab,
    line feed, vertical tab, form feed, carriage return, space and the
    no-break space. *)
Definition isWhiteSpace (a : ascii) : bool :=
  Ascii.is_space a || Ascii.eqb a "160"%char.

Fixpoint trim_start (s : string) : string :=
  match s with
  | EmptyString => ""
  | String a rest => if isWhiteSpace a then trim_start rest else s
  end.

(** [s.trim()]. *)
Definition trim (s : string) : string :=
  String.rev (trim_start (String.rev (trim_start s))).

Fixpoint digits_prefix (s : string) (acc : option Z) : option Z :=
  match s with
  | EmptyString => acc
  | String a rest =>
      match Ascii.is_nat a with
      | Some d => digits_prefix rest (Some (10 * default 0%Z acc + Z.of_nat d)%Z)
      | None => acc
      end
  end.

Definition numberOfInteger (n : Z) : value :=
  match roundInteger n with
  | Some x => VNum x
  | None => VInfinity (n <? 0)%Z
  end.

(** [parseInt(s, 10)]: leading white space, a sign, then the longest run
    of digits, as a Number. *)
Definition parseInt (s : string) : value :=
  match trim_start s with
  | String "-"%char rest =>
      match digits_prefix rest None with
      | Some n => numberOfInteger (- n)
      | None => VNaN
      end
  | String "+"%char rest =>
      match digits_prefix rest None with
      | Some n => numberOfInteger n
      | None => VNaN
      end
  | s' =>
      match digits_prefix s' None with
      | Some n => numberOfInteger n
      | None => VNaN
      end
  end.

(** ** The host: [JSON.parse] and n8n's [IExecuteFunctions] *)

(** [JSON.parse]: [None] stands for a thrown [SyntaxError].  The empty
    string is not a JSON text. *)
Record JsonParser := {
  JSON_parse : string → option value;
  JSON_parse_empty : JSON_parse "" = None
}.

Inductive IHttpRequestMethods := GET | POST | PATCH.

Record IHttpRequestOptions := {
  method : IHttpRequestMethods;
  url : string;
  json : bool;
  qs : option value;
  body : option value
}.

(** The part of [IExecuteFunctions] the node uses: the number of input
    items, the node parameters as resolved for each item, the stored
    credentials, and the authenticated HTTP helper. *)
Record IExecuteFunctions := {
  getInputData : nat;
  nodeParameters : nat → IDataObject;
  getCredentials : string → IDataObject;
  httpRequestWithAuthentication : string → IHttpRequestOptions → result value
}.

(** [this.getNodeParameter(parameterName, itemIndex, fallbackValue)]: the
    stored value, the fallback when nothing is stored, and an error when
    neither exists.  A call without fallback passes [VUndefined]. *)
Definition getNodeParameter (this : IExecuteFunctions) (parameterName : string)
    (itemIndex : nat) (fallbackValue : value) : result value :=
  let value :=
    match nodeParameters this itemIndex !! parameterName with
    | None | Some VUndefined => fallbackValue
    | Some v => v
    end in
  match value with
  | VUndefined => Err (ApplicationError "Could not get parameter")
  | _ => Ok value
  end.

(** ** Field statements

    The structured request bodies are built by straight-line code that
    repeats a few statement shapes on a [target] object.  Each shape is a
    constructor of [stmt]; [exec_stmt] gives its effect on the target. *)

(** The value a statement reads: a node parameter with its fallback, or a
    property of the current entry inside a [.map] callback. *)
Inductive operand :=
  | Param (parameterName : string) (fallbackValue : value)
  | Entry (property : string).

Inductive stmt :=
  (** [addIfNotEmpty(target, key, e)] *)
  | AddIfNotEmpty (key : string) (e : operand)
  (** [const x = e; if (x) { target.key = x; }] *)
  | SetIfTruthy (key : string) (e : operand)
  (** [if (e) { target.key = true; }] *)
  | SetTrueIf (key : string) (e : operand)
  (** [const x = e; if (x.length) { target.key = x; }] *)
  | SetIfLength (key : string) (e : operand)
  (** [const x = getJsonParameter(this, p, itemIndex, {});
       if (Object.keys(x).length) { target.key = x; }] *)
  | SetIfJsonKeys (key : string) (parameterName : string)
  (** [if (entry.p && Object.keys(entry.p).length) { target.key = entry.p; }] *)
  | SetIfPropKeys (key : string) (property : string)
  (** [const x = parseCsv(e); if (x.length) { target.key = x; }] *)
  | SetCsv (key : string) (e : operand)
  (** [const x = parseCsv(e);
       if (x.length) { target.key = x.map((id) => parseInt(id, 10)); }] *)
  | SetCsvInts (key : string) (e : operand)
  (** [const x = e; target.key = x;] *)
  | Assign (key : string) (e : operand)
  (** [const o = {}; fields on o; if (Object.keys(o).length) { target.key = o; }] *)
  | Nested (key : string) (fields : list stmt)
  (** [const xs = (this.getNodeParameter(p, itemIndex, {}).property ?? [])
         .map((entry) => { const o = {}; fields on o; return o; });
       if (xs.length) { target.key = xs; }] *)
  | MapEntries (key : string) (parameterName : string) (property : string)
      (fields : list stmt)
  (** [Object.assign(target, getAdditionalFields(this, p, itemIndex))] *)
  | AssignAdditional (parameterName : string).

(** ** The field tables of the dispatcher

    One table per structured body of [execute], named after the resource,
    the operation and the variable the block fills ([searchBody] or
    [data]); the statements appear in source order. *)

Definition companySearchBody : list stmt :=
  [ AddIfNotEmpty "Name" (Param "companySearchName" (VStr ""));
    SetIfLength "Status" (Param "companySearchStatus" (VArr []));
    SetIfJsonKeys "ExternalProperties" "companySearchExternalProperties";
    SetIfJsonKeys "ExternalPropertyNumericFilters" "companySearchExternalPropertyNumericFilters";
    SetCsvInts "ExternalPropertyEmptyIds" (Param "companySearchExternalPropertyEmptyIds" (VStr ""));
    AddIfNotEmpty "Industry" (Param "companySearchIndustry" (VStr ""));
    AddIfNotEmpty "Country" (Param "companySearchCountry" (VStr ""));
    SetIfTruthy "NumberOfEmployeesMin" (Param "companySearchNumberOfEmployeesMin" (VNum 0));
    SetIfTruthy "NumberOfEmployeesMax" (Param "companySearchNumberOfEmployeesMax" (VNum 0));
    AddIfNotEmpty "CurrentSolution" (Param "companySearchCurrentSolution" (VStr ""));
    AddIfNotEmpty "UserId" (Param "companySearchUserId" (VStr ""));
    SetTrueIf "NoUser" (Param "companySearchNoUser" (VBool false));
    AddIfNotEmpty "CreatedDateMin" (Param "companySearchCreatedDateMin" (VStr ""));
    AddIfNotEmpty "CreatedDateMax" (Param "companySearchCreatedDateMax" (VStr ""));
    AddIfNotEmpty "LastActivityDateMin" (Param "companySearchLastActivityDateMin" (VStr ""));
    AddIfNotEmpty "LastActivityDateMax" (Param "companySearchLastActivityDateMax" (VStr ""));
    AddIfNotEmpty "LastModifiedDateMin" (Param "companySearchLastModifiedDateMin" (VStr ""));
    AddIfNotEmpty "LastModifiedDateMax" (Param "companySearchLastModifiedDateMax" (VStr ""));
    SetTrueIf "HasLinkedin" (Param "companySearchHasLinkedin" (VBool false));
    SetTrueIf "HasWebsite" (Param "companySearchHasWebsite" (VBool false));
    SetTrueIf "HasPhone" (Param "companySearchHasPhone" (VBool false));
    SetTrueIf "HasActivities" (Param "companySearchHasActivities" (VBool false));
    SetTrueIf "HasReplies" (Param "companySearchHasReplies" (VBool false));
    SetTrueIf "HasActiveTasks" (Param "companySearchHasActiveTasks" (VBool false));
    SetTrueIf "HasEmailsOpened" (Param "companySearchHasEmailsOpened" (VBool false));
    SetTrueIf "HasClickedLinks" (Param "companySearchHasClickedLinks" (VBool false));
    Assign "CleanEmptyName" (Param "companySearchCleanEmptyName" (VBool true));
    AddIfNotEmpty "Sort" (Param "companySearchSort" (VStr ""));
    Nested "Includes"
      [ SetTrueIf "WithExternalValuesNoTags" (Param "companySearchIncludeExternalValuesNoTags" (VBool false));
        SetTrueIf "WithTags" (Param "companySearchIncludeTags" (VBool false));
        SetTrueIf "WithTasks" (Param "companySearchIncludeTasks" (VBool false)) ];
    Nested "Pagination"
      [ AddIfNotEmpty "Limit" (Param "companySearchLimit" (VNum 50));
        AddIfNotEmpty "Offset" (Param "companySearchOffset" (VNum 0)) ];
    AssignAdditional "searchAdditionalFields" ].

Definition companyCreateData : list stmt :=
  [ AddIfNotEmpty "Name" (Param "companyCreateName" (VStr ""));
    SetIfTruthy "NumberOfEmployees" (Param "companyCreateNumberOfEmployees" (VNum 0));
    AddIfNotEmpty "AnnualRevenue" (Param "companyCreateAnnualRevenue" (VStr ""));
    AddIfNotEmpty "Website" (Param "companyCreateWebsite" (VStr ""));
    AddIfNotEmpty "Linkedin" (Param "companyCreateLinkedin" (VStr ""));
    AddIfNotEmpty "LinkedinNumericId" (Param "companyCreateLinkedinNumericId" (VStr ""));
    AddIfNotEmpty "Industry" (Param "companyCreateIndustry" (VStr ""));
    AddIfNotEmpty "Country" (Param "companyCreateCountry" (VStr ""));
    AddIfNotEmpty "Phone" (Param "companyCreatePhone" (VStr ""));
    SetTrueIf "CreateInCrm" (Param "companyCreateCreateInCrm" (VBool false));
    SetIfJsonKeys "ExternalValues" "companyCreateExternalValues";
    AddIfNotEmpty "OwnerId" (Param "companyCreateOwnerId" (VStr ""));
    SetIfTruthy "UserId" (Param "companyCreateUserId" (VNum 0));
    SetIfTruthy "ListId" (Param "companyCreateListId" (VNum 0));
    AssignAdditional "dataAdditionalFields" ].

Definition companyUpdateData : list stmt :=
  [ AddIfNotEmpty "Name" (Param "companyUpdateName" (VStr ""));
    SetIfTruthy "NumberOfEmployees" (Param "companyUpdateNumberOfEmployees" (VNum 0));
    AddIfNotEmpty "AnnualRevenue" (Param "companyUpdateAnnualRevenue" (VStr ""));
    AddIfNotEmpty "Website" (Param "companyUpdateWebsite" (VStr ""));
    AddIfNotEmpty "Linkedin" (Param "companyUpdateLinkedin" (VStr ""));
    AddIfNotEmpty "LinkedinNumericId" (Param "companyUpdateLinkedinNumericId" (VStr ""));
    AddIfNotEmpty "Industry" (Param "companyUpdateIndustry" (VStr ""));
    AddIfNotEmpty "Country" (Param "companyUpdateCountry" (VStr ""));
    AddIfNotEmpty "Phone" (Param "companyUpdatePhone" (VStr ""));
    SetIfJsonKeys "ExternalValues" "companyUpdateExternalValues";
    SetIfTruthy "UserId" (Param "companyUpdateUserId" (VNum 0));
    AssignAdditional "dataAdditionalFields" ].

Definition companyImportData : list stmt :=
  [ MapEntries "Accounts" "companyImportAccounts" "account"
      [ AddIfNotEmpty "Name" (Entry "name");
        AddIfNotEmpty "Website" (Entry "website");
        AddIfNotEmpty "Industry" (Entry "industry");
        AddIfNotEmpty "Country" (Entry "country");
        AddIfNotEmpty "Phone" (Entry "phone");
        AddIfNotEmpty "AnnualRevenue" (Entry "annualRevenue");
        AddIfNotEmpty "Linkedin" (Entry "linkedin");
        SetIfTruthy "NumberOfEmployees" (Entry "numberOfEmployees");
        SetIfPropKeys "ExternalValues" "externalValues";
        SetIfTruthy "ListId" (Entry "listId");
        AddIfNotEmpty "Owner" (Entry "owner") ];
    AddIfNotEmpty "ImportType" (Param "companyImportType" (VStr ""));
    AddIfNotEmpty "FileName" (Param "companyImportFileName" (VStr ""));
    SetTrueIf "EnrichCompany" (Param "companyImportEnrichCompany" (VBool false));
    SetCsvInts "AiExternalPropertiesIdsToGenerate" (Param "companyImportAiExternalPropertyIds" (VStr ""));
    AssignAdditional "dataAdditionalFields" ].

Definition contactSearchBody : list stmt :=
  [ AddIfNotEmpty "Name" (Param "contactSearchName" (VStr ""));
    AddIfNotEmpty "Title" (Param "contactSearchTitle" (VStr ""));
    AddIfNotEmpty "Country" (Param "contactSearchCountry" (VStr ""));
    SetCsv "ObjectIds" (Param "contactSearchObjectIds" (VStr ""));
    SetIfTruthy "UserId" (Param "contactSearchUserId" (VNum 0));
    AddIfNotEmpty "Industry" (Param "contactSearchIndustry" (VStr ""));
    AddIfNotEmpty "Location" (Param "contactSearchLocation" (VStr ""));
    SetIfLength "ActualStatus" (Param "contactSearchActualStatus" (VArr []));
    SetIfLength "AccountStatus" (Param "contactSearchAccountStatus" (VArr []));
    SetIfJsonKeys "ExternalProperties" "contactSearchExternalProperties";
    SetIfJsonKeys "ExternalPropertyNumericFilters" "contactSearchExternalPropertyNumericFilters";
    SetCsvInts "ExternalPropertyEmptyIds" (Param "contactSearchExternalPropertyEmptyIds" (VStr ""));
    SetIfJsonKeys "AccountExternalProperties" "contactSearchAccountExternalProperties";
    SetIfJsonKeys "AccountExternalPropertyNumericFilters" "contactSearchAccountExternalPropertyNumericFilters";
    SetCsvInts "AccountExternalPropertyEmptyIds" (Param "contactSearchAccountExternalPropertyEmptyIds" (VStr ""));
    SetIfTruthy "NumberOfEmployeesMin" (Param "contactSearchNumberOfEmployeesMin" (VNum 0));
    SetIfTruthy "NumberOfEmployeesMax" (Param "contactSearchNumberOfEmployeesMax" (VNum 0));
    AddIfNotEmpty "CurrentSolution" (Param "contactSearchCurrentSolution" (VStr ""));
    SetTrueIf "NoUser" (Param "contactSearchNoUser" (VBool false));
    SetTrueIf "InSequence" (Param "contactSearchInSequence" (VBool false));
    AddIfNotEmpty "AccountId" (Param "contactSearchAccountId" (VStr ""));
    AddIfNotEmpty "CreatedDateMin" (Param "contactSearchCreatedDateMin" (VStr ""));
    AddIfNotEmpty "CreatedDateMax" (Param "contactSearchCreatedDateMax" (VStr ""));
    AddIfNotEmpty "LastActivityDateMin" (Param "contactSearchLastActivityDateMin" (VStr ""));
    AddIfNotEmpty "LastActivityDateMax" (Param "contactSearchLastActivityDateMax" (VStr ""));
    AddIfNotEmpty "LastModifiedDateMin" (Param "contactSearchLastModifiedDateMin" (VStr ""));
    AddIfNotEmpty "LastModifiedDateMax" (Param "contactSearchLastModifiedDateMax" (VStr ""));
    AddIfNotEmpty "Sort" (Param "contactSearchSort" (VStr ""));
    SetTrueIf "IsPhoneValid" (Param "contactSearchIsPhoneValid" (VBool false));
    SetIfLength "VerificationStatuses" (Param "contactSearchVerificationStatuses" (VArr []));
    SetTrueIf "FromContact" (Param "contactSearchFromContact" (VBool false));
    SetTrueIf "HasLinkedin" (Param "contactSearchHasLinkedin" (VBool false));
    SetTrueIf "HasEmail" (Param "contactSearchHasEmail" (VBool false));
    SetTrueIf "HasPhone" (Param "contactSearchHasPhone" (VBool false));
    SetTrueIf "HasMobilePhone" (Param "contactSearchHasMobilePhone" (VBool false));
    SetTrueIf "HasActivities" (Param "contactSearchHasActivities" (VBool false));
    SetTrueIf "HasReplies" (Param "contactSearchHasReplies" (VBool false));
    SetTrueIf "HasEmailsOpened" (Param "contactSearchHasEmailsOpened" (VBool false));
    SetTrueIf "HasConnectedCalls" (Param "contactSearchHasConnectedCalls" (VBool false));
    SetTrueIf "HasClickedLinks" (Param "contactSearchHasClickedLinks" (VBool false));
    SetTrueIf "HasActiveTasks" (Param "contactSearchHasActiveTasks" (VBool false));
    SetTrueIf "OptedOut" (Param "contactSearchOptedOut" (VBool false));
    Nested "Pagination"
      [ AddIfNotEmpty "Limit" (Param "contactSearchLimit" (VNum 50));
        AddIfNotEmpty "Offset" (Param "contactSearchOffset" (VNum 0)) ];
    AssignAdditional "searchAdditionalFields" ].

Definition contactCreateData : list stmt :=
  [ AddIfNotEmpty "FirstName" (Param "contactCreateFirstName" (VStr ""));
    AddIfNotEmpty "LastName" (Param "contactCreateLastName" (VStr ""));
    AddIfNotEmpty "Phone" (Param "contactCreatePhone" (VStr ""));
    AddIfNotEmpty "MobilePhone" (Param "contactCreateMobilePhone" (VStr ""));
    AddIfNotEmpty "Email" (Param "contactCreateEmail" (VStr ""));
    AddIfNotEmpty "Title" (Param "contactCreateTitle" (VStr ""));
    AddIfNotEmpty "Location" (Param "contactCreateLocation" (VStr ""));
    AddIfNotEmpty "Linkedin" (Param "contactCreateLinkedin" (VStr ""));
    AddIfNotEmpty "LinkedinLeadId" (Param "contactCreateLinkedinLeadId" (VStr ""));
    AddIfNotEmpty "G2PublicId" (Param "contactCreateG2PublicId" (VStr ""));
    AddIfNotEmpty "Company" (Param "contactCreateCompany" (VStr ""));
    AddIfNotEmpty "CompanyLinkedin" (Param "contactCreateCompanyLinkedin" (VStr ""));
    AddIfNotEmpty "CompanyLinkedinNumericId" (Param "contactCreateCompanyLinkedinNumericId" (VStr ""));
    AddIfNotEmpty "CompanyWebsite" (Param "contactCreateCompanyWebsite" (VStr ""));
    SetIfTruthy "CompanyNumberOfEmployees" (Param "contactCreateCompanyNumberOfEmployees" (VNum 0));
    AddIfNotEmpty "CompanyIndustry" (Param "contactCreateCompanyIndustry" (VStr ""));
    AddIfNotEmpty "CompanyCountry" (Param "contactCreateCompanyCountry" (VStr ""));
    AddIfNotEmpty "CompanyAnnualRevenue" (Param "contactCreateCompanyAnnualRevenue" (VStr ""));
    AddIfNotEmpty "AccountId" (Param "contactCreateAccountId" (VStr ""));
    SetTrueIf "CreateAsLead" (Param "contactCreateCreateAsLead" (VBool false));
    SetIfJsonKeys "ExternalValues" "contactCreateExternalValues";
    SetIfTruthy "StrategyId" (Param "contactCreateStrategyId" (VNum 0));
    SetIfJsonKeys "GenerateAiVariables" "contactCreateGenerateAiVariables";
    SetIfTruthy "UserId" (Param "contactCreateUserId" (VNum 0));
    AddIfNotEmpty "CountryCode" (Param "contactCreateCountryCode" (VStr ""));
    AddIfNotEmpty "TimeZone" (Param "contactCreateTimeZone" (VStr ""));
    SetIfTruthy "ListId" (Param "contactCreateListId" (VNum 0));
    SetTrueIf "CreateInCrm" (Param "contactCreateCreateInCrm" (VBool false));
    AssignAdditional "dataAdditionalFields" ].

Definition contactUpdateData : list stmt :=
  [ AddIfNotEmpty "FirstName" (Param "contactUpdateFirstName" (VStr ""));
    AddIfNotEmpty "LastName" (Param "contactUpdateLastName" (VStr ""));
    AddIfNotEmpty "Phone" (Param "contactUpdatePhone" (VStr ""));
    AddIfNotEmpty "MobilePhone" (Param "contactUpdateMobilePhone" (VStr ""));
    AddIfNotEmpty "Email" (Param "contactUpdateEmail" (VStr ""));
    AddIfNotEmpty "Title" (Param "contactUpdateTitle" (VStr ""));
    AddIfNotEmpty "Location" (Param "contactUpdateLocation" (VStr ""));
    AddIfNotEmpty "Linkedin" (Param "contactUpdateLinkedin" (VStr ""));
    SetIfJsonKeys "ExternalValues" "contactUpdateExternalValues";
    SetIfTruthy "UserId" (Param "contactUpdateUserId" (VNum 0));
    AddIfNotEmpty "CountryCode" (Param "contactUpdateCountryCode" (VStr ""));
    AssignAdditional "dataAdditionalFields" ].

Definition contactImportData : list stmt :=
  [ MapEntries "Prospects" "contactImportProspects" "prospect"
      [ AddIfNotEmpty "FirstName" (Entry "firstName");
        AddIfNotEmpty "LastName" (Entry "lastName");
        AddIfNotEmpty "Email" (Entry "email");
        AddIfNotEmpty "Phone" (Entry "phone");
        AddIfNotEmpty "MobilePhone" (Entry "mobilePhone");
        AddIfNotEmpty "Title" (Entry "title");
        AddIfNotEmpty "Location" (Entry "location");
        AddIfNotEmpty "Linkedin" (Entry "linkedin");
        AddIfNotEmpty "Company" (Entry "company");
        AddIfNotEmpty "CompanyWebsite" (Entry "companyWebsite");
        AddIfNotEmpty "CompanyLinkedin" (Entry "companyLinkedin");
        AddIfNotEmpty "CompanyCountry" (Entry "companyCountry");
        AddIfNotEmpty "CompanyIndustry" (Entry "companyIndustry");
        AddIfNotEmpty "CompanyAnnualRevenue" (Entry "companyAnnualRevenue");
        SetIfTruthy "CompanyNumberOfEmployees" (Entry "companyNumberOfEmployees");
        SetIfPropKeys "ExternalValues" "externalValues";
        SetIfPropKeys "AccountExternalValues" "accountExternalValues";
        AddIfNotEmpty "Owner" (Entry "owner");
        AddIfNotEmpty "SalesNavigatorUrl" (Entry "salesNavigatorUrl");
        SetIfTruthy "ListId" (Entry "listId");
        SetIfTruthy "StrategyId" (Entry "strategyId") ];
    AddIfNotEmpty "ImportType" (Param "contactImportType" (VStr ""));
    AddIfNotEmpty "FileName" (Param "contactImportFileName" (VStr ""));
    SetTrueIf "FindEmail" (Param "contactImportFindEmail" (VBool false));
    SetTrueIf "FindLinkedin" (Param "contactImportFindLinkedin" (VBool false));
    SetTrueIf "FindPhone" (Param "contactImportFindPhone" (VBool false));
    SetTrueIf "VerifyEmail" (Param "contactImportVerifyEmail" (VBool false));
    SetCsvInts "AiExternalPropertiesIdsToGenerate" (Param "contactImportAiExternalPropertyIds" (VStr ""));
    AssignAdditional "dataAdditionalFields" ].

Definition dealSearchBody : list stmt :=
  [ AddIfNotEmpty "Name" (Param "dealSearchName" (VStr ""));
    AddIfNotEmpty "AccountId" (Param "dealSearchAccountId" (VStr ""));
    AddIfNotEmpty "UserId" (Param "dealSearchUserId" (VStr ""));
    AddIfNotEmpty "Stage" (Param "dealSearchStage" (VStr ""));
    AddIfNotEmpty "Pipeline" (Param "dealSearchPipeline" (VStr ""));
    SetCsv "ObjectIds" (Param "dealSearchObjectIds" (VStr ""));
    Nested "Pagination"
      [ AddIfNotEmpty "Limit" (Param "dealSearchLimit" (VNum 50));
        AddIfNotEmpty "Offset" (Param "dealSearchOffset" (VNum 0)) ];
    AddIfNotEmpty "CreatedDateMin" (Param "dealSearchCreatedDateMin" (VStr ""));
    AddIfNotEmpty "CreatedDateMax" (Param "dealSearchCreatedDateMax" (VStr ""));
    AddIfNotEmpty "LastModifiedDateMin" (Param "dealSearchLastModifiedDateMin" (VStr ""));
    AddIfNotEmpty "LastModifiedDateMax" (Param "dealSearchLastModifiedDateMax" (VStr ""));
    AddIfNotEmpty "CloseDateMin" (Param "dealSearchCloseDateMin" (VStr ""));
    AddIfNotEmpty "CloseDateMax" (Param "dealSearchCloseDateMax" (VStr ""));
    SetTrueIf "IsWon" (Param "dealSearchIsWon" (VBool false));
    SetTrueIf "IsClosed" (Param "dealSearchIsClosed" (VBool false));
    SetIfTruthy "AmountMin" (Param "dealSearchAmountMin" (VNum 0));
    SetIfTruthy "AmountMax" (Param "dealSearchAmountMax" (VNum 0));
    SetTrueIf "Active" (Param "dealSearchActive" (VBool false));
    SetIfTruthy "Year" (Param "dealSearchYear" (VNum 0));
    SetIfJsonKeys "ExternalProperties" "dealSearchExternalProperties";
    AddIfNotEmpty "Sort" (Param "dealSearchSort" (VStr ""));
    Nested "Includes"
      [ SetTrueIf "WithAccount" (Param "dealSearchIncludeAccount" (VBool false)) ];
    AssignAdditional "searchAdditionalFields" ].

Definition dealCreateData : list stmt :=
  [ AddIfNotEmpty "AccountId" (Param "dealCreateAccountId" (VStr ""));
    AddIfNotEmpty "Name" (Param "dealCreateName" (VStr ""));
    SetIfTruthy "Amount" (Param "dealCreateAmount" (VNum 0));
    AddIfNotEmpty "Stage" (Param "dealCreateStage" (VStr ""));
    AddIfNotEmpty "Pipeline" (Param "dealCreatePipeline" (VStr ""));
    AddIfNotEmpty "CloseDate" (Param "dealCreateCloseDate" (VStr ""));
    AddIfNotEmpty "Description" (Param "dealCreateDescription" (VStr ""));
    SetIfJsonKeys "ExternalValues" "dealCreateExternalValues";
    SetIfTruthy "UserId" (Param "dealCreateUserId" (VNum 0));
    AssignAdditional "dataAdditionalFields" ].

Definition dealUpdateData : list stmt :=
  [ AddIfNotEmpty "AccountId" (Param "dealUpdateAccountId" (VStr ""));
    AddIfNotEmpty "OpportunityId" (Param "dealUpdateOpportunityId" (VStr ""));
    AddIfNotEmpty "Name" (Param "dealUpdateName" (VStr ""));
    SetIfTruthy "Amount" (Param "dealUpdateAmount" (VNum 0));
    AddIfNotEmpty "Stage" (Param "dealUpdateStage" (VStr ""));
    AddIfNotEmpty "CloseDate" (Param "dealUpdateCloseDate" (VStr ""));
    AddIfNotEmpty "Description" (Param "dealUpdateDescription" (VStr ""));
    SetTrueIf "IsClosed" (Param "dealUpdateIsClosed" (VBool false));
    SetTrueIf "IsWon" (Param "dealUpdateIsWon" (VBool false));
    SetIfJsonKeys "ExternalValues" "dealUpdateExternalValues";
    SetIfTruthy "UserId" (Param "dealUpdateUserId" (VNum 0));
    AssignAdditional "dataAdditionalFields" ].

Definition noteSearchBody : list stmt :=
  [ AddIfNotEmpty "DescriptionContains" (Param "noteSearchDescriptionContains" (VStr ""));
    AddIfNotEmpty "AccountId" (Param "noteSearchAccountId" (VStr ""));
    AddIfNotEmpty "OpportunityId" (Param "noteSearchOpportunityId" (VStr ""));
    AddIfNotEmpty "UserId" (Param "noteSearchUserId" (VStr ""));
    SetCsv "ObjectIds" (Param "noteSearchObjectIds" (VStr ""));
    Nested "Pagination"
      [ AddIfNotEmpty "Limit" (Param "noteSearchLimit" (VNum 50));
        AddIfNotEmpty "Offset" (Param "noteSearchOffset" (VNum 0)) ];
    AddIfNotEmpty "CreatedDateMin" (Param "noteSearchCreatedDateMin" (VStr ""));
    AddIfNotEmpty "CreatedDateMax" (Param "noteSearchCreatedDateMax" (VStr ""));
    AddIfNotEmpty "LastModifiedDateMin" (Param "noteSearchLastModifiedDateMin" (VStr ""));
    AddIfNotEmpty "LastModifiedDateMax" (Param "noteSearchLastModifiedDateMax" (VStr ""));
    SetTrueIf "Active" (Param "noteSearchActive" (VBool false));
    Nested "Includes"
      [ SetTrueIf "WithAccount" (Param "noteSearchIncludeAccount" (VBool false));
        SetTrueIf "WithOpportunity" (Param "noteSearchIncludeOpportunity" (VBool false));
        SetTrueIf "WithProspects" (Param "noteSearchIncludeProspects" (VBool false)) ];
    AssignAdditional "searchAdditionalFields" ].

Definition noteCreateData : list stmt :=
  [ AddIfNotEmpty "Description" (Param "noteCreateDescription" (VStr ""));
    AddIfNotEmpty "AccountId" (Param "noteCreateAccountId" (VStr ""));
    AddIfNotEmpty "OpportunityId" (Param "noteCreateOpportunityId" (VStr ""));
    SetCsv "ProspectIds" (Param "noteCreateProspectIds" (VStr ""));
    AssignAdditional "dataAdditionalFields" ].

Definition taskSearchBody : list stmt :=
  [ Assign "Limit" (Param "taskSearchLimit" (VNum 50));
    Assign "Offset" (Param "taskSearchOffset" (VNum 0));
    AddIfNotEmpty "Date" (Param "taskSearchDate" (VStr ""));
    AddIfNotEmpty "ProspectId" (Param "taskSearchProspectId" (VStr ""));
    AddIfNotEmpty "OpportunityId" (Param "taskSearchOpportunityId" (VStr ""));
    SetTrueIf "Completed" (Param "taskSearchCompleted" (VBool false));
    AddIfNotEmpty "Type" (Param "taskSearchType" (VStr ""));
    AddIfNotEmpty "Subtype" (Param "taskSearchSubtype" (VStr ""));
    SetIfLength "Types" (Param "taskSearchTypes" (VArr []));
    AddIfNotEmpty "Since" (Param "taskSearchSince" (VStr ""));
    AddIfNotEmpty "To" (Param "taskSearchTo" (VStr ""));
    SetTrueIf "Automatic" (Param "taskSearchAutomatic" (VBool false));
    SetTrueIf "HasAutomationError" (Param "taskSearchHasAutomationError" (VBool false));
    SetTrueIf "HasOpportunity" (Param "taskSearchHasOpportunity" (VBool false));
    SetTrueIf "FromSequence" (Param "taskSearchFromSequence" (VBool false));
    SetTrueIf "FromCrm" (Param "taskSearchFromCrm" (VBool false));
    AddIfNotEmpty "AccountId" (Param "taskSearchAccountId" (VStr ""));
    SetIfTruthy "ProspectListId" (Param "taskSearchProspectListId" (VNum 0));
    SetIfTruthy "LeadListId" (Param "taskSearchLeadListId" (VNum 0));
    SetIfTruthy "AccountListId" (Param "taskSearchAccountListId" (VNum 0));
    SetIfTruthy "StrategyId" (Param "taskSearchStrategyId" (VNum 0));
    AddIfNotEmpty "SortBy" (Param "taskSearchSortBy" (VStr ""));
    SetIfJsonKeys "AccountExternalProperties" "taskSearchAccountExternalProperties";
    SetIfJsonKeys "ProspectExternalProperties" "taskSearchProspectExternalProperties";
    SetIfJsonKeys "LeadExternalProperties" "taskSearchLeadExternalProperties";
    AssignAdditional "searchAdditionalFields" ].

Definition taskCreateData : list stmt :=
  [ AddIfNotEmpty "AccountId" (Param "taskCreateAccountId" (VStr ""));
    AddIfNotEmpty "ProspectId" (Param "taskCreateProspectId" (VStr ""));
    AddIfNotEmpty "Type" (Param "taskCreateType" (VStr ""));
    AddIfNotEmpty "Subtype" (Param "taskCreateSubtype" (VStr ""));
    AddIfNotEmpty "ActivityDate" (Param "taskCreateActivityDate" (VStr ""));
    SetIfTruthy "TemplateId" (Param "taskCreateTemplateId" (VNum 0));
    SetTrueIf "Automatic" (Param "taskCreateAutomatic" (VBool false));
    AddIfNotEmpty "OpportunityId" (Param "taskCreateOpportunityId" (VStr ""));
    AddIfNotEmpty "Subject" (Param "taskCreateSubject" (VStr ""));
    AddIfNotEmpty "Description" (Param "taskCreateDescription" (VStr ""));
    AddIfNotEmpty "PersonalizedSubject" (Param "taskCreatePersonalizedSubject" (VStr ""));
    AddIfNotEmpty "PersonalizedContent" (Param "taskCreatePersonalizedContent" (VStr ""));
    AssignAdditional "dataAdditionalFields" ].

Definition activitySearchBody : list stmt :=
  [ AddIfNotEmpty "Subject" (Param "activitySearchSubject" (VStr ""));
    AddIfNotEmpty "AccountId" (Param "activitySearchAccountId" (VStr ""));
    AddIfNotEmpty "ProspectId" (Param "activitySearchProspectId" (VStr ""));
    AddIfNotEmpty "OpportunityId" (Param "activitySearchOpportunityId" (VStr ""));
    AddIfNotEmpty "UserId" (Param "activitySearchUserId" (VStr ""));
    AddIfNotEmpty "ObjectId" (Param "activitySearchObjectId" (VStr ""));
    Nested "Pagination"
      [ AddIfNotEmpty "Limit" (Param "activitySearchLimit" (VNum 50));
        AddIfNotEmpty "Offset" (Param "activitySearchOffset" (VNum 0)) ];
    AddIfNotEmpty "CreatedDateMin" (Param "activitySearchCreatedDateMin" (VStr ""));
    AddIfNotEmpty "CreatedDateMax" (Param "activitySearchCreatedDateMax" (VStr ""));
    AddIfNotEmpty "LastModifiedDateMin" (Param "activitySearchLastModifiedDateMin" (VStr ""));
    AddIfNotEmpty "LastModifiedDateMax" (Param "activitySearchLastModifiedDateMax" (VStr ""));
    AddIfNotEmpty "ActivityDateMin" (Param "activitySearchActivityDateMin" (VStr ""));
    AddIfNotEmpty "ActivityDateMax" (Param "activitySearchActivityDateMax" (VStr ""));
    AddIfNotEmpty "FirstAnswerDatetimeMin" (Param "activitySearchFirstAnswerDatetimeMin" (VStr ""));
    AddIfNotEmpty "FirstAnswerDatetimeMax" (Param "activitySearchFirstAnswerDatetimeMax" (VStr ""));
    AddIfNotEmpty "FirstTrackDatetimeMin" (Param "activitySearchFirstTrackDatetimeMin" (VStr ""));
    AddIfNotEmpty "FirstTrackDatetimeMax" (Param "activitySearchFirstTrackDatetimeMax" (VStr ""));
    AddIfNotEmpty "TaskSubtype" (Param "activitySearchTaskSubtype" (VStr ""));
    SetIfTruthy "CronoObjectId" (Param "activitySearchCronoObjectId" (VNum 0));
    Nested "Include"
      [ SetTrueIf "WithAccount" (Param "activitySearchIncludeAccount" (VBool false));
        SetTrueIf "WithProspect" (Param "activitySearchIncludeProspect" (VBool false));
        SetTrueIf "WithEmailLog" (Param "activitySearchIncludeEmailLog" (VBool false));
        SetTrueIf "WithCallLog" (Param "activitySearchIncludeCallLog" (VBool false));
        SetTrueIf "WithLinkedinLog" (Param "activitySearchIncludeLinkedinLog" (VBool false));
        SetTrueIf "WithOpportunity" (Param "activitySearchIncludeOpportunity" (VBool false)) ];
    AssignAdditional "searchAdditionalFields" ].

Definition listSearchBody : list stmt :=
  [ AddIfNotEmpty "Name" (Param "listSearchName" (VStr ""));
    AddIfNotEmpty "AccountId" (Param "listSearchAccountId" (VStr ""));
    AddIfNotEmpty "ProspectId" (Param "listSearchProspectId" (VStr ""));
    SetIfTruthy "StrategyId" (Param "listSearchStrategyId" (VNum 0));
    SetIfTruthy "TemplateId" (Param "listSearchTemplateId" (VNum 0));
    Nested "Pagination"
      [ AddIfNotEmpty "Limit" (Param "listSearchLimit" (VNum 50));
        AddIfNotEmpty "Offset" (Param "listSearchOffset" (VNum 0)) ];
    AddIfNotEmpty "Type" (Param "listSearchType" (VStr "Account"));
    AddIfNotEmpty "SortType" (Param "listSearchSortType" (VStr ""));
    AssignAdditional "searchAdditionalFields" ].

Definition strategyDetailsBody : list stmt :=
  [ Assign "StrategyId" (Param "strategyDetailsStrategyId" (VNum 0));
    AddIfNotEmpty "Text" (Param "strategyDetailsText" (VStr ""));
    Nested "Pagination"
      [ AddIfNotEmpty "Limit" (Param "strategyDetailsLimit" (VNum 50));
        AddIfNotEmpty "Offset" (Param "strategyDetailsOffset" (VNum 0)) ];
    AddIfNotEmpty "Sort" (Param "strategyDetailsSort" (VStr "ContactsAsc"));
    AddIfNotEmpty "Status" (Param "strategyDetailsStatus" (VStr ""));
    SetIfLength "OnlySpecificTask" (Param "strategyDetailsOnlySpecificTask" (VArr []));
    SetTrueIf "OnlyMySequences" (Param "strategyDetailsOnlyMySequences" (VBool false));
    SetTrueIf "OnlyMyProspects" (Param "strategyDetailsOnlyMyProspects" (VBool false));
    AssignAdditional "searchAdditionalFields" ].

Definition strategySearchBody : list stmt :=
  [ AddIfNotEmpty "Name" (Param "strategySearchName" (VStr ""));
    AddIfNotEmpty "AccountId" (Param "strategySearchAccountId" (VStr ""));
    AddIfNotEmpty "ProspectId" (Param "strategySearchProspectId" (VStr ""));
    AddIfNotEmpty "UserId" (Param "strategySearchUserId" (VStr ""));
    SetCsv "Ids" (Param "strategySearchIds" (VStr ""));
    Nested "Pagination"
      [ AddIfNotEmpty "Limit" (Param "strategySearchLimit" (VNum 50));
        AddIfNotEmpty "Offset" (Param "strategySearchOffset" (VNum 0)) ];
    AddIfNotEmpty "Sort" (Param "strategySearchSort" (VStr ""));
    SetIfJsonKeys "StrategyTags" "strategySearchTags";
    Nested "IncludeOptions"
      [ SetTrueIf "WithActiveSequenceInstances" (Param "strategySearchIncludeActiveSequenceInstances" (VBool false));
        SetTrueIf "WithAnalytics" (Param "strategySearchIncludeAnalytics" (VBool false));
        SetTrueIf "WithSequence" (Param "strategySearchIncludeSequence" (VBool false));
        SetTrueIf "WithUsers" (Param "strategySearchIncludeUsers" (VBool false)) ];
    AssignAdditional "searchAdditionalFields" ].

Definition externalPropertySearchBody : list stmt :=
  [ AddIfNotEmpty "TableType" (Param "externalPropertySearchTableType" (VStr ""));
    SetTrueIf "OnlyInsert" (Param "externalPropertySearchOnlyInsert" (VBool false));
    SetTrueIf "OnlyTag" (Param "externalPropertySearchOnlyTag" (VBool false));
    SetTrueIf "WithLead" (Param "externalPropertySearchWithLead" (VBool false));
    SetTrueIf "IsImported" (Param "externalPropertySearchIsImported" (VBool false));
    SetTrueIf "IsStatus" (Param "externalPropertySearchIsStatus" (VBool false));
    SetTrueIf "IsFilter" (Param "externalPropertySearchIsFilter" (VBool false));
    SetTrueIf "OnlyAiVariables" (Param "externalPropertySearchOnlyAiVariables" (VBool false));
    AssignAdditional "searchAdditionalFields" ].

Definition userSearchBody : list stmt :=
  [ AddIfNotEmpty "Email" (Param "userSearchEmail" (VStr ""));
    SetTrueIf "Active" (Param "userSearchActive" (VBool false));
    Nested "Pagination"
      [ AddIfNotEmpty "Limit" (Param "userSearchLimit" (VNum 50));
        AddIfNotEmpty "Offset" (Param "userSearchOffset" (VNum 0)) ];
    AssignAdditional "searchAdditionalFields" ].

Section Node.

Variable JSON : JsonParser.

(** ** Parameter extractor *)

Definition invalidJsonMessage (parameterName : string) : string :=
  "Parameter " +:+ dquote +:+ parameterName +:+ dquote +:+ " is not valid JSON.".

Definition getJsonParameter (executeFunctions : IExecuteFunctions)
    (parameterName : string) (itemIndex : nat) (defaultValue : IDataObject)
    : result value :=
  value ← getNodeParameter executeFunctions parameterName itemIndex
            (VObj defaultValue);
  if is_empty value then Ok (VObj defaultValue)
  else
    match value with
    | VStr s =>
        match JSON_parse JSON s with
        | Some parsed =>
            if truthy parsed && typeof_object parsed then Ok parsed
            else Ok value
        | None =>
            Err (NodeOperationError (invalidJsonMessage parameterName) itemIndex)
        end
    | _ => Ok value
    end.

(** ** Additional-fields merger and the small helpers *)

Definition addIfNotEmpty (target : IDataObject) (key : string) (value : value)
    : IDataObject :=
  if negb (is_empty value) then <[key := value]> target else target.

(** [o[key] = v] on a plain object.  The name [__proto__] reaches the
    setter inherited from [Object.prototype], which creates no own
    property. *)
Definition set_property (o : IDataObject) (key : string) (v : value)
    : IDataObject :=
  if String.eqb key "__proto__" then o else <[key := v]> o.

(** The body of [for (const entry of entries)]. *)
Fixpoint additionalLoop (entries : list value) (additional : IDataObject)
    : result IDataObject :=
  match entries with
  | [] => Ok additional
  | entry :: rest =>
      field ← get_prop entry "field";
      if truthy field then
        v ← get_prop entry "value";
        additionalLoop rest
          (set_property additional (toString field) (nullish_or v (VStr "")))
      else additionalLoop rest additional
  end.

Definition getAdditionalFields (executeFunctions : IExecuteFunctions)
    (parameterName : string) (itemIndex : nat) : result IDataObject :=
  entries ← getNodeParameter executeFunctions parameterName itemIndex (VArr []);
  match entries with
  | VArr l => additionalLoop l ∅
  | VStr _ => Ok ∅
  | _ => Err (TypeError "entries is not iterable")
  end.

Definition parseCsv (value : value) : result (list string) :=
  if negb (truthy value) then Ok []
  else
    match value with
    | VStr s =>
        Ok (List.filter (fun item => negb (Nat.eqb (String.length item) 0))
              (List.map trim (split_comma s)))
    | _ => Err (TypeError "value.split is not a function")
    end.

(** ** HTTP executor *)

(** [v && Object.keys(v).length]: the mapping is attached when it is
    truthy and has a key. *)
Definition attachable (v : value) : bool :=
  truthy v &&
  match Object_keys_length v with
  | Ok n => negb (Nat.eqb n 0)
  | Err _ => false
  end.

Definition defaultBaseUrl : string := "https://ext.crono.one".

(** The [options] object [cronoApiRequest] hands to the HTTP helper. *)
Definition requestOptions (this : IExecuteFunctions)
    (method : IHttpRequestMethods) (endpoint : string) (qs body : value)
    : IHttpRequestOptions :=
  let credentials := getCredentials this "cronoPublicApi" in
  let stored := default VUndefined (credentials !! "baseUrl") in
  let baseUrl := if truthy stored then stored else VStr defaultBaseUrl in
  {| method := method;
     url := toString baseUrl +:+ endpoint;
     json := true;
     qs := if attachable qs then Some qs else None;
     body := if attachable body then Some body else None |}.

Definition cronoApiRequest (this : IExecuteFunctions)
    (method : IHttpRequestMethods) (endpoint : string) (qs body : value)
    : result value :=
  httpRequestWithAuthentication this "cronoPublicApi"
    (requestOptions this method endpoint qs body).

(** ** Running the field statements *)

Section Exec.

Variable this : IExecuteFunctions.
Variable itemIndex : nat.

Definition eval_operand (entry : value) (e : operand) : result value :=
  match e with
  | Param parameterName fallbackValue =>
      getNodeParameter this parameterName itemIndex fallbackValue
  | Entry property => get_prop entry property
  end.

(** The callback of [.map], applied to each element in turn. *)
Fixpoint mapEntries (f : value → result IDataObject) (l : list value)
    : result (list value) :=
  match l with
  | [] => Ok []
  | x :: rest =>
      match f x with
      | Ok o =>
          match mapEntries f rest with
          | Ok os => Ok (VObj o :: os)
          | Err e => Err e
          end
      | Err e => Err e
      end
  end.

Fixpoint exec_stmt (entry : value) (s : stmt) (target : IDataObject)
    {struct s} : result IDataObject :=
  let run :=
    fun (entry' : value) =>
      fix run (fields : list stmt) (o : IDataObject) {struct fields}
          : result IDataObject :=
        match fields with
        | [] => Ok o
        | f :: rest =>
            match exec_stmt entry' f o with
            | Ok o' => run rest o'
            | Err e => Err e
            end
        end in
  match s with
  | AddIfNotEmpty key e =>
      v ← eval_operand entry e;
      Ok (addIfNotEmpty target key v)
  | SetIfTruthy key e =>
      v ← eval_operand entry e;
      Ok (if truthy v then <[key := v]> target else target)
  | SetTrueIf key e =>
      v ← eval_operand entry e;
      Ok (if truthy v then <[key := VBool true]> target else target)
  | SetIfLength key e =>
      v ← eval_operand entry e;
      b ← has_length v;
      Ok (if (b : bool) then <[key := v]> target else target)
  | SetIfJsonKeys key parameterName =>
      v ← getJsonParameter this parameterName itemIndex ∅;
      n ← Object_keys_length v;
      Ok (if Nat.eqb n 0 then target else <[key := v]> target)
  | SetIfPropKeys key property =>
      v ← get_prop entry property;
      if truthy v then
        n ← Object_keys_length v;
        Ok (if Nat.eqb n 0 then target else <[key := v]> target)
      else Ok target
  | SetCsv key e =>
      v ← eval_operand entry e;
      l ← parseCsv v;
      Ok (if Nat.eqb (length l) 0 then target
          else <[key := VArr (VStr <$> l)]> target)
  | SetCsvInts key e =>
      v ← eval_operand entry e;
      l ← parseCsv v;
      Ok (if Nat.eqb (length l) 0 then target
          else <[key := VArr (parseInt <$> l)]> target)
  | Assign key e =>
      v ← eval_operand entry e;
      Ok (<[key := v]> target)
  | Nested key fields =>
      match run entry fields ∅ with
      | Ok o =>
          Ok (if Nat.eqb (size o) 0 then target else <[key := VObj o]> target)
      | Err e => Err e
      end
  | MapEntries key parameterName property fields =>
      container ← getNodeParameter this parameterName itemIndex (VObj ∅);
      entries ← get_prop container property;
      match nullish_or entries (VArr []) with
      | VArr l =>
          match mapEntries (fun entry' => run entry' fields ∅) l with
          | Ok xs =>
              Ok (if Nat.eqb (length xs) 0 then target
                  else <[key := VArr xs]> target)
          | Err e => Err e
          end
      | _ => Err (TypeError "map is not a function")
      end
  | AssignAdditional parameterName =>
      additional ← getAdditionalFields this parameterName itemIndex;
      Ok (Object_assign target additional)
  end.

(** A block of statements, run in order. *)
Fixpoint exec_stmts (entry : value) (fields : list stmt) (o : IDataObject)
    : result IDataObject :=
  match fields with
  | [] => Ok o
  | f :: rest =>
      match exec_stmt entry f o with
      | Ok o' => exec_stmts entry rest o'
      | Err e => Err e
      end
  end.

End Exec.

(** ** Resource dispatcher *)

(** What one iteration of [execute] hands to [cronoApiRequest]; a body of
    [VUndefined] is the unassigned [let body]. *)
Record RequestSpec := {
  req_method : IHttpRequestMethods;
  req_endpoint : string;
  req_qs : value;
  req_body : value
}.

(** [v === 'literal']. *)
Definition streq (v : value) (literal : string) : bool :=
  match v with
  | VStr s => String.eqb s literal
  | _ => false
  end.

Section Dispatch.

Variable this : IExecuteFunctions.
Variable itemIndex : nat.
(** The locals of [execute] that are set before [switch (resource)]. *)
Variable basePath : string.
Variable operation useRawJsonData useRawJsonSearch : value.
Variable qs : IDataObject.

(** [useRawJsonSearch ? getJsonParameter(this, 'search', itemIndex)
     : the structured searchBody]. *)
Definition searchPayload (fields : list stmt) : result value :=
  if truthy useRawJsonSearch then getJsonParameter this "search" itemIndex ∅
  else
    searchBody ← exec_stmts this itemIndex VUndefined fields ∅;
    Ok (VObj searchBody).

(** [const data = useRawJsonData ? getJsonParameter(this, 'data', itemIndex)
     : {}; if (!useRawJsonData) { fields on data }]. *)
Definition dataPayload (fields : list stmt) : result value :=
  if truthy useRawJsonData then getJsonParameter this "data" itemIndex ∅
  else
    data ← exec_stmts this itemIndex VUndefined fields ∅;
    Ok (VObj data).

(** [{ data }]. *)
Definition wrapData (data : value) : value :=
  VObj {["data" := data]}.

(** [{ data, ...(Object.keys(scrapeOptions).length ? { scrapeOptions } : {}) }]. *)
Definition wrapDataWithScrapeOptions (data : value) : result value :=
  scrapeOptions ← getJsonParameter this "scrapeOptions" itemIndex ∅;
  n ← Object_keys_length scrapeOptions;
  Ok (VObj (if Nat.eqb n 0 then {["data" := data]}
            else <["scrapeOptions" := scrapeOptions]> {["data" := data]})).

Definition request (method : IHttpRequestMethods) (endpoint : string)
    (qs body : value) : RequestSpec :=
  {| req_method := method; req_endpoint := endpoint;
     req_qs := qs; req_body := body |}.

Definition companyCase : result RequestSpec :=
  let endpoint := basePath +:+ "/Accounts" in
  if streq operation "get" then
    objectId ← getNodeParameter this "objectId" itemIndex VUndefined;
    includeOptions ← getJsonParameter this "includeOptions" itemIndex ∅;
    Ok (request GET (endpoint +:+ "/" +:+ toString objectId)
          includeOptions VUndefined)
  else if streq operation "getAll" then
    includeOptions ← getJsonParameter this "includeOptions" itemIndex ∅;
    Ok (request GET endpoint
          (VObj (Object_assign qs (spread includeOptions))) VUndefined)
  else if streq operation "search" then
    body ← searchPayload companySearchBody;
    Ok (request POST (endpoint +:+ "/search") (VObj qs) body)
  else if streq operation "create" then
    data ← dataPayload companyCreateData;
    body ← wrapDataWithScrapeOptions data;
    Ok (request POST endpoint (VObj qs) body)
  else if streq operation "update" then
    data ← dataPayload companyUpdateData;
    Ok (request PATCH endpoint (VObj qs) (wrapData data))
  else if streq operation "import" then
    data ← dataPayload companyImportData;
    Ok (request POST (endpoint +:+ "/import") (VObj qs) (wrapData data))
  else Ok (request GET endpoint (VObj qs) VUndefined).

Definition contactCase : result RequestSpec :=
  let endpoint := basePath +:+ "/Prospects" in
  if streq operation "get" then
    objectId ← getNodeParameter this "objectId" itemIndex VUndefined;
    includeOptions ← getJsonParameter this "includeOptions" itemIndex ∅;
    Ok (request GET (endpoint +:+ "/" +:+ toString objectId)
          includeOptions VUndefined)
  else if streq operation "getAll" then
    includeOptions ← getJsonParameter this "includeOptions" itemIndex ∅;
    Ok (request GET endpoint
          (VObj (Object_assign qs (spread includeOptions))) VUndefined)
  else if streq operation "search" then
    body ← searchPayload contactSearchBody;
    Ok (request POST (endpoint +:+ "/search") (VObj qs) body)
  else if streq operation "create" then
    data ← dataPayload contactCreateData;
    body ← wrapDataWithScrapeOptions data;
    Ok (request POST endpoint (VObj qs) body)
  else if streq operation "update" then
    data ← dataPayload contactUpdateData;
    Ok (request PATCH endpoint (VObj qs) (wrapData data))
  else if streq operation "import" then
    data ← dataPayload contactImportData;
    Ok (request POST (endpoint +:+ "/import") (VObj qs) (wrapData data))
  else Ok (request GET endpoint (VObj qs) VUndefined).

Definition dealCase : result RequestSpec :=
  let endpoint := basePath +:+ "/Opportunities" in
  if streq operation "get" then
    objectId ← getNodeParameter this "objectId" itemIndex VUndefined;
    includeOptions ← getJsonParameter this "includeOptions" itemIndex ∅;
    Ok (request GET (endpoint +:+ "/" +:+ toString objectId)
          includeOptions VUndefined)
  else if streq operation "getAll" then
    includeOptions ← getJsonParameter this "includeOptions" itemIndex ∅;
    Ok (request GET endpoint
          (VObj (Object_assign qs (spread includeOptions))) VUndefined)
  else if streq operation "search" then
    body ← searchPayload dealSearchBody;
    Ok (request POST (endpoint +:+ "/search") (VObj qs) body)
  else if streq operation "create" then
    data ← dataPayload dealCreateData;
    Ok (request POST endpoint (VObj qs) (wrapData data))
  else if streq operation "update" then
    data ← dataPayload dealUpdateData;
    Ok (request PATCH endpoint (VObj qs) (wrapData data))
  else Ok (request GET endpoint (VObj qs) VUndefined).

Definition noteCase : result RequestSpec :=
  let endpoint := basePath +:+ "/Notes" in
  if streq operation "get" then
    objectId ← getNodeParameter this "objectId" itemIndex VUndefined;
    includeOptions ← getJsonParameter this "includeOptions" itemIndex ∅;
    Ok (request GET (endpoint +:+ "/" +:+ toString objectId)
          includeOptions VUndefined)
  else if streq operation "getAll" then
    includeOptions ← getJsonParameter this "includeOptions" itemIndex ∅;
    Ok (request GET endpoint
          (VObj (Object_assign qs (spread includeOptions))) VUndefined)
  else if streq operation "search" then
    body ← searchPayload noteSearchBody;
    Ok (request POST (endpoint +:+ "/search") (VObj qs) body)
  else if streq operation "create" then
    data ← dataPayload noteCreateData;
    Ok (request POST endpoint (VObj qs) (wrapData data))
  else Ok (request GET endpoint (VObj qs) VUndefined).

Definition taskCase : result RequestSpec :=
  let endpoint := basePath +:+ "/Tasks" in
  if streq operation "search" then
    withOpportunities ←
      getNodeParameter this "withOpportunities" itemIndex (VBool false);
    let qs : IDataObject :=
      if truthy withOpportunities
      then {["withOpportunities" := withOpportunities]} else ∅ in
    body ← searchPayload taskSearchBody;
    Ok (request POST (endpoint +:+ "/search") (VObj qs) body)
  else if streq operation "create" then
    data ← dataPayload taskCreateData;
    Ok (request POST endpoint (VObj qs) (wrapData data))
  else Ok (request GET endpoint (VObj qs) VUndefined).

Definition activityCase : result RequestSpec :=
  let endpoint := basePath +:+ "/Activities" in
  if streq operation "get" then
    objectId ← getNodeParameter this "objectId" itemIndex VUndefined;
    includeOptions ← getJsonParameter this "includeOptions" itemIndex ∅;
    Ok (request GET (endpoint +:+ "/" +:+ toString objectId)
          includeOptions VUndefined)
  else if streq operation "getAll" then
    includeOptions ← getJsonParameter this "includeOptions" itemIndex ∅;
    Ok (request GET endpoint
          (VObj (Object_assign qs (spread includeOptions))) VUndefined)
  else if streq operation "search" then
    body ← searchPayload activitySearchBody;
    Ok (request POST (endpoint +:+ "/search") (VObj qs) body)
  else Ok (request GET endpoint (VObj qs) VUndefined).

Definition listCase : result RequestSpec :=
  body ← searchPayload listSearchBody;
  Ok (request POST (basePath +:+ "/CronoLists/search") (VObj qs) body).

Definition pipelineCase : result RequestSpec :=
  Ok (request GET (basePath +:+ "/Pipelines") (VObj qs) VUndefined).

Definition strategyCase : result RequestSpec :=
  let endpoint :=
    basePath +:+ "/Strategies/" +:+
    (if streq operation "searchDetails" then "details" else "search") in
  body ←
    (if truthy useRawJsonSearch
     then getJsonParameter this "search" itemIndex ∅
     else if streq operation "searchDetails" then
       searchBody ← exec_stmts this itemIndex VUndefined strategyDetailsBody ∅;
       Ok (VObj searchBody)
     else
       searchBody ← exec_stmts this itemIndex VUndefined strategySearchBody ∅;
       Ok (VObj searchBody));
  Ok (request POST endpoint (VObj qs) body).

Definition externalPropertyCase : result RequestSpec :=
  body ← searchPayload externalPropertySearchBody;
  Ok (request POST (basePath +:+ "/ExternalProperties/search") (VObj qs) body).

Definition userCase : result RequestSpec :=
  let endpoint := basePath +:+ "/Users" in
  if streq operation "get" then
    userId ← getNodeParameter this "userId" itemIndex VUndefined;
    Ok (request GET (endpoint +:+ "/" +:+ toString userId) (VObj qs) VUndefined)
  else if streq operation "getAll" then
    Ok (request GET endpoint (VObj qs) VUndefined)
  else if streq operation "search" then
    body ← searchPayload userSearchBody;
    Ok (request POST (endpoint +:+ "/search") (VObj qs) body)
  else Ok (request GET endpoint (VObj qs) VUndefined).

Definition importCase : result RequestSpec :=
  let endpoint := basePath +:+ "/Import" in
  if streq operation "get" then
    importId ← getNodeParameter this "importId" itemIndex VUndefined;
    Ok (request GET (endpoint +:+ "/" +:+ toString importId) (VObj qs)
          VUndefined)
  else if streq operation "getAll" then
    importType ← getNodeParameter this "importType" itemIndex VUndefined;
    importStatus ← getNodeParameter this "importStatus" itemIndex VUndefined;
    let qs := if truthy importType then <["type" := importType]> qs else qs in
    let qs :=
      if truthy importStatus then <["statusType" := importStatus]> qs else qs in
    Ok (request GET endpoint (VObj qs) VUndefined)
  else Ok (request GET endpoint (VObj qs) VUndefined).

End Dispatch.

Definition unsupportedResourceMessage (resource : value) : string :=
  "Unsupported resource: " +:+ toString resource.

(** [switch (resource) { ... }]. *)
Definition switchResource (this : IExecuteFunctions) (itemIndex : nat)
    (resource operation : value) (basePath : string)
    (useRawJsonData useRawJsonSearch : value) (qs : IDataObject)
    : result RequestSpec :=
  if streq resource "company" then
    companyCase this itemIndex basePath operation useRawJsonData
      useRawJsonSearch qs
  else if streq resource "contact" then
    contactCase this itemIndex basePath operation useRawJsonData
      useRawJsonSearch qs
  else if streq resource "deal" then
    dealCase this itemIndex basePath operation useRawJsonData
      useRawJsonSearch qs
  else if streq resource "note" then
    noteCase this itemIndex basePath operation useRawJsonData
      useRawJsonSearch qs
  else if streq resource "task" then
    taskCase this itemIndex basePath operation useRawJsonData
      useRawJsonSearch qs
  else if streq resource "activity" then
    activityCase this itemIndex basePath operation useRawJsonSearch qs
  else if streq resource "list" then
    listCase this itemIndex basePath useRawJsonSearch qs
  else if streq resource "pipeline" then
    pipelineCase basePath qs
  else if streq resource "strategy" then
    strategyCase this itemIndex basePath operation useRawJsonSearch qs
  else if streq resource "externalProperty" then
    externalPropertyCase this itemIndex basePath useRawJsonSearch qs
  else if streq resource "user" then
    userCase this itemIndex basePath operation useRawJsonSearch qs
  else if streq resource "import" then
    importCase this itemIndex basePath operation qs
  else
    Err (NodeOperationError (unsupportedResourceMessage resource) itemIndex).

(** [if (operation === 'getAll') { qs = { limit, offset }; }]. *)
Definition initialQs (this : IExecuteFunctions) (itemIndex : nat)
    (operation : value) : result IDataObject :=
  if streq operation "getAll" then
    limit ← getNodeParameter this "limit" itemIndex (VNum 50);
    offset ← getNodeParameter this "offset" itemIndex (VNum 0);
    Ok (<["offset" := offset]> (<["limit" := limit]> (∅ : IDataObject)))
  else Ok ∅.

(** The body of the item loop up to the call of [cronoApiRequest]. *)
Definition buildRequest (this : IExecuteFunctions) (itemIndex : nat)
    : result RequestSpec :=
  resource ← getNodeParameter this "resource" itemIndex VUndefined;
  operation ← getNodeParameter this "operation" itemIndex VUndefined;
  apiVersion ← getNodeParameter this "apiVersion" itemIndex (VStr "1");
  let basePath := "/api/v" +:+ toString apiVersion in
  useRawJsonData ←
    getNodeParameter this "useRawJsonData" itemIndex (VBool false);
  useRawJsonSearch ←
    getNodeParameter this "useRawJsonSearch" itemIndex (VBool false);
  qs ← initialQs this itemIndex operation;
  switchResource this itemIndex resource operation basePath useRawJsonData
    useRawJsonSearch qs.

(** ** The item loop *)

Record INodeExecutionData := {
  data_json : value;
  data_pairedItem : nat
}.

Definition executeItem (this : IExecuteFunctions) (itemIndex : nat)
    : result INodeExecutionData :=
  spec ← buildRequest this itemIndex;
  responseData ←
    cronoApiRequest this (req_method spec) (req_endpoint spec) (req_qs spec)
      (req_body spec);
  Ok {| data_json := responseData; data_pairedItem := itemIndex |}.

(** [for (let itemIndex = 0; itemIndex < items.length; itemIndex++)], with
    [remaining] iterations left. *)
Fixpoint executeLoop (this : IExecuteFunctions) (remaining itemIndex : nat)
    (returnData : list INodeExecutionData) : result (list INodeExecutionData) :=
  match remaining with
  | O => Ok returnData
  | S remaining' =>
      item ← executeItem this itemIndex;
      executeLoop this remaining' (S itemIndex) (returnData ++ [item])
  end.

Definition execute (this : IExecuteFunctions)
    : result (list INodeExecutionData) :=
  executeLoop this (getInputData this) 0 [].

End Node.

(** ** A concrete [JSON.parse] for examples

    A reader for the JSON texts built from [null], [true], [false],
    integers, strings without escapes, arrays and objects.  The theorems
    below hold for every [JsonParser]; this one instantiates them. *)

Definition json_ws (a : ascii) : bool :=
  match a with
  | " " | "009" | "010" | "013" => true
  | _ => false
  end%char.

Fixpoint skip_ws (s : string) : string :=
  match s with
  | String a rest => if json_ws a then skip_ws rest else s
  | EmptyString => ""
  end.

Fixpoint strip_prefix (p s : string) : option string :=
  match p, s with
  | EmptyString, _ => Some s
  | String a p', String b s' => if Ascii.eqb a b then strip_prefix p' s' else None
  | String _ _, EmptyString => None
  end.

(** The characters of a string literal up to the closing quote. *)
Fixpoint read_string (s : string) : option (string * string) :=
  match s with
  | EmptyString => None
  | String a rest =>
      if Ascii.eqb a "034"%char then Some ("", rest)
      else if Ascii.eqb a "\"%char then None
      else
        match read_string rest with
        | Some (str, rest') => Some (String a str, rest')
        | None => None
        end
  end.

Fixpoint read_digits (s : string) : string * string :=
  match s with
  | String a rest =>
      match Ascii.is_nat a with
      | Some _ => let '(ds, rest') := read_digits rest in (String a ds, rest')
      | None => ("", s)
      end
  | EmptyString => ("", "")
  end.

Definition read_number (negative : bool) (s : string) : option (value * string) :=
  let '(ds, rest) := read_digits s in
  match ds with
  | EmptyString => None
  | String "0"%char (String _ _) => None
  | _ =>
      match digits_prefix ds None with
      | Some n => Some (numberOfInteger (if negative then - n else n), rest)
      | None => None
      end
  end.

Fixpoint read_value (fuel : nat) (s : string) : option (value * string) :=
  match fuel with
  | O => None
  | S fuel =>
      match skip_ws s with
      | String "n"%char rest =>
          rest' ← strip_prefix "ull" rest; Some (VNull, rest')
      | String "t"%char rest =>
          rest' ← strip_prefix "rue" rest; Some (VBool true, rest')
      | String "f"%char rest =>
          rest' ← strip_prefix "alse" rest; Some (VBool false, rest')
      | String "034"%char rest =>
          '(str, rest') ← read_string rest; Some (VStr str, rest')
      | String "-"%char rest => read_number true rest
      | String "["%char rest =>
          match skip_ws rest with
          | String "]"%char rest' => Some (VArr [], rest')
          | _ => '(l, rest') ← read_elements fuel rest; Some (VArr l, rest')
          end
      | String "{"%char rest =>
          match skip_ws rest with
          | String "}"%char rest' => Some (VObj ∅, rest')
          | _ => '(m, rest') ← read_members fuel rest ∅; Some (VObj m, rest')
          end
      | s' => read_number false s'
      end
  end
with read_elements (fuel : nat) (s : string) : option (list value * string) :=
  match fuel with
  | O => None
  | S fuel =>
      '(v, rest) ← read_value fuel s;
      match skip_ws rest with
      | String ","%char rest' =>
          '(l, rest'') ← read_elements fuel rest'; Some (v :: l, rest'')
      | String "]"%char rest' => Some ([v], rest')
      | _ => None
      end
  end
with read_members (fuel : nat) (s : string) (m : IDataObject)
    : option (IDataObject * string) :=
  match fuel with
  | O => None
  | S fuel =>
      match skip_ws s with
      | String "034"%char rest =>
          '(key, rest) ← read_string rest;
          match skip_ws rest with
          | String ":"%char rest =>
              '(v, rest) ← read_value fuel rest;
              match skip_ws rest with
              | String ","%char rest' => read_members fuel rest' (<[key := v]> m)
              | String "}"%char rest' => Some (<[key := v]> m, rest')
              | _ => None
              end
          | _ => None
          end
      | _ => None
      end
  end.

Definition parseJsonText (s : string) : option value :=
  '(v, rest) ← read_value (S (String.length s)) s;
  match skip_ws rest with
  | EmptyString => Some v
  | _ => None
  end.

Definition subsetJson : JsonParser :=
  {| JSON_parse := parseJsonText; JSON_parse_empty := eq_refl |}.

(** A host with the given node parameters (the same for every item), one
    input item, the given credentials, and an HTTP helper that echoes the
    URL it was asked for. *)
Definition hostWith (parameters credentials : IDataObject) : IExecuteFunctions :=
  {| getInputData := 1;
     nodeParameters := fun _ => parameters;
     getCredentials := fun _ => credentials;
     httpRequestWithAuthentication := fun _ options => Ok (VStr (url options)) |}.

(** ** Vocabulary of the properties *)

(** The resources [switch (resource)] has a case for, in source order. *)
Definition supportedResources : list string :=
  ["company"; "contact"; "deal"; "note"; "task"; "activity"; "list";
   "pipeline"; "strategy"; "externalProperty"; "user"; "import"].

(** The collection segment each case appends to the base path. *)
Definition collection (resource : string) : string :=
  if String.eqb resource "company" then "Accounts"
  else if String.eqb resource "contact" then "Prospects"
  else if String.eqb resource "deal" then "Opportunities"
  else if String.eqb resource "note" then "Notes"
  else if String.eqb resource "task" then "Tasks"
  else if String.eqb resource "activity" then "Activities"
  else if String.eqb resource "pipeline" then "Pipelines"
  else if String.eqb resource "user" then "Users"
  else if String.eqb resource "import" then "Import"
  else "".


(** The resource and operation pairs that send a search body. *)
Definition issuesSearch (resource : string) (operation : value) : bool :=
  (bool_decide (resource ∈ ["company"; "contact"; "deal"; "note"; "task";
                            "activity"; "user"])
   && streq operation "search")
  || bool_decide (resource ∈ ["list"; "strategy"; "externalProperty"]).

(** [`${basePath}/Collection`] for the given API version. *)
Definition collectionEndpoint (apiVersion : value) (resource : string) : string :=
  ("/api/v" +:+ toString apiVersion) +:+ "/" +:+ collection resource.

(** [{"withTeam":true}] *)
Definition includeOptionsText : string :=
  "{" +:+ dquote +:+ "withTeam" +:+ dquote +:+ ":true}".

(** Example hosts. *)
Definition userGetHost : IExecuteFunctions :=
  hostWith (<["resource" := VStr "user"]> (<["operation" := VStr "get"]>
           (<["userId" := VStr "7"]>
           (<["includeOptions" := VStr includeOptionsText]> ∅)))) ∅.

Definition companyGetHost : IExecuteFunctions :=
  hostWith (<["resource" := VStr "company"]> (<["operation" := VStr "get"]>
           (<["objectId" := VStr "123"]>
           (<["includeOptions" := VStr includeOptionsText]> ∅)))) ∅.

Definition importGetAllHost : IExecuteFunctions :=
  hostWith (<["resource" := VStr "import"]> (<["operation" := VStr "getAll"]>
           (<["importType" := VStr "Account"]>
           (<["importStatus" := VStr ""]> ∅)))) ∅.


Definition pipelineHost : IExecuteFunctions :=
  hostWith (<["resource" := VStr "pipeline"]>
           (<["operation" := VStr "anything"]> ∅)) ∅.



(** *** Structured bodies *)

(** Where the dispatcher puts the object a table fills: the body itself
    ([searchBody]) or the [data] member of the body. *)
Inductive placement := InBody | InData.

(** The raw-JSON toggle and the additional-fields parameter that go with
    each placement. *)
Definition rawToggle (pl : placement) : string :=
  match pl with
  | InBody => "useRawJsonSearch"
  | InData => "useRawJsonData"
  end.

Definition additionalParameter (pl : placement) : string :=
  match pl with
  | InBody => "searchAdditionalFields"
  | InData => "dataAdditionalFields"
  end.

(** The table each resource and operation runs when the raw-JSON toggle is
    off, as the cases of the dispatcher select it. *)
Definition structuredFields (resource : string) (operation : value)
    : option (placement * list stmt) :=
  if String.eqb resource "company" then
    if streq operation "search" then Some (InBody, companySearchBody)
    else if streq operation "create" then Some (InData, companyCreateData)
    else if streq operation "update" then Some (InData, companyUpdateData)
    else if streq operation "import" then Some (InData, companyImportData)
    else None
  else if String.eqb resource "contact" then
    if streq operation "search" then Some (InBody, contactSearchBody)
    else if streq operation "create" then Some (InData, contactCreateData)
    else if streq operation "update" then Some (InData, contactUpdateData)
    else if streq operation "import" then Some (InData, contactImportData)
    else None
  else if String.eqb resource "deal" then
    if streq operation "search" then Some (InBody, dealSearchBody)
    else if streq operation "create" then Some (InData, dealCreateData)
    else if streq operation "update" then Some (InData, dealUpdateData)
    else None
  else if String.eqb resource "note" then
    if streq operation "search" then Some (InBody, noteSearchBody)
    else if streq operation "create" then Some (InData, noteCreateData)
    else None
  else if String.eqb resource "task" then
    if streq operation "search" then Some (InBody, taskSearchBody)
    else if streq operation "create" then Some (InData, taskCreateData)
    else None
  else if String.eqb resource "activity" then
    if streq operation "search" then Some (InBody, activitySearchBody)
    else None
  else if String.eqb resource "list" then Some (InBody, listSearchBody)
  else if String.eqb resource "strategy" then
    if streq operation "searchDetails" then Some (InBody, strategyDetailsBody)
    else Some (InBody, strategySearchBody)
  else if String.eqb resource "externalProperty" then
    Some (InBody, externalPropertySearchBody)
  else if String.eqb resource "user" then
    if streq operation "search" then Some (InBody, userSearchBody)
    else None
  else None.

(** The object the table filled, read back from the request. *)
Definition structuredPart (pl : placement) (spec : RequestSpec)
    : option IDataObject :=
  match pl, req_body spec with
  | InBody, VObj o => Some o
  | InData, VObj b =>
      match b !! "data" with
      | Some (VObj o) => Some o
      | _ => None
      end
  | _, _ => None
  end.

(** [o.outer.inner], when [o.outer] is an object. *)
Definition lookup2 (o : IDataObject) (outer inner : string) : option value :=
  match o !! outer with
  | Some (VObj sub) => sub !! inner
  | _ => None
  end.

(** Where a statement sits in a table: at the top level, or inside the
    nested block attached under the key [outer]. *)
Inductive position :=
  | Top
  | Inside (outer : string).

Definition located (table : list stmt) (pos : position) (s : stmt) : Prop :=
  match pos with
  | Top => s ∈ table
  | Inside outer => ∃ sub, Nested outer sub ∈ table ∧ s ∈ sub
  end.

(** The value found at that position of the finished object, and the
    top-level key under which it hangs. *)
Definition readAt (o : IDataObject) (pos : position) (key : string)
    : option value :=
  match pos with
  | Top => o !! key
  | Inside outer => lookup2 o outer key
  end.

Definition topKey (pos : position) (key : string) : string :=
  match pos with
  | Top => key
  | Inside outer => outer
  end.

(** The key a statement may write; [AssignAdditional] has none of its own. *)
Definition stmt_key (s : stmt) : option string :=
  match s with
  | AddIfNotEmpty key _ | SetIfTruthy key _ | SetTrueIf key _
  | SetIfLength key _ | SetIfJsonKeys key _ | SetIfPropKeys key _
  | SetCsv key _ | SetCsvInts key _ | Assign key _ | Nested key _
  | MapEntries key _ _ _ => Some key
  | AssignAdditional _ => None
  end.

Definition keys (fields : list stmt) : list string := omap stmt_key fields.

(** A block whose statements all have a key, each key once. *)
Definition wf_block (fields : list stmt) : bool :=
  forallb (fun s => bool_decide (is_Some (stmt_key s))) fields
  && bool_decide (NoDup (keys fields)).

(** A table: a well-formed block, whose nested blocks are well formed,
    followed by the merge of the additional fields of its placement. *)
Definition wf_table (pl : placement) (table : list stmt) : bool :=
  match rev table with
  | AssignAdditional p :: rinit =>
      String.eqb p (additionalParameter pl)
      && wf_block (rev rinit)
      && forallb (fun s => match s with
                           | Nested _ sub => wf_block sub
                           | _ => true
                           end) rinit
  | _ => false
  end.

(** The statements of a table, those of nested blocks and of [.map]
    callbacks included. *)
Definition allStatements (table : list stmt) : list stmt :=
  flat_map (fun s => match s with
                     | Nested _ sub => s :: sub
                     | MapEntries _ _ _ sub => s :: sub
                     | _ => [s]
                     end) table.

(** The node parameter a statement reads, with its fallback. *)
Definition stmt_operand (s : stmt) : option operand :=
  match s with
  | AddIfNotEmpty _ e | SetIfTruthy _ e | SetTrueIf _ e | SetIfLength _ e
  | SetCsv _ e | SetCsvInts _ e | Assign _ e => Some e
  | _ => None
  end.

(** *** The field catalog

    The parameters of the node description that feed a structured body.
    Each entry gives the resource and operation the parameter is shown
    for, the place and key of the body it fills, its type, and the value
    the code falls back to when nothing is stored. *)

Inductive fieldType :=
  | TText       (** string, options and date fields *)
  | TBoolean
  | TNumber
  | TMulti      (** multiOptions: an array of choices *)
  | TJson       (** a JSON text box *)
  | TList       (** a text holding a comma-separated list *)
  | TIdList.    (** a text holding a comma-separated list of identifiers *)

Record field := Field {
  f_resource : string;
  f_operation : string;
  f_position : position;
  f_key : string;
  f_parameter : string;
  f_type : fieldType;
  f_fallback : value
}.

Definition fieldCatalog : list field :=
  [ Field "company" "search" Top "Name" "companySearchName" TText (VStr "");
    Field "company" "search" Top "Status" "companySearchStatus" TMulti
      (VArr []);
    Field "company" "search" Top "ExternalProperties"
      "companySearchExternalProperties" TJson (VObj ∅);
    Field "company" "search" Top "ExternalPropertyNumericFilters"
      "companySearchExternalPropertyNumericFilters" TJson (VObj ∅);
    Field "company" "search" Top "ExternalPropertyEmptyIds"
      "companySearchExternalPropertyEmptyIds" TIdList (VStr "");
    Field "company" "search" Top "Industry" "companySearchIndustry" TText
      (VStr "");
    Field "company" "search" Top "Country" "companySearchCountry" TText
      (VStr "");
    Field "company" "search" Top "NumberOfEmployeesMin"
      "companySearchNumberOfEmployeesMin" TNumber (VNum 0);
    Field "company" "search" Top "NumberOfEmployeesMax"
      "companySearchNumberOfEmployeesMax" TNumber (VNum 0);
    Field "company" "search" Top "CurrentSolution"
      "companySearchCurrentSolution" TText (VStr "");
    Field "company" "search" Top "UserId" "companySearchUserId" TText
      (VStr "");
    Field "company" "search" Top "NoUser" "companySearchNoUser" TBoolean
      (VBool false);
    Field "company" "search" Top "CreatedDateMin"
      "companySearchCreatedDateMin" TText (VStr "");
    Field "company" "search" Top "CreatedDateMax"
      "companySearchCreatedDateMax" TText (VStr "");
    Field "company" "search" Top "LastActivityDateMin"
      "companySearchLastActivityDateMin" TText (VStr "");
    Field "company" "search" Top "LastActivityDateMax"
      "companySearchLastActivityDateMax" TText (VStr "");
    Field "company" "search" Top "LastModifiedDateMin"
      "companySearchLastModifiedDateMin" TText (VStr "");
    Field "company" "search" Top "LastModifiedDateMax"
      "companySearchLastModifiedDateMax" TText (VStr "");
    Field "company" "search" Top "HasLinkedin" "companySearchHasLinkedin"
      TBoolean (VBool false);
    Field "company" "search" Top "HasWebsite" "companySearchHasWebsite"
      TBoolean (VBool false);
    Field "company" "search" Top "HasPhone" "companySearchHasPhone" TBoolean
      (VBool false);
    Field "company" "search" Top "HasActivities" "companySearchHasActivities"
      TBoolean (VBool false);
    Field "company" "search" Top "HasReplies" "companySearchHasReplies"
      TBoolean (VBool false);
    Field "company" "search" Top "HasActiveTasks"
      "companySearchHasActiveTasks" TBoolean (VBool false);
    Field "company" "search" Top "HasEmailsOpened"
      "companySearchHasEmailsOpened" TBoolean (VBool false);
    Field "company" "search" Top "HasClickedLinks"
      "companySearchHasClickedLinks" TBoolean (VBool false);
    Field "company" "search" Top "CleanEmptyName"
      "companySearchCleanEmptyName" TBoolean (VBool true);
    Field "company" "search" Top "Sort" "companySearchSort" TText (VStr "");
    Field "company" "search" (Inside "Includes") "WithExternalValuesNoTags"
      "companySearchIncludeExternalValuesNoTags" TBoolean (VBool false);
    Field "company" "search" (Inside "Includes") "WithTags"
      "companySearchIncludeTags" TBoolean (VBool false);
    Field "company" "search" (Inside "Includes") "WithTasks"
      "companySearchIncludeTasks" TBoolean (VBool false);
    Field "company" "search" (Inside "Pagination") "Limit"
      "companySearchLimit" TNumber (VNum 50);
    Field "company" "search" (Inside "Pagination") "Offset"
      "companySearchOffset" TNumber (VNum 0);
    Field "company" "create" Top "Name" "companyCreateName" TText (VStr "");
    Field "company" "create" Top "NumberOfEmployees"
      "companyCreateNumberOfEmployees" TNumber (VNum 0);
    Field "company" "create" Top "AnnualRevenue" "companyCreateAnnualRevenue"
      TText (VStr "");
    Field "company" "create" Top "Website" "companyCreateWebsite" TText
      (VStr "");
    Field "company" "create" Top "Linkedin" "companyCreateLinkedin" TText
      (VStr "");
    Field "company" "create" Top "LinkedinNumericId"
      "companyCreateLinkedinNumericId" TText (VStr "");
    Field "company" "create" Top "Industry" "companyCreateIndustry" TText
      (VStr "");
    Field "company" "create" Top "Country" "companyCreateCountry" TText
      (VStr "");
    Field "company" "create" Top "Phone" "companyCreatePhone" TText (VStr "");
    Field "company" "create" Top "CreateInCrm" "companyCreateCreateInCrm"
      TBoolean (VBool false);
    Field "company" "create" Top "ExternalValues"
      "companyCreateExternalValues" TJson (VObj ∅);
    Field "company" "create" Top "OwnerId" "companyCreateOwnerId" TText
      (VStr "");
    Field "company" "create" Top "UserId" "companyCreateUserId" TNumber
      (VNum 0);
    Field "company" "create" Top "ListId" "companyCreateListId" TNumber
      (VNum 0);
    Field "company" "update" Top "Name" "companyUpdateName" TText (VStr "");
    Field "company" "update" Top "NumberOfEmployees"
      "companyUpdateNumberOfEmployees" TNumber (VNum 0);
    Field "company" "update" Top "AnnualRevenue" "companyUpdateAnnualRevenue"
      TText (VStr "");
    Field "company" "update" Top "Website" "companyUpdateWebsite" TText
      (VStr "");
    Field "company" "update" Top "Linkedin" "companyUpdateLinkedin" TText
      (VStr "");
    Field "company" "update" Top "LinkedinNumericId"
      "companyUpdateLinkedinNumericId" TText (VStr "");
    Field "company" "update" Top "Industry" "companyUpdateIndustry" TText
      (VStr "");
    Field "company" "update" Top "Country" "companyUpdateCountry" TText
      (VStr "");
    Field "company" "update" Top "Phone" "companyUpdatePhone" TText (VStr "");
    Field "company" "update" Top "ExternalValues"
      "companyUpdateExternalValues" TJson (VObj ∅);
    Field "company" "update" Top "UserId" "companyUpdateUserId" TNumber
      (VNum 0);
    Field "company" "import" Top "ImportType" "companyImportType" TText
      (VStr "");
    Field "company" "import" Top "FileName" "companyImportFileName" TText
      (VStr "");
    Field "company" "import" Top "EnrichCompany" "companyImportEnrichCompany"
      TBoolean (VBool false);
    Field "company" "import" Top "AiExternalPropertiesIdsToGenerate"
      "companyImportAiExternalPropertyIds" TIdList (VStr "");
    Field "contact" "search" Top "Name" "contactSearchName" TText (VStr "");
    Field "contact" "search" Top "Title" "contactSearchTitle" TText (VStr "");
    Field "contact" "search" Top "Country" "contactSearchCountry" TText
      (VStr "");
    Field "contact" "search" Top "ObjectIds" "contactSearchObjectIds" TList
      (VStr "");
    Field "contact" "search" Top "UserId" "contactSearchUserId" TNumber
      (VNum 0);
    Field "contact" "search" Top "Industry" "contactSearchIndustry" TText
      (VStr "");
    Field "contact" "search" Top "Location" "contactSearchLocation" TText
      (VStr "");
    Field "contact" "search" Top "ActualStatus" "contactSearchActualStatus"
      TMulti (VArr []);
    Field "contact" "search" Top "AccountStatus" "contactSearchAccountStatus"
      TMulti (VArr []);
    Field "contact" "search" Top "ExternalProperties"
      "contactSearchExternalProperties" TJson (VObj ∅);
    Field "contact" "search" Top "ExternalPropertyNumericFilters"
      "contactSearchExternalPropertyNumericFilters" TJson (VObj ∅);
    Field "contact" "search" Top "ExternalPropertyEmptyIds"
      "contactSearchExternalPropertyEmptyIds" TIdList (VStr "");
    Field "contact" "search" Top "AccountExternalProperties"
      "contactSearchAccountExternalProperties" TJson (VObj ∅);
    Field "contact" "search" Top "AccountExternalPropertyNumericFilters"
      "contactSearchAccountExternalPropertyNumericFilters" TJson (VObj ∅);
    Field "contact" "search" Top "AccountExternalPropertyEmptyIds"
      "contactSearchAccountExternalPropertyEmptyIds" TIdList (VStr "");
    Field "contact" "search" Top "NumberOfEmployeesMin"
      "contactSearchNumberOfEmployeesMin" TNumber (VNum 0);
    Field "contact" "search" Top "NumberOfEmployeesMax"
      "contactSearchNumberOfEmployeesMax" TNumber (VNum 0);
    Field "contact" "search" Top "CurrentSolution"
      "contactSearchCurrentSolution" TText (VStr "");
    Field "contact" "search" Top "NoUser" "contactSearchNoUser" TBoolean
      (VBool false);
    Field "contact" "search" Top "InSequence" "contactSearchInSequence"
      TBoolean (VBool false);
    Field "contact" "search" Top "AccountId" "contactSearchAccountId" TText
      (VStr "");
    Field "contact" "search" Top "CreatedDateMin"
      "contactSearchCreatedDateMin" TText (VStr "");
    Field "contact" "search" Top "CreatedDateMax"
      "contactSearchCreatedDateMax" TText (VStr "");
    Field "contact" "search" Top "LastActivityDateMin"
      "contactSearchLastActivityDateMin" TText (VStr "");
    Field "contact" "search" Top "LastActivityDateMax"
      "contactSearchLastActivityDateMax" TText (VStr "");
    Field "contact" "search" Top "LastModifiedDateMin"
      "contactSearchLastModifiedDateMin" TText (VStr "");
    Field "contact" "search" Top "LastModifiedDateMax"
      "contactSearchLastModifiedDateMax" TText (VStr "");
    Field "contact" "search" Top "Sort" "contactSearchSort" TText (VStr "");
    Field "contact" "search" Top "IsPhoneValid" "contactSearchIsPhoneValid"
      TBoolean (VBool false);
    Field "contact" "search" Top "VerificationStatuses"
      "contactSearchVerificationStatuses" TMulti (VArr []);
    Field "contact" "search" Top "FromContact" "contactSearchFromContact"
      TBoolean (VBool false);
    Field "contact" "search" Top "HasLinkedin" "contactSearchHasLinkedin"
      TBoolean (VBool false);
    Field "contact" "search" Top "HasEmail" "contactSearchHasEmail" TBoolean
      (VBool false);
    Field "contact" "search" Top "HasPhone" "contactSearchHasPhone" TBoolean
      (VBool false);
    Field "contact" "search" Top "HasMobilePhone"
      "contactSearchHasMobilePhone" TBoolean (VBool false);
    Field "contact" "search" Top "HasActivities" "contactSearchHasActivities"
      TBoolean (VBool false);
    Field "contact" "search" Top "HasReplies" "contactSearchHasReplies"
      TBoolean (VBool false);
    Field "contact" "search" Top "HasEmailsOpened"
      "contactSearchHasEmailsOpened" TBoolean (VBool false);
    Field "contact" "search" Top "HasConnectedCalls"
      "contactSearchHasConnectedCalls" TBoolean (VBool false);
    Field "contact" "search" Top "HasClickedLinks"
      "contactSearchHasClickedLinks" TBoolean (VBool false);
    Field "contact" "search" Top "HasActiveTasks"
      "contactSearchHasActiveTasks" TBoolean (VBool false);
    Field "contact" "search" Top "OptedOut" "contactSearchOptedOut" TBoolean
      (VBool false);
    Field "contact" "search" (Inside "Pagination") "Limit"
      "contactSearchLimit" TNumber (VNum 50);
    Field "contact" "search" (Inside "Pagination") "Offset"
      "contactSearchOffset" TNumber (VNum 0);
    Field "contact" "create" Top "FirstName" "contactCreateFirstName" TText
      (VStr "");
    Field "contact" "create" Top "LastName" "contactCreateLastName" TText
      (VStr "");
    Field "contact" "create" Top "Phone" "contactCreatePhone" TText (VStr "");
    Field "contact" "create" Top "MobilePhone" "contactCreateMobilePhone"
      TText (VStr "");
    Field "contact" "create" Top "Email" "contactCreateEmail" TText (VStr "");
    Field "contact" "create" Top "Title" "contactCreateTitle" TText (VStr "");
    Field "contact" "create" Top "Location" "contactCreateLocation" TText
      (VStr "");
    Field "contact" "create" Top "Linkedin" "contactCreateLinkedin" TText
      (VStr "");
    Field "contact" "create" Top "LinkedinLeadId"
      "contactCreateLinkedinLeadId" TText (VStr "");
    Field "contact" "create" Top "G2PublicId" "contactCreateG2PublicId" TText
      (VStr "");
    Field "contact" "create" Top "Company" "contactCreateCompany" TText
      (VStr "");
    Field "contact" "create" Top "CompanyLinkedin"
      "contactCreateCompanyLinkedin" TText (VStr "");
    Field "contact" "create" Top "CompanyLinkedinNumericId"
      "contactCreateCompanyLinkedinNumericId" TText (VStr "");
    Field "contact" "create" Top "CompanyWebsite"
      "contactCreateCompanyWebsite" TText (VStr "");
    Field "contact" "create" Top "CompanyNumberOfEmployees"
      "contactCreateCompanyNumberOfEmployees" TNumber (VNum 0);
    Field "contact" "create" Top "CompanyIndustry"
      "contactCreateCompanyIndustry" TText (VStr "");
    Field "contact" "create" Top "CompanyCountry"
      "contactCreateCompanyCountry" TText (VStr "");
    Field "contact" "create" Top "CompanyAnnualRevenue"
      "contactCreateCompanyAnnualRevenue" TText (VStr "");
    Field "contact" "create" Top "AccountId" "contactCreateAccountId" TText
      (VStr "");
    Field "contact" "create" Top "CreateAsLead" "contactCreateCreateAsLead"
      TBoolean (VBool false);
    Field "contact" "create" Top "ExternalValues"
      "contactCreateExternalValues" TJson (VObj ∅);
    Field "contact" "create" Top "StrategyId" "contactCreateStrategyId"
      TNumber (VNum 0);
    Field "contact" "create" Top "GenerateAiVariables"
      "contactCreateGenerateAiVariables" TJson (VObj ∅);
    Field "contact" "create" Top "UserId" "contactCreateUserId" TNumber
      (VNum 0);
    Field "contact" "create" Top "CountryCode" "contactCreateCountryCode"
      TText (VStr "");
    Field "contact" "create" Top "TimeZone" "contactCreateTimeZone" TText
      (VStr "");
    Field "contact" "create" Top "ListId" "contactCreateListId" TNumber
      (VNum 0);
    Field "contact" "create" Top "CreateInCrm" "contactCreateCreateInCrm"
      TBoolean (VBool false);
    Field "contact" "update" Top "FirstName" "contactUpdateFirstName" TText
      (VStr "");
    Field "contact" "update" Top "LastName" "contactUpdateLastName" TText
      (VStr "");
    Field "contact" "update" Top "Phone" "contactUpdatePhone" TText (VStr "");
    Field "contact" "update" Top "MobilePhone" "contactUpdateMobilePhone"
      TText (VStr "");
    Field "contact" "update" Top "Email" "contactUpdateEmail" TText (VStr "");
    Field "contact" "update" Top "Title" "contactUpdateTitle" TText (VStr "");
    Field "contact" "update" Top "Location" "contactUpdateLocation" TText
      (VStr "");
    Field "contact" "update" Top "Linkedin" "contactUpdateLinkedin" TText
      (VStr "");
    Field "contact" "update" Top "ExternalValues"
      "contactUpdateExternalValues" TJson (VObj ∅);
    Field "contact" "update" Top "UserId" "contactUpdateUserId" TNumber
      (VNum 0);
    Field "contact" "update" Top "CountryCode" "contactUpdateCountryCode"
      TText (VStr "");
    Field "contact" "import" Top "ImportType" "contactImportType" TText
      (VStr "");
    Field "contact" "import" Top "FileName" "contactImportFileName" TText
      (VStr "");
    Field "contact" "import" Top "FindEmail" "contactImportFindEmail" TBoolean
      (VBool false);
    Field "contact" "import" Top "FindLinkedin" "contactImportFindLinkedin"
      TBoolean (VBool false);
    Field "contact" "import" Top "FindPhone" "contactImportFindPhone" TBoolean
      (VBool false);
    Field "contact" "import" Top "VerifyEmail" "contactImportVerifyEmail"
      TBoolean (VBool false);
    Field "contact" "import" Top "AiExternalPropertiesIdsToGenerate"
      "contactImportAiExternalPropertyIds" TIdList (VStr "");
    Field "deal" "search" Top "Name" "dealSearchName" TText (VStr "");
    Field "deal" "search" Top "AccountId" "dealSearchAccountId" TText
      (VStr "");
    Field "deal" "search" Top "UserId" "dealSearchUserId" TText (VStr "");
    Field "deal" "search" Top "Stage" "dealSearchStage" TText (VStr "");
    Field "deal" "search" Top "Pipeline" "dealSearchPipeline" TText (VStr "");
    Field "deal" "search" Top "ObjectIds" "dealSearchObjectIds" TList
      (VStr "");
    Field "deal" "search" (Inside "Pagination") "Limit" "dealSearchLimit"
      TNumber (VNum 50);
    Field "deal" "search" (Inside "Pagination") "Offset" "dealSearchOffset"
      TNumber (VNum 0);
    Field "deal" "search" Top "CreatedDateMin" "dealSearchCreatedDateMin"
      TText (VStr "");
    Field "deal" "search" Top "CreatedDateMax" "dealSearchCreatedDateMax"
      TText (VStr "");
    Field "deal" "search" Top "LastModifiedDateMin"
      "dealSearchLastModifiedDateMin" TText (VStr "");
    Field "deal" "search" Top "LastModifiedDateMax"
      "dealSearchLastModifiedDateMax" TText (VStr "");
    Field "deal" "search" Top "CloseDateMin" "dealSearchCloseDateMin" TText
      (VStr "");
    Field "deal" "search" Top "CloseDateMax" "dealSearchCloseDateMax" TText
      (VStr "");
    Field "deal" "search" Top "IsWon" "dealSearchIsWon" TBoolean (VBool false);
    Field "deal" "search" Top "IsClosed" "dealSearchIsClosed" TBoolean
      (VBool false);
    Field "deal" "search" Top "AmountMin" "dealSearchAmountMin" TNumber
      (VNum 0);
    Field "deal" "search" Top "AmountMax" "dealSearchAmountMax" TNumber
      (VNum 0);
    Field "deal" "search" Top "Active" "dealSearchActive" TBoolean
      (VBool false);
    Field "deal" "search" Top "Year" "dealSearchYear" TNumber (VNum 0);
    Field "deal" "search" Top "ExternalProperties"
      "dealSearchExternalProperties" TJson (VObj ∅);
    Field "deal" "search" Top "Sort" "dealSearchSort" TText (VStr "");
    Field "deal" "search" (Inside "Includes") "WithAccount"
      "dealSearchIncludeAccount" TBoolean (VBool false);
    Field "deal" "create" Top "AccountId" "dealCreateAccountId" TText
      (VStr "");
    Field "deal" "create" Top "Name" "dealCreateName" TText (VStr "");
    Field "deal" "create" Top "Amount" "dealCreateAmount" TNumber (VNum 0);
    Field "deal" "create" Top "Stage" "dealCreateStage" TText (VStr "");
    Field "deal" "create" Top "Pipeline" "dealCreatePipeline" TText (VStr "");
    Field "deal" "create" Top "CloseDate" "dealCreateCloseDate" TText
      (VStr "");
    Field "deal" "create" Top "Description" "dealCreateDescription" TText
      (VStr "");
    Field "deal" "create" Top "ExternalValues" "dealCreateExternalValues"
      TJson (VObj ∅);
    Field "deal" "create" Top "UserId" "dealCreateUserId" TNumber (VNum 0);
    Field "deal" "update" Top "AccountId" "dealUpdateAccountId" TText
      (VStr "");
    Field "deal" "update" Top "OpportunityId" "dealUpdateOpportunityId" TText
      (VStr "");
    Field "deal" "update" Top "Name" "dealUpdateName" TText (VStr "");
    Field "deal" "update" Top "Amount" "dealUpdateAmount" TNumber (VNum 0);
    Field "deal" "update" Top "Stage" "dealUpdateStage" TText (VStr "");
    Field "deal" "update" Top "CloseDate" "dealUpdateCloseDate" TText
      (VStr "");
    Field "deal" "update" Top "Description" "dealUpdateDescription" TText
      (VStr "");
    Field "deal" "update" Top "IsClosed" "dealUpdateIsClosed" TBoolean
      (VBool false);
    Field "deal" "update" Top "IsWon" "dealUpdateIsWon" TBoolean (VBool false);
    Field "deal" "update" Top "ExternalValues" "dealUpdateExternalValues"
      TJson (VObj ∅);
    Field "deal" "update" Top "UserId" "dealUpdateUserId" TNumber (VNum 0);
    Field "note" "search" Top "DescriptionContains"
      "noteSearchDescriptionContains" TText (VStr "");
    Field "note" "search" Top "AccountId" "noteSearchAccountId" TText
      (VStr "");
    Field "note" "search" Top "OpportunityId" "noteSearchOpportunityId" TText
      (VStr "");
    Field "note" "search" Top "UserId" "noteSearchUserId" TText (VStr "");
    Field "note" "search" Top "ObjectIds" "noteSearchObjectIds" TList
      (VStr "");
    Field "note" "search" (Inside "Pagination") "Limit" "noteSearchLimit"
      TNumber (VNum 50);
    Field "note" "search" (Inside "Pagination") "Offset" "noteSearchOffset"
      TNumber (VNum 0);
    Field "note" "search" Top "CreatedDateMin" "noteSearchCreatedDateMin"
      TText (VStr "");
    Field "note" "search" Top "CreatedDateMax" "noteSearchCreatedDateMax"
      TText (VStr "");
    Field "note" "search" Top "LastModifiedDateMin"
      "noteSearchLastModifiedDateMin" TText (VStr "");
    Field "note" "search" Top "LastModifiedDateMax"
      "noteSearchLastModifiedDateMax" TText (VStr "");
    Field "note" "search" Top "Active" "noteSearchActive" TBoolean
      (VBool false);
    Field "note" "search" (Inside "Includes") "WithAccount"
      "noteSearchIncludeAccount" TBoolean (VBool false);
    Field "note" "search" (Inside "Includes") "WithOpportunity"
      "noteSearchIncludeOpportunity" TBoolean (VBool false);
    Field "note" "search" (Inside "Includes") "WithProspects"
      "noteSearchIncludeProspects" TBoolean (VBool false);
    Field "note" "create" Top "Description" "noteCreateDescription" TText
      (VStr "");
    Field "note" "create" Top "AccountId" "noteCreateAccountId" TText
      (VStr "");
    Field "note" "create" Top "OpportunityId" "noteCreateOpportunityId" TText
      (VStr "");
    Field "note" "create" Top "ProspectIds" "noteCreateProspectIds" TList
      (VStr "");
    Field "task" "search" Top "Limit" "taskSearchLimit" TNumber (VNum 50);
    Field "task" "search" Top "Offset" "taskSearchOffset" TNumber (VNum 0);
    Field "task" "search" Top "Date" "taskSearchDate" TText (VStr "");
    Field "task" "search" Top "ProspectId" "taskSearchProspectId" TText
      (VStr "");
    Field "task" "search" Top "OpportunityId" "taskSearchOpportunityId" TText
      (VStr "");
    Field "task" "search" Top "Completed" "taskSearchCompleted" TBoolean
      (VBool false);
    Field "task" "search" Top "Type" "taskSearchType" TText (VStr "");
    Field "task" "search" Top "Subtype" "taskSearchSubtype" TText (VStr "");
    Field "task" "search" Top "Types" "taskSearchTypes" TMulti (VArr []);
    Field "task" "search" Top "Since" "taskSearchSince" TText (VStr "");
    Field "task" "search" Top "To" "taskSearchTo" TText (VStr "");
    Field "task" "search" Top "Automatic" "taskSearchAutomatic" TBoolean
      (VBool false);
    Field "task" "search" Top "HasAutomationError"
      "taskSearchHasAutomationError" TBoolean (VBool false);
    Field "task" "search" Top "HasOpportunity" "taskSearchHasOpportunity"
      TBoolean (VBool false);
    Field "task" "search" Top "FromSequence" "taskSearchFromSequence" TBoolean
      (VBool false);
    Field "task" "search" Top "FromCrm" "taskSearchFromCrm" TBoolean
      (VBool false);
    Field "task" "search" Top "AccountId" "taskSearchAccountId" TText
      (VStr "");
    Field "task" "search" Top "ProspectListId" "taskSearchProspectListId"
      TNumber (VNum 0);
    Field "task" "search" Top "LeadListId" "taskSearchLeadListId" TNumber
      (VNum 0);
    Field "task" "search" Top "AccountListId" "taskSearchAccountListId"
      TNumber (VNum 0);
    Field "task" "search" Top "StrategyId" "taskSearchStrategyId" TNumber
      (VNum 0);
    Field "task" "search" Top "SortBy" "taskSearchSortBy" TText (VStr "");
    Field "task" "search" Top "AccountExternalProperties"
      "taskSearchAccountExternalProperties" TJson (VObj ∅);
    Field "task" "search" Top "ProspectExternalProperties"
      "taskSearchProspectExternalProperties" TJson (VObj ∅);
    Field "task" "search" Top "LeadExternalProperties"
      "taskSearchLeadExternalProperties" TJson (VObj ∅);
    Field "task" "create" Top "AccountId" "taskCreateAccountId" TText
      (VStr "");
    Field "task" "create" Top "ProspectId" "taskCreateProspectId" TText
      (VStr "");
    Field "task" "create" Top "Type" "taskCreateType" TText (VStr "");
    Field "task" "create" Top "Subtype" "taskCreateSubtype" TText (VStr "");
    Field "task" "create" Top "ActivityDate" "taskCreateActivityDate" TText
      (VStr "");
    Field "task" "create" Top "TemplateId" "taskCreateTemplateId" TNumber
      (VNum 0);
    Field "task" "create" Top "Automatic" "taskCreateAutomatic" TBoolean
      (VBool false);
    Field "task" "create" Top "OpportunityId" "taskCreateOpportunityId" TText
      (VStr "");
    Field "task" "create" Top "Subject" "taskCreateSubject" TText (VStr "");
    Field "task" "create" Top "Description" "taskCreateDescription" TText
      (VStr "");
    Field "task" "create" Top "PersonalizedSubject"
      "taskCreatePersonalizedSubject" TText (VStr "");
    Field "task" "create" Top "PersonalizedContent"
      "taskCreatePersonalizedContent" TText (VStr "");
    Field "activity" "search" Top "Subject" "activitySearchSubject" TText
      (VStr "");
    Field "activity" "search" Top "AccountId" "activitySearchAccountId" TText
      (VStr "");
    Field "activity" "search" Top "ProspectId" "activitySearchProspectId"
      TText (VStr "");
    Field "activity" "search" Top "OpportunityId"
      "activitySearchOpportunityId" TText (VStr "");
    Field "activity" "search" Top "UserId" "activitySearchUserId" TText
      (VStr "");
    Field "activity" "search" Top "ObjectId" "activitySearchObjectId" TText
      (VStr "");
    Field "activity" "search" (Inside "Pagination") "Limit"
      "activitySearchLimit" TNumber (VNum 50);
    Field "activity" "search" (Inside "Pagination") "Offset"
      "activitySearchOffset" TNumber (VNum 0);
    Field "activity" "search" Top "CreatedDateMin"
      "activitySearchCreatedDateMin" TText (VStr "");
    Field "activity" "search" Top "CreatedDateMax"
      "activitySearchCreatedDateMax" TText (VStr "");
    Field "activity" "search" Top "LastModifiedDateMin"
      "activitySearchLastModifiedDateMin" TText (VStr "");
    Field "activity" "search" Top "LastModifiedDateMax"
      "activitySearchLastModifiedDateMax" TText (VStr "");
    Field "activity" "search" Top "ActivityDateMin"
      "activitySearchActivityDateMin" TText (VStr "");
    Field "activity" "search" Top "ActivityDateMax"
      "activitySearchActivityDateMax" TText (VStr "");
    Field "activity" "search" Top "FirstAnswerDatetimeMin"
      "activitySearchFirstAnswerDatetimeMin" TText (VStr "");
    Field "activity" "search" Top "FirstAnswerDatetimeMax"
      "activitySearchFirstAnswerDatetimeMax" TText (VStr "");
    Field "activity" "search" Top "FirstTrackDatetimeMin"
      "activitySearchFirstTrackDatetimeMin" TText (VStr "");
    Field "activity" "search" Top "FirstTrackDatetimeMax"
      "activitySearchFirstTrackDatetimeMax" TText (VStr "");
    Field "activity" "search" Top "TaskSubtype" "activitySearchTaskSubtype"
      TText (VStr "");
    Field "activity" "search" Top "CronoObjectId"
      "activitySearchCronoObjectId" TNumber (VNum 0);
    Field "activity" "search" (Inside "Include") "WithAccount"
      "activitySearchIncludeAccount" TBoolean (VBool false);
    Field "activity" "search" (Inside "Include") "WithProspect"
      "activitySearchIncludeProspect" TBoolean (VBool false);
    Field "activity" "search" (Inside "Include") "WithEmailLog"
      "activitySearchIncludeEmailLog" TBoolean (VBool false);
    Field "activity" "search" (Inside "Include") "WithCallLog"
      "activitySearchIncludeCallLog" TBoolean (VBool false);
    Field "activity" "search" (Inside "Include") "WithLinkedinLog"
      "activitySearchIncludeLinkedinLog" TBoolean (VBool false);
    Field "activity" "search" (Inside "Include") "WithOpportunity"
      "activitySearchIncludeOpportunity" TBoolean (VBool false);
    Field "list" "search" Top "Name" "listSearchName" TText (VStr "");
    Field "list" "search" Top "AccountId" "listSearchAccountId" TText
      (VStr "");
    Field "list" "search" Top "ProspectId" "listSearchProspectId" TText
      (VStr "");
    Field "list" "search" Top "StrategyId" "listSearchStrategyId" TNumber
      (VNum 0);
    Field "list" "search" Top "TemplateId" "listSearchTemplateId" TNumber
      (VNum 0);
    Field "list" "search" (Inside "Pagination") "Limit" "listSearchLimit"
      TNumber (VNum 50);
    Field "list" "search" (Inside "Pagination") "Offset" "listSearchOffset"
      TNumber (VNum 0);
    Field "list" "search" Top "Type" "listSearchType" TText (VStr "Account");
    Field "list" "search" Top "SortType" "listSearchSortType" TText (VStr "");
    Field "strategy" "searchDetails" Top "StrategyId"
      "strategyDetailsStrategyId" TNumber (VNum 0);
    Field "strategy" "searchDetails" Top "Text" "strategyDetailsText" TText
      (VStr "");
    Field "strategy" "searchDetails" (Inside "Pagination") "Limit"
      "strategyDetailsLimit" TNumber (VNum 50);
    Field "strategy" "searchDetails" (Inside "Pagination") "Offset"
      "strategyDetailsOffset" TNumber (VNum 0);
    Field "strategy" "searchDetails" Top "Sort" "strategyDetailsSort" TText
      (VStr "ContactsAsc");
    Field "strategy" "searchDetails" Top "Status" "strategyDetailsStatus"
      TText (VStr "");
    Field "strategy" "searchDetails" Top "OnlySpecificTask"
      "strategyDetailsOnlySpecificTask" TMulti (VArr []);
    Field "strategy" "searchDetails" Top "OnlyMySequences"
      "strategyDetailsOnlyMySequences" TBoolean (VBool false);
    Field "strategy" "searchDetails" Top "OnlyMyProspects"
      "strategyDetailsOnlyMyProspects" TBoolean (VBool false);
    Field "strategy" "search" Top "Name" "strategySearchName" TText (VStr "");
    Field "strategy" "search" Top "AccountId" "strategySearchAccountId" TText
      (VStr "");
    Field "strategy" "search" Top "ProspectId" "strategySearchProspectId"
      TText (VStr "");
    Field "strategy" "search" Top "UserId" "strategySearchUserId" TText
      (VStr "");
    Field "strategy" "search" Top "Ids" "strategySearchIds" TList (VStr "");
    Field "strategy" "search" (Inside "Pagination") "Limit"
      "strategySearchLimit" TNumber (VNum 50);
    Field "strategy" "search" (Inside "Pagination") "Offset"
      "strategySearchOffset" TNumber (VNum 0);
    Field "strategy" "search" Top "Sort" "strategySearchSort" TText (VStr "");
    Field "strategy" "search" Top "StrategyTags" "strategySearchTags" TJson
      (VObj ∅);
    Field "strategy" "search" (Inside "IncludeOptions")
      "WithActiveSequenceInstances"
      "strategySearchIncludeActiveSequenceInstances" TBoolean (VBool false);
    Field "strategy" "search" (Inside "IncludeOptions") "WithAnalytics"
      "strategySearchIncludeAnalytics" TBoolean (VBool false);
    Field "strategy" "search" (Inside "IncludeOptions") "WithSequence"
      "strategySearchIncludeSequence" TBoolean (VBool false);
    Field "strategy" "search" (Inside "IncludeOptions") "WithUsers"
      "strategySearchIncludeUsers" TBoolean (VBool false);
    Field "externalProperty" "search" Top "TableType"
      "externalPropertySearchTableType" TText (VStr "");
    Field "externalProperty" "search" Top "OnlyInsert"
      "externalPropertySearchOnlyInsert" TBoolean (VBool false);
    Field "externalProperty" "search" Top "OnlyTag"
      "externalPropertySearchOnlyTag" TBoolean (VBool false);
    Field "externalProperty" "search" Top "WithLead"
      "externalPropertySearchWithLead" TBoolean (VBool false);
    Field "externalProperty" "search" Top "IsImported"
      "externalPropertySearchIsImported" TBoolean (VBool false);
    Field "externalProperty" "search" Top "IsStatus"
      "externalPropertySearchIsStatus" TBoolean (VBool false);
    Field "externalProperty" "search" Top "IsFilter"
      "externalPropertySearchIsFilter" TBoolean (VBool false);
    Field "externalProperty" "search" Top "OnlyAiVariables"
      "externalPropertySearchOnlyAiVariables" TBoolean (VBool false);
    Field "user" "search" Top "Email" "userSearchEmail" TText (VStr "");
    Field "user" "search" Top "Active" "userSearchActive" TBoolean
      (VBool false);
    Field "user" "search" (Inside "Pagination") "Limit" "userSearchLimit"
      TNumber (VNum 50);
    Field "user" "search" (Inside "Pagination") "Offset" "userSearchOffset"
      TNumber (VNum 0) ].

(** The repeatable groups of the imports: the key of the array in [data],
    the parameter that holds the declared entries and the property of that
    parameter under which they are listed. *)
Record entryArray := EntryArray {
  a_resource : string;
  a_key : string;
  a_parameter : string;
  a_property : string
}.

Definition entryArrays : list entryArray :=
  [ EntryArray "company" "Accounts" "companyImportAccounts" "account";
    EntryArray "contact" "Prospects" "contactImportProspects" "prospect" ].

(** The properties of one declared entry, and the key each one fills in
    the object built for the entry. *)
Record entryField := EntryField {
  e_resource : string;
  e_array : string;
  e_key : string;
  e_property : string;
  e_type : fieldType
}.

Definition entryCatalog : list entryField :=
  [ EntryField "company" "Accounts" "Name" "name" TText;
    EntryField "company" "Accounts" "Website" "website" TText;
    EntryField "company" "Accounts" "Industry" "industry" TText;
    EntryField "company" "Accounts" "Country" "country" TText;
    EntryField "company" "Accounts" "Phone" "phone" TText;
    EntryField "company" "Accounts" "AnnualRevenue" "annualRevenue" TText;
    EntryField "company" "Accounts" "Linkedin" "linkedin" TText;
    EntryField "company" "Accounts" "NumberOfEmployees" "numberOfEmployees"
      TNumber;
    EntryField "company" "Accounts" "ExternalValues" "externalValues" TJson;
    EntryField "company" "Accounts" "ListId" "listId" TNumber;
    EntryField "company" "Accounts" "Owner" "owner" TText;
    EntryField "contact" "Prospects" "FirstName" "firstName" TText;
    EntryField "contact" "Prospects" "LastName" "lastName" TText;
    EntryField "contact" "Prospects" "Email" "email" TText;
    EntryField "contact" "Prospects" "Phone" "phone" TText;
    EntryField "contact" "Prospects" "MobilePhone" "mobilePhone" TText;
    EntryField "contact" "Prospects" "Title" "title" TText;
    EntryField "contact" "Prospects" "Location" "location" TText;
    EntryField "contact" "Prospects" "Linkedin" "linkedin" TText;
    EntryField "contact" "Prospects" "Company" "company" TText;
    EntryField "contact" "Prospects" "CompanyWebsite" "companyWebsite" TText;
    EntryField "contact" "Prospects" "CompanyLinkedin" "companyLinkedin" TText;
    EntryField "contact" "Prospects" "CompanyCountry" "companyCountry" TText;
    EntryField "contact" "Prospects" "CompanyIndustry" "companyIndustry" TText;
    EntryField "contact" "Prospects" "CompanyAnnualRevenue"
      "companyAnnualRevenue" TText;
    EntryField "contact" "Prospects" "CompanyNumberOfEmployees"
      "companyNumberOfEmployees" TNumber;
    EntryField "contact" "Prospects" "ExternalValues" "externalValues" TJson;
    EntryField "contact" "Prospects" "AccountExternalValues"
      "accountExternalValues" TJson;
    EntryField "contact" "Prospects" "Owner" "owner" TText;
    EntryField "contact" "Prospects" "SalesNavigatorUrl" "salesNavigatorUrl"
      TText;
    EntryField "contact" "Prospects" "ListId" "listId" TNumber;
    EntryField "contact" "Prospects" "StrategyId" "strategyId" TNumber ].

(** The nested objects of the search bodies: resource, operation and key. *)
Definition nestedObjects : list (string * string * string) :=
  [ ("company", "search", "Includes");
    ("company", "search", "Pagination");
    ("contact", "search", "Pagination");
    ("deal", "search", "Pagination");
    ("deal", "search", "Includes");
    ("note", "search", "Pagination");
    ("note", "search", "Includes");
    ("activity", "search", "Pagination");
    ("activity", "search", "Include");
    ("list", "search", "Pagination");
    ("strategy", "searchDetails", "Pagination");
    ("strategy", "search", "Pagination");
    ("strategy", "search", "IncludeOptions");
    ("user", "search", "Pagination") ].


Definition position_same (a b : position) : bool :=
  match a, b with
  | Top, Top => true
  | Inside x, Inside y => String.eqb x y
  | _, _ => false
  end.

(** The fields that fill the nested object [outer]. *)
Definition membersOf (resource operation outer : string) : list field :=
  List.filter (fun f => String.eqb (f_resource f) resource
                        && String.eqb (f_operation f) operation
                        && position_same (f_position f) (Inside outer))
    fieldCatalog.

(** The properties of the entries of an import array. *)
Definition entriesOf (a : entryArray) : list entryField :=
  List.filter (fun c => String.eqb (e_resource c) (a_resource a)
                        && String.eqb (e_array c) (a_key a))
    entryCatalog.

(** A search fills the body itself, the other operations its [data]. *)
Definition placementOf (operation : string) : placement :=
  if String.eqb operation "search" || String.eqb operation "searchDetails"
  then InBody else InData.

(** *** The inclusion rules, in the words of the specification *)

Definition isNumber (v : value) : bool :=
  match v with
  | VNum _ | VFrac _ _ _ | VInfinity _ => true
  | _ => false
  end.

(** The one boolean field that is written whatever its value. *)
Definition cleanEmptyName (f : field) : bool :=
  String.eqb (f_parameter f) "companySearchCleanEmptyName".

(** The numeric fields that are written even when the number is [0]: the
    [Limit] and [Offset] of a [Pagination] object, the [Limit] and
    [Offset] of the task search, and the strategy identifier. *)
Definition writtenAtZero (f : field) : bool :=
  match f_position f with
  | Inside outer => String.eqb outer "Pagination"
  | Top =>
      (String.eqb (f_resource f) "task"
       && (String.eqb (f_key f) "Limit" || String.eqb (f_key f) "Offset"))
      || (String.eqb (f_resource f) "strategy"
          && String.eqb (f_key f) "StrategyId")
  end.

(** What a field contributes to the body for the input [v]: a text unless
    empty, [true] for a boolean that is on, a number unless zero, an array
    unless without elements. *)
Definition contribution (f : field) (v : value) : option value :=
  match f_type f, v with
  | TText, VStr s => if String.eqb s "" then None else Some v
  | TBoolean, VBool b =>
      if cleanEmptyName f then Some v
      else if b then Some (VBool true) else None
  | TNumber, VNum 0 => if writtenAtZero f then Some v else None
  | TNumber, (VNum _ | VFrac _ _ _ | VInfinity _) => Some v
  | TMulti, VArr [] => None
  | TMulti, VArr _ => Some v
  | _, _ => None
  end.

Definition wellTyped (ty : fieldType) (v : value) : bool :=
  match ty, v with
  | TText, VStr _ | TBoolean, VBool _ | TMulti, VArr _ => true
  | TNumber, _ => isNumber v
  | _, _ => false
  end.

(** The same rules for a property of a declared entry, which may be
    missing. *)
Definition entryContribution (ty : fieldType) (v : option value)
    : option value :=
  match ty, v with
  | TText, Some (VStr s) => if String.eqb s "" then None else v
  | TNumber, Some (VNum 0) => None
  | TNumber, Some (VNum _ | VFrac _ _ _ | VInfinity _) => v
  | TJson, Some (VObj m) => if bool_decide (m = ∅) then None else v
  | _, _ => None
  end.

Definition entryTyped (ty : fieldType) (v : option value) : bool :=
  match ty, v with
  | _, None => true
  | TText, Some (VStr _) | TJson, Some (VObj _) => true
  | TNumber, Some x => isNumber x
  | _, _ => false
  end.

(** *** Additional fields, in the words of the specification *)

(** An entry of the list: a field name and a value, either of which may
    be missing. *)
Record AdditionalFieldEntry := AdditionalField {
  entry_field : option string;
  entry_value : option value
}.

(** The entry as the host stores it. *)
Definition entryObject (e : AdditionalFieldEntry) : value :=
  let named : IDataObject :=
    match entry_field e with
    | Some name => <["field" := VStr name]> ∅
    | None => ∅
    end in
  VObj (match entry_value e with
        | Some v => <["value" := v]> named
        | None => named
        end).

(** The entry has a field name, and it is [k].  The name [__proto__] is
    no name of a field. *)
Definition names (k : string) (e : AdditionalFieldEntry) : bool :=
  match entry_field e with
  | Some name =>
      String.eqb name k && negb (String.eqb name "")
      && negb (String.eqb name "__proto__")
  | None => false
  end.

(** The value of the entry, the empty string if it is absent. *)
Definition valueOrEmpty (e : AdditionalFieldEntry) : value :=
  match entry_value e with
  | None | Some VUndefined | Some VNull => VStr ""
  | Some v => v
  end.

(** The value the list gives the key [k]: that of the last entry named
    [k]. *)
Definition mergedFields (entries : list AdditionalFieldEntry) (k : string)
    : option value :=
  valueOrEmpty <$> last (List.filter (names k) entries).

(** No entry is named [k]. *)
Definition unnamed (k : string) (entries : list AdditionalFieldEntry) : Prop :=
  Forall (fun e => entry_field e ≠ Some k) entries.

(** *** Structured items *)

(** The item selects [resource] and [operation] and leaves the raw-JSON
    toggle of the body off. *)
Definition structuredItem (this : IExecuteFunctions) (itemIndex : nat)
    (resource operation : string) : Prop :=
  getNodeParameter this "resource" itemIndex VUndefined = Ok (VStr resource) ∧
  getNodeParameter this "operation" itemIndex VUndefined
  = Ok (VStr operation) ∧
  getNodeParameter this (rawToggle (placementOf operation)) itemIndex
    (VBool false) = Ok (VBool false).

(** The additional fields of the item are the list [entries]. *)
Definition additionalEntries (this : IExecuteFunctions) (itemIndex : nat)
    (operation : string) (entries : list AdditionalFieldEntry) : Prop :=
  getNodeParameter this (additionalParameter (placementOf operation))
    itemIndex (VArr [])
  = Ok (VArr (entryObject <$> entries)).

(** What the request holds at the place of a field: [None] when the
    request has no structured part, [Some None] when the key is absent. *)
Definition bodyField (spec : RequestSpec) (f : field) : option (option value) :=
  (fun o => readAt o (f_position f) (f_key f))
  <$> structuredPart (placementOf (f_operation f)) spec.

(** The declared entries of an import array are the objects [es]; the
    collection has no property when nothing is declared. *)
Definition declaredEntries (this : IExecuteFunctions) (itemIndex : nat)
    (a : entryArray) (es : list IDataObject) : Prop :=
  ∃ container : IDataObject,
    getNodeParameter this (a_parameter a) itemIndex (VObj ∅)
    = Ok (VObj container) ∧
    (container !! a_property a = Some (VArr (VObj <$> es))
     ∨ (container !! a_property a = None ∧ es = [])).

(** The array the request holds under the key of an import array. *)
Definition importedArray (spec : RequestSpec) (a : entryArray)
    : option (option value) :=
  (fun o : IDataObject => o !! a_key a) <$> structuredPart InData spec.

(** *** The catalog and the tables

    The statement that handles each field of the catalog, and the checks
    that every table holds these statements at the places the catalog
    names. *)

Definition fieldStmt (f : field) : stmt :=
  let e := Param (f_parameter f) (f_fallback f) in
  match f_type f with
  | TText => AddIfNotEmpty (f_key f) e
  | TBoolean =>
      if cleanEmptyName f then Assign (f_key f) e else SetTrueIf (f_key f) e
  | TNumber =>
      if writtenAtZero f then
        match f_position f with
        | Top => Assign (f_key f) e
        | Inside _ => AddIfNotEmpty (f_key f) e
        end
      else SetIfTruthy (f_key f) e
  | TMulti => SetIfLength (f_key f) e
  | TJson => SetIfJsonKeys (f_key f) (f_parameter f)
  | TList => SetCsv (f_key f) e
  | TIdList => SetCsvInts (f_key f) e
  end.

Definition entryStmt (c : entryField) : stmt :=
  match e_type c with
  | TNumber => SetIfTruthy (e_key c) (Entry (e_property c))
  | TJson => SetIfPropKeys (e_key c) (e_property c)
  | _ => AddIfNotEmpty (e_key c) (Entry (e_property c))
  end.

Definition fallback_same (a b : value) : bool :=
  match a, b with
  | VStr s, VStr t => String.eqb s t
  | VBool x, VBool y => Bool.eqb x y
  | VNum n, VNum m => (n =? m)%Z
  | VArr [], VArr [] => true
  | _, _ => false
  end.

Definition operand_same (a b : operand) : bool :=
  match a, b with
  | Param p d, Param q e => String.eqb p q && fallback_same d e
  | Entry p, Entry q => String.eqb p q
  | _, _ => false
  end.

Definition stmt_same (a b : stmt) : bool :=
  match a, b with
  | AddIfNotEmpty k e, AddIfNotEmpty k' e'
  | SetIfTruthy k e, SetIfTruthy k' e'
  | SetTrueIf k e, SetTrueIf k' e'
  | SetIfLength k e, SetIfLength k' e'
  | SetCsv k e, SetCsv k' e'
  | SetCsvInts k e, SetCsvInts k' e'
  | Assign k e, Assign k' e' => String.eqb k k' && operand_same e e'
  | SetIfJsonKeys k p, SetIfJsonKeys k' p'
  | SetIfPropKeys k p, SetIfPropKeys k' p' => String.eqb k k' && String.eqb p p'
  | _, _ => false
  end.

Fixpoint stmts_same (l1 l2 : list stmt) : bool :=
  match l1, l2 with
  | [], [] => true
  | a :: l1, b :: l2 => stmt_same a b && stmts_same l1 l2
  | _, _ => false
  end.

Definition placement_same (a b : placement) : bool :=
  match a, b with
  | InBody, InBody | InData, InData => true
  | _, _ => false
  end.

Definition locatedb (table : list stmt) (pos : position) (s : stmt) : bool :=
  match pos with
  | Top => existsb (stmt_same s) table
  | Inside outer =>
      existsb (fun t => match t with
                        | Nested k sub =>
                            String.eqb k outer && existsb (stmt_same s) sub
                        | _ => false
                        end) table
  end.

Definition fieldChecked (f : field) : bool :=
  match structuredFields (f_resource f) (VStr (f_operation f)) with
  | Some (pl, table) =>
      placement_same pl (placementOf (f_operation f))
      && locatedb table (f_position f) (fieldStmt f)
  | None => false
  end.

Definition nestedChecked (g : string * string * string) : bool :=
  let '(resource, operation, outer) := g in
  match structuredFields resource (VStr operation) with
  | Some (pl, table) =>
      placement_same pl (placementOf operation)
      && existsb (fun t => match t with
                           | Nested k sub =>
                               String.eqb k outer
                               && stmts_same sub
                                    (fieldStmt
                                     <$> membersOf resource operation outer)
                           | _ => false
                           end) table
  | None => false
  end.

Definition arrayChecked (a : entryArray) : bool :=
  match structuredFields (a_resource a) (VStr "import") with
  | Some (pl, table) =>
      placement_same pl InData
      && existsb (fun t => match t with
                           | MapEntries k p q sub =>
                               String.eqb k (a_key a)
                               && String.eqb p (a_parameter a)
                               && String.eqb q (a_property a)
                               && stmts_same sub (entryStmt <$> entriesOf a)
                           | _ => false
                           end) table
  | None => false
  end.


(** The parameters a table reads with a fallback of the given kind are
    fields of the catalog of that type. *)
Definition readsCatalogued (resource : string) (ty : fieldType)
    (kind : value → bool) (s : stmt) : bool :=
  match stmt_operand s with
  | Some (Param p d) =>
      if kind d then
        existsb (fun f => String.eqb (f_resource f) resource
                          && String.eqb (f_parameter f) p
                          && fallback_same (f_fallback f) d
                          && match f_type f, ty with
                             | TBoolean, TBoolean | TNumber, TNumber => true
                             | _, _ => false
                             end) fieldCatalog
      else true
  | _ => true
  end.

Definition isBoolean (v : value) : bool :=
  match v with VBool _ => true | _ => false end.

(** The fallback of a boolean field is [false], but for the one exception;
    that of a numeric field is [0], but for those written at zero. *)
Definition fallbackChecked (f : field) : bool :=
  match f_type f with
  | TBoolean => fallback_same (f_fallback f) (VBool (cleanEmptyName f))
  | TNumber =>
      if writtenAtZero f then isNumber (f_fallback f)
      else fallback_same (f_fallback f) (VNum 0)
  | _ => true
  end.

Definition isInteger (v : value) : bool :=
  match v with VNum _ => true | _ => false end.

(** [{ field: name, value: v }] *)
Definition additionalEntry (name v : string) : IDataObject :=
  <["value" := VStr v]> {["field" := VStr name]}.

Definition companySearchHost : IExecuteFunctions :=
  hostWith (<["resource" := VStr "company"]> (<["operation" := VStr "search"]>
           (<["companySearchName" := VStr "A"]>
           (<["companySearchNoUser" := VBool true]>
           (<["companySearchIncludeTags" := VBool true]>
           (<["companySearchNumberOfEmployeesMin" := VNum 25]>
           (<["companySearchOffset" := VNum 0]>
           (<["searchAdditionalFields" :=
                VArr [VObj (additionalEntry "Name" "B")]]> ∅)))))))) ∅.

Definition taskSearchHost : IExecuteFunctions :=
  hostWith (<["resource" := VStr "task"]> (<["operation" := VStr "search"]>
           (<["taskSearchLimit" := VNum 0]>
           (<["taskSearchOffset" := VNum 0]> ∅)))) ∅.

(** [{"Name":"x"}] *)
Definition searchText : string :=
  "{" +:+ dquote +:+ "Name" +:+ dquote +:+ ":" +:+ dquote +:+ "x" +:+ dquote
  +:+ "}".

Definition rawSearchHost : IExecuteFunctions :=
  hostWith (<["resource" := VStr "contact"]> (<["operation" := VStr "search"]>
           (<["useRawJsonSearch" := VBool true]>
           (<["search" := VStr searchText]>
           (<["contactSearchName" := VStr "ignored"]> ∅))))) ∅.

Definition malformedHost : IExecuteFunctions :=
  hostWith (<["search" := VStr "{invalid"]> ∅) ∅.

Definition primitiveHost : IExecuteFunctions :=
  hostWith (<["search" := VStr "42"]> ∅) ∅.


Definition customUrlHost : IExecuteFunctions :=
  hostWith ∅ (<["baseUrl" := VStr "https://crono.test"]> ∅).

(** *** Routes *)





(** The [create] operations that read [scrapeOptions]. *)
Definition readsScrapeOptions (resource : string) (operation : value) : bool :=
  (String.eqb resource "company" || String.eqb resource "contact")
  && streq operation "create".

(** [{ limit, offset }] *)
Definition paging (limit offset : value) : IDataObject :=
  <["offset" := offset]> (<["limit" := limit]> ∅).

(** *** Errors of an item *)

Definition raises {A : Type} (P : error → Prop) (m : result A) : Prop :=
  ∀ e, m = Err e → P e.

(** An error raised while the fields of item [itemIndex] are read: a
    [NodeOperationError] carries that index and names a parameter whose
    stored text [JSON.parse] rejects; nothing comes from the HTTP helper. *)
Definition fieldFault (JSON : JsonParser) (this : IExecuteFunctions)
    (itemIndex : nat) (e : error) : Prop :=
  match e with
  | NodeOperationError message idx =>
      idx = itemIndex ∧
      ∃ parameterName s,
        nodeParameters this itemIndex !! parameterName = Some (VStr s) ∧
        JSON_parse JSON s = None ∧
        message = invalidJsonMessage parameterName
  | ApplicationError _ | TypeError _ => True
  | RequestError _ => False
  end.

(** *** Items of a comma-separated list *)

Definition commaFree (s : string) : bool :=
  forallb (fun a => negb (Ascii.eqb a ","%char)) (list_ascii_of_string s).

(** White space among the code units below 256: tab, line feed, vertical
    tab, form feed, carriage return, space and no-break space. *)
Definition spaceChars : list ascii :=
  ["009"; "010"; "011"; "012"; "013"; " "; "160"]%char.

Definition isSpaceChar (a : ascii) : bool := existsb (Ascii.eqb a) spaceChars.

(** A text of white space only. *)
Definition blank (s : string) : bool :=
  forallb isSpaceChar (list_ascii_of_string s).

(** A text without comma that neither starts nor ends with white space. *)
Definition tidy (s : string) : bool :=
  commaFree s
  && match list_ascii_of_string s with
     | a :: _ => negb (isSpaceChar a)
     | [] => true
     end
  && match last (list_ascii_of_string s) with
     | Some a => negb (isSpaceChar a)
     | None => true
     end.

(** A segment of a comma-separated text: white space, the item proper,
    white space. *)
Record segment := Segment {
  lead : string;
  core : string;
  trail : string
}.

Definition segmentOk (g : segment) : bool :=
  blank (lead g) && tidy (core g) && blank (trail g).

Definition segmentText (g : segment) : string :=
  lead g +:+ core g +:+ trail g.

(** The text made of the segments, and the items it lists: the segments
    that are not empty, without the white space around them. *)
Definition csvText (gs : list segment) : string :=
  String.concat "," (segmentText <$> gs).

Definition csvItems (gs : list segment) : list string :=
  List.filter (fun c => negb (String.eqb c "")) (core <$> gs).

(** The integers every Number holds exactly. *)
Definition safeInteger (z : Z) : bool := (Z.abs z <=? 2 ^ 53)%Z.

(** *** More example hosts *)

(** [{"limit":5}] *)
Definition pagingOptionsText : string :=
  "{" +:+ dquote +:+ "limit" +:+ dquote +:+ ":5}".

Definition companyFilterHost : IExecuteFunctions :=
  hostWith (<["resource" := VStr "company"]> (<["operation" := VStr "search"]>
           (<["companySearchCurrentSolution" := VStr "HubSpot"]>
           (<["companySearchStatus" := VArr [VStr "Customer"]]>
           (<["companySearchExternalProperties" := VStr "{}"]>
           (<["companySearchExternalPropertyNumericFilters" :=
                VStr searchText]>
           (<["companySearchExternalPropertyEmptyIds" := VStr "1, 2 ,30"]>
              ∅))))))) ∅.

Definition companyImportHost : IExecuteFunctions :=
  hostWith (<["resource" := VStr "company"]> (<["operation" := VStr "import"]>
           (<["companyImportAccounts" :=
                VObj {["account" :=
                  VArr [ VObj (<["name" := VStr "Acme"]>
                               (<["website" := VStr ""]>
                               {["numberOfEmployees" := VNum 0]}));
                         VObj (<["name" := VStr "Beta"]>
                               {["numberOfEmployees" := VNum 12]}) ]]}]>
              ∅))) ∅.

Definition companyGetAllHost : IExecuteFunctions :=
  hostWith (<["resource" := VStr "company"]> (<["operation" := VStr "getAll"]>
           (<["limit" := VNum 10]>
           (<["includeOptions" := VStr pagingOptionsText]> ∅)))) ∅.

Definition taskOpportunitiesHost : IExecuteFunctions :=
  hostWith (<["resource" := VStr "task"]> (<["operation" := VStr "search"]>
           (<["withOpportunities" := VBool true]> ∅))) ∅.

Definition companyCreateRawHost : IExecuteFunctions :=
  hostWith (<["resource" := VStr "company"]> (<["operation" := VStr "create"]>
           (<["useRawJsonData" := VBool true]>
           (<["data" := VStr searchText]>
           (<["scrapeOptions" := VStr includeOptionsText]> ∅))))) ∅.

Definition malformedSearchHost : IExecuteFunctions :=
  hostWith (<["resource" := VStr "contact"]> (<["operation" := VStr "search"]>
           (<["useRawJsonSearch" := VBool true]>
           (<["search" := VStr "{invalid"]> ∅)))) ∅.

(** The raw JSON body is switched on while a structured flag is set. *)
Definition rawFlagHost : IExecuteFunctions :=
  hostWith (<["resource" := VStr "company"]> (<["operation" := VStr "search"]>
           (<["useRawJsonSearch" := VBool true]>
           (<["search" := VStr searchText]>
           (<["companySearchNoUser" := VBool true]> ∅))))) ∅.

(** An additional field names the key of a flag that is off. *)
Definition namedFlagHost : IExecuteFunctions :=
  hostWith (<["resource" := VStr "company"]> (<["operation" := VStr "search"]>
           (<["companySearchNoUser" := VBool false]>
           (<["searchAdditionalFields" :=
                VArr [VObj (additionalEntry "NoUser" "yes")]]> ∅)))) ∅.




Definition contactIdsHost : IExecuteFunctions :=
  hostWith (<["resource" := VStr "contact"]> (<["operation" := VStr "search"]>
           (<["contactSearchObjectIds" := VStr "a1, b 2,,c "]> ∅))) ∅.

(** Two input items: the first asks for the pipelines, the second names a
    resource the node does not have. *)
Definition twoItemHost : IExecuteFunctions :=
  {| getInputData := 2;
     nodeParameters := fun itemIndex =>
       match itemIndex with
       | O => <["resource" := VStr "pipeline"]> {["operation" := VStr "getAll"]}
       | _ => <["resource" := VStr "widget"]> {["operation" := VStr "getAll"]}
       end;
     getCredentials := fun _ => ∅;
     httpRequestWithAuthentication := fun _ options => Ok (VStr (url options)) |}.

(** * Properties *)

Section Properties.

Context (JSON : JsonParser).

(** ** Reading parameters *)

Lemma getNodeParameter_stored this parameterName itemIndex fallbackValue v :
  nodeParameters this itemIndex !! parameterName = Some v →
  v ≠ VUndefined →
  getNodeParameter this parameterName itemIndex fallbackValue = Ok v.
Proof.
  intros Hv Hne. unfold getNodeParameter. rewrite Hv.
  destruct v; congruence.
Qed.

Lemma getNodeParameter_missing this parameterName itemIndex fallbackValue :
  nodeParameters this itemIndex !! parameterName = None ∨
  nodeParameters this itemIndex !! parameterName = Some VUndefined →
  fallbackValue ≠ VUndefined →
  getNodeParameter this parameterName itemIndex fallbackValue = Ok fallbackValue.
Proof.
  unfold getNodeParameter.
  intros [-> | ->] Hne; destruct fallbackValue; congruence.
Qed.

Lemma getNodeParameter_defined this parameterName itemIndex fallbackValue v :
  getNodeParameter this parameterName itemIndex fallbackValue = Ok v →
  v ≠ VUndefined.
Proof.
  unfold getNodeParameter.
  destruct (nodeParameters this itemIndex !! parameterName) as [[]|];
    destruct fallbackValue; intros; simplify_eq; congruence.
Qed.

Lemma getNodeParameter_total this parameterName itemIndex fallbackValue :
  fallbackValue ≠ VUndefined →
  ∃ v, getNodeParameter this parameterName itemIndex fallbackValue = Ok v.
Proof.
  intros Hne. unfold getNodeParameter.
  destruct (nodeParameters this itemIndex !! parameterName) as [[]|];
    destruct fallbackValue; eauto; congruence.
Qed.

(** ** The small helpers on examples *)

Example parseCsv_trims_and_drops_empty :
  parseCsv (VStr " a ,, b c ,") = Ok ["a"; "b c"].
Proof. reflexivity. Qed.

Example parseCsv_ids :
  parseCsv (VStr "1, 2,3") = Ok ["1"; "2"; "3"] ∧
  List.map parseInt ["1"; "2"; "3"] = [VNum 1; VNum 2; VNum 3].
Proof. split; reflexivity. Qed.

Example parseInt_prefix :
  parseInt "12abc" = VNum 12 ∧ parseInt "-7" = VNum (-7) ∧ parseInt "x" = VNaN.
Proof. repeat split. Qed.

Example addIfNotEmpty_keeps_zero :
  addIfNotEmpty ∅ "Offset" (VNum 0) = {["Offset" := VNum 0]} ∧
  addIfNotEmpty ∅ "Name" (VStr "") = ∅ ∧
  addIfNotEmpty ∅ "Name" VNull = ∅.
Proof. repeat split. Qed.

(** ** Parameter extractor *)

(** C7.  [getJsonParameter] returns the default value when the stored
    value is the empty string, [undefined] (also: not stored) or [null],
    without consulting [JSON.parse].  When the stored value is a non-empty
    string that [JSON.parse] rejects, it raises the node error whose message
    quotes the parameter name and which carries the item index. *)
Theorem getJsonParameter_default_or_named_error
    this parameterName itemIndex defaultValue :
  (nodeParameters this itemIndex !! parameterName = Some (VStr "") ∨
   nodeParameters this itemIndex !! parameterName = Some VUndefined ∨
   nodeParameters this itemIndex !! parameterName = None ∨
   nodeParameters this itemIndex !! parameterName = Some VNull →
   getJsonParameter JSON this parameterName itemIndex defaultValue
   = Ok (VObj defaultValue)) ∧
  (∀ s,
     nodeParameters this itemIndex !! parameterName = Some (VStr s) →
     s ≠ "" →
     JSON_parse JSON s = None →
     getJsonParameter JSON this parameterName itemIndex defaultValue
     = Err (NodeOperationError
              ("Parameter " +:+ dquote +:+ parameterName +:+ dquote
               +:+ " is not valid JSON.") itemIndex)).
Proof.
  split.
  - unfold getJsonParameter, getNodeParameter.
    intros [-> | [-> | [-> | ->]]]; reflexivity.
  - intros s Hs Hne Hparse. unfold getJsonParameter.
    rewrite (getNodeParameter_stored _ _ _ _ (VStr s)) by done.
    simpl. destruct (String.eqb_spec s ""); [done|].
    rewrite Hparse. reflexivity.
Qed.

(** C10.  A stored string that [JSON.parse] accepts, but whose parse is
    neither an object nor an array (a number, a string, a boolean or
    [null]), is returned as the original string, without error. *)
Theorem getJsonParameter_primitive_json_returns_string
    this parameterName itemIndex defaultValue s parsed :
  nodeParameters this itemIndex !! parameterName = Some (VStr s) →
  JSON_parse JSON s = Some parsed →
  match parsed with VArr _ | VObj _ => False | _ => True end →
  getJsonParameter JSON this parameterName itemIndex defaultValue
  = Ok (VStr s).
Proof.
  intros Hs Hparse Hprim. unfold getJsonParameter.
  rewrite (getNodeParameter_stored _ _ _ _ (VStr s)) by done.
  simpl. destruct (String.eqb_spec s "") as [-> | _].
  { rewrite JSON_parse_empty in Hparse. done. }
  rewrite Hparse.
  destruct parsed as [| |[]| | | | | | |]; simpl in *;
    rewrite ?andb_false_r; try reflexivity; contradiction.
Qed.

(** ** HTTP executor *)

Lemma attachable_object (m : IDataObject) :
  attachable (VObj m) = bool_decide (m ≠ ∅).
Proof.
  unfold attachable. simpl.
  destruct (Nat.eqb_spec (size m) 0) as [H | H]; simpl.
  - apply map_size_empty_iff in H. subst.
    rewrite bool_decide_eq_false_2; [done|]. by intros ?.
  - rewrite bool_decide_eq_true_2; [done|].
    intros ->. by rewrite map_size_empty in H.
Qed.

(** C9.  [cronoApiRequest] hands the HTTP helper one request whose URL is
    the credential's base URL followed by the endpoint,
    [https://ext.crono.one] standing in when the stored base URL is empty or
    missing; the query mapping is attached exactly when it has a key, and so
    is the body, so neither an empty object nor an absent body ever appears
    in the options. *)
Theorem cronoApiRequest_options this httpMethod endpoint (qsv bodyv : value) :
  let options := requestOptions this httpMethod endpoint qsv bodyv in
  let stored := getCredentials this "cronoPublicApi" !! "baseUrl" in
  cronoApiRequest this httpMethod endpoint qsv bodyv
  = httpRequestWithAuthentication this "cronoPublicApi" options ∧
  method options = httpMethod ∧
  (∀ b, stored = Some (VStr b) → b ≠ "" → url options = b +:+ endpoint) ∧
  (stored = Some (VStr "") ∨ stored = None →
   url options = "https://ext.crono.one" +:+ endpoint) ∧
  (∀ m : IDataObject, qsv = VObj m →
     qs options = if bool_decide (m ≠ ∅) then Some (VObj m) else None) ∧
  (∀ m : IDataObject, bodyv = VObj m →
     body options = if bool_decide (m ≠ ∅) then Some (VObj m) else None) ∧
  (bodyv = VUndefined → body options = None) ∧
  qs options ≠ Some (VObj ∅) ∧
  body options ≠ Some (VObj ∅).
Proof.
  cbv zeta. repeat split.
  - intros b Hb Hne. unfold requestOptions. simpl. rewrite Hb. simpl.
    by destruct (String.eqb_spec b "").
  - intros [H | H]; unfold requestOptions; simpl; rewrite H; reflexivity.
  - intros m ->. unfold requestOptions. simpl. by rewrite attachable_object.
  - intros m ->. unfold requestOptions. simpl. by rewrite attachable_object.
  - intros ->. reflexivity.
  - unfold requestOptions. simpl. destruct (attachable qsv) eqn:Hq; [|done].
    intros [= ->]. rewrite attachable_object in Hq.
    by apply bool_decide_eq_true_1 in Hq.
  - unfold requestOptions. simpl. destruct (attachable bodyv) eqn:Hq; [|done].
    intros [= ->]. rewrite attachable_object in Hq.
    by apply bool_decide_eq_true_1 in Hq.
Qed.

(** ** Dispatcher: the prelude *)

Lemma initialQs_total this itemIndex operation :
  ∃ q, initialQs this itemIndex operation = Ok q ∧
       (streq operation "getAll" = false → q = ∅).
Proof.
  unfold initialQs. destruct (streq operation "getAll"); [|eauto].
  destruct (getNodeParameter_total this "limit" itemIndex (VNum 50))
    as [l ->]; [done|].
  destruct (getNodeParameter_total this "offset" itemIndex (VNum 0))
    as [o ->]; [done|].
  simpl. eexists. split; [reflexivity | done].
Qed.

Lemma buildRequest_switch this itemIndex resource operation :
  getNodeParameter this "resource" itemIndex VUndefined = Ok resource →
  getNodeParameter this "operation" itemIndex VUndefined = Ok operation →
  ∃ apiVersion useRawJsonData useRawJsonSearch q,
    getNodeParameter this "apiVersion" itemIndex (VStr "1") = Ok apiVersion ∧
    getNodeParameter this "useRawJsonData" itemIndex (VBool false)
    = Ok useRawJsonData ∧
    getNodeParameter this "useRawJsonSearch" itemIndex (VBool false)
    = Ok useRawJsonSearch ∧
    initialQs this itemIndex operation = Ok q ∧
    buildRequest JSON this itemIndex
    = switchResource JSON this itemIndex resource operation
        ("/api/v" +:+ toString apiVersion) useRawJsonData useRawJsonSearch q.
Proof.
  intros Hres Hop.
  destruct (getNodeParameter_total this "apiVersion" itemIndex (VStr "1"))
    as [av Hav]; [done|].
  destruct (getNodeParameter_total this "useRawJsonData" itemIndex (VBool false))
    as [u1 Hu1]; [done|].
  destruct (getNodeParameter_total this "useRawJsonSearch" itemIndex (VBool false))
    as [u2 Hu2]; [done|].
  destruct (initialQs_total this itemIndex operation) as (q & Hq & _).
  exists av, u1, u2, q. repeat (split; [assumption|]).
  unfold buildRequest.
  rewrite Hres; cbn [mbind result_bind]. rewrite Hop; cbn [mbind result_bind].
  rewrite Hav; cbn [mbind result_bind]. rewrite Hu1; cbn [mbind result_bind].
  rewrite Hu2; cbn [mbind result_bind]. rewrite Hq. reflexivity.
Qed.

(** C3.  With resource [import], operation [getAll], import type
    [Account], an empty import status and the API version left at [1], the
    dispatcher produces a GET request to [/api/v1/Import] without body whose
    query mapping has [type = Account] and no [statusType] key. *)
Theorem import_getAll_scenario this itemIndex :
  getNodeParameter this "resource" itemIndex VUndefined = Ok (VStr "import") →
  getNodeParameter this "operation" itemIndex VUndefined = Ok (VStr "getAll") →
  getNodeParameter this "apiVersion" itemIndex (VStr "1") = Ok (VStr "1") →
  getNodeParameter this "importType" itemIndex VUndefined
  = Ok (VStr "Account") →
  getNodeParameter this "importStatus" itemIndex VUndefined = Ok (VStr "") →
  ∃ spec (q : IDataObject),
    buildRequest JSON this itemIndex = Ok spec ∧
    req_method spec = GET ∧
    req_endpoint spec = "/api/v1/Import" ∧
    req_body spec = VUndefined ∧
    req_qs spec = VObj q ∧
    q !! "type" = Some (VStr "Account") ∧
    q !! "statusType" = None.
Proof.
  intros Hres Hop Hav Htype Hstatus.
  destruct (buildRequest_switch this itemIndex _ _ Hres Hop)
    as (av & u1 & u2 & q & Hav' & _ & _ & Hq & ->).
  rewrite Hav in Hav'. injection Hav' as <-.
  unfold initialQs in Hq. simpl in Hq.
  destruct (getNodeParameter this "limit" itemIndex (VNum 50)) as [l|];
    [|done].
  destruct (getNodeParameter this "offset" itemIndex (VNum 0)) as [o|];
    [|done].
  simpl in Hq. injection Hq as <-.
  unfold switchResource, importCase. simpl.
  rewrite Htype, Hstatus. simpl.
  eexists _, _. repeat split.
Qed.

(** ** Dispatcher: the [get] operations *)

Lemma streq_false (v : value) (literal : string) :
  v ≠ VStr literal → streq v literal = false.
Proof.
  destruct v; simpl; try done.
  intros H. destruct (String.eqb_spec s literal); [subst; done | done].
Qed.

(** C2, as the code has it.  For company, contact, deal, note and
    activity, a [get] builds a GET request to the collection endpoint
    followed by the object id, without body (so nothing is merged from the
    additional fields), whose query mapping is what [getJsonParameter]
    returns for [includeOptions].  For user and import, a [get] builds the
    same kind of request with an empty query mapping: [includeOptions] is
    not read. *)
Theorem get_operation_request this itemIndex resource apiVersion :
  getNodeParameter this "resource" itemIndex VUndefined = Ok (VStr resource) →
  getNodeParameter this "operation" itemIndex VUndefined = Ok (VStr "get") →
  getNodeParameter this "apiVersion" itemIndex (VStr "1") = Ok apiVersion →
  (In resource ["company"; "contact"; "deal"; "note"; "activity"] →
   ∀ objectId,
     getNodeParameter this "objectId" itemIndex VUndefined = Ok objectId →
     buildRequest JSON this itemIndex
     = (includeOptions ← getJsonParameter JSON this "includeOptions" itemIndex ∅;
        Ok (request GET
              (collectionEndpoint apiVersion resource +:+ "/"
               +:+ toString objectId)
              includeOptions VUndefined))) ∧
  (resource = "user" →
   ∀ userId,
     getNodeParameter this "userId" itemIndex VUndefined = Ok userId →
     buildRequest JSON this itemIndex
     = Ok (request GET
             (collectionEndpoint apiVersion resource +:+ "/" +:+ toString userId)
             (VObj ∅) VUndefined)) ∧
  (resource = "import" →
   ∀ importId,
     getNodeParameter this "importId" itemIndex VUndefined = Ok importId →
     buildRequest JSON this itemIndex
     = Ok (request GET
             (collectionEndpoint apiVersion resource +:+ "/"
              +:+ toString importId)
             (VObj ∅) VUndefined)).
Proof.
  intros Hres Hop Hav.
  destruct (buildRequest_switch this itemIndex _ _ Hres Hop)
    as (av & u1 & u2 & q & Hav' & _ & _ & Hq & ->).
  rewrite Hav in Hav'. injection Hav' as <-.
  unfold initialQs in Hq. simpl in Hq. injection Hq as <-.
  split; [|split].
  - intros Hin objectId Hid. simpl in Hin.
    repeat destruct Hin as [<- | Hin]; try done;
      unfold switchResource; cbn [streq String.eqb Ascii.eqb Bool.eqb];
      unfold companyCase, contactCase, dealCase, noteCase, activityCase;
      cbn [streq String.eqb Ascii.eqb Bool.eqb];
      rewrite Hid; reflexivity.
  - intros -> userId Hid.
    unfold switchResource; cbn [streq String.eqb Ascii.eqb Bool.eqb].
    unfold userCase. cbn [streq String.eqb Ascii.eqb Bool.eqb].
    rewrite Hid. reflexivity.
  - intros -> importId Hid.
    unfold switchResource; cbn [streq String.eqb Ascii.eqb Bool.eqb].
    unfold importCase. cbn [streq String.eqb Ascii.eqb Bool.eqb].
    rewrite Hid. reflexivity.
Qed.

(** ** Dispatcher: raw JSON search bodies *)

(** C5.  Wherever a search body is sent, if the raw-JSON toggle is set and
    the [search] field holds a string that [JSON.parse] reads as an object,
    the request is a POST whose body is exactly that object: no structured
    field is consulted. *)
Theorem raw_search_body_verbatim this itemIndex resource operation s
    (parsed : IDataObject) :
  getNodeParameter this "resource" itemIndex VUndefined = Ok (VStr resource) →
  getNodeParameter this "operation" itemIndex VUndefined = Ok operation →
  issuesSearch resource operation = true →
  getNodeParameter this "useRawJsonSearch" itemIndex (VBool false)
  = Ok (VBool true) →
  nodeParameters this itemIndex !! "search" = Some (VStr s) →
  JSON_parse JSON s = Some (VObj parsed) →
  ∃ spec,
    buildRequest JSON this itemIndex = Ok spec ∧
    req_method spec = POST ∧
    req_body spec = VObj parsed.
Proof.
  intros Hres Hop Hsearch Hraw Hs Hparse.
  destruct (buildRequest_switch this itemIndex _ _ Hres Hop)
    as (av & u1 & u2 & q & _ & _ & Hu2 & _ & ->).
  rewrite Hraw in Hu2. injection Hu2 as <-.
  assert (Hjson : getJsonParameter JSON this "search" itemIndex ∅
                  = Ok (VObj parsed)).
  { unfold getJsonParameter.
    rewrite (getNodeParameter_stored _ _ _ _ (VStr s)) by done.
    simpl. destruct (String.eqb_spec s "") as [-> | _].
    { rewrite JSON_parse_empty in Hparse. done. }
    by rewrite Hparse. }
  unfold issuesSearch in Hsearch.
  apply orb_true_iff in Hsearch as [Hsearch | Hin].
  - apply andb_true_iff in Hsearch as [Hin Hop'].
    apply bool_decide_eq_true_1 in Hin.
    repeat (apply elem_of_cons in Hin as [-> | Hin]);
      [..| by apply elem_of_nil in Hin];
      unfold switchResource; cbn [streq String.eqb Ascii.eqb Bool.eqb];
      unfold companyCase, contactCase, dealCase, noteCase, taskCase,
        activityCase, userCase;
      destruct operation as [| | | | |op| | | |]; try discriminate Hop';
      simpl in Hop'; apply String.eqb_eq in Hop' as ->;
      cbn [streq String.eqb Ascii.eqb Bool.eqb];
      unfold searchPayload; cbn [truthy]; rewrite Hjson;
      try (destruct (getNodeParameter_total this "withOpportunities"
             itemIndex (VBool false)) as [w ->]; [done|]);
      cbn [mbind result_bind]; eexists; repeat split.
  - apply bool_decide_eq_true_1 in Hin.
    repeat (apply elem_of_cons in Hin as [-> | Hin]);
      [..| by apply elem_of_nil in Hin];
      unfold switchResource; cbn [streq String.eqb Ascii.eqb Bool.eqb];
      unfold listCase, strategyCase, externalPropertyCase, searchPayload;
      cbn [truthy]; rewrite Hjson;
      cbn [mbind result_bind]; eexists; repeat split.
Qed.

(** ** Running statement blocks *)

Lemma exec_run_eq this itemIndex entry fields o :
  (fix run (fields : list stmt) (o : IDataObject) {struct fields}
       : result IDataObject :=
     match fields with
     | [] => Ok o
     | f :: rest =>
         match exec_stmt JSON this itemIndex entry f o with
         | Ok o' => run rest o'
         | Err e => Err e
         end
     end) fields o
  = exec_stmts JSON this itemIndex entry fields o.
Proof.
  revert o. induction fields as [|f rest IH]; intros o; [reflexivity|].
  simpl. destruct (exec_stmt JSON this itemIndex entry f o); [apply IH | done].
Qed.

Lemma exec_stmt_Nested this itemIndex entry key fields target :
  exec_stmt JSON this itemIndex entry (Nested key fields) target
  = match exec_stmts JSON this itemIndex entry fields ∅ with
    | Ok o =>
        Ok (if Nat.eqb (size o) 0 then target else <[key := VObj o]> target)
    | Err e => Err e
    end.
Proof. simpl. by rewrite exec_run_eq. Qed.

Lemma exec_stmt_MapEntries this itemIndex entry key parameterName property
    fields target :
  exec_stmt JSON this itemIndex entry
    (MapEntries key parameterName property fields) target
  = (container ← getNodeParameter this parameterName itemIndex (VObj ∅);
     entries ← get_prop container property;
     match nullish_or entries (VArr []) with
     | VArr l =>
         match mapEntries
                 (fun entry' => exec_stmts JSON this itemIndex entry' fields ∅)
                 l with
         | Ok xs =>
             Ok (if Nat.eqb (length xs) 0 then target
                 else <[key := VArr xs]> target)
         | Err e => Err e
         end
     | _ => Err (TypeError "map is not a function")
     end).
Proof.
  simpl.
  destruct (getNodeParameter this parameterName itemIndex (VObj ∅));
    [|done]. simpl.
  destruct (get_prop a property) as [entries|]; [|done]. simpl.
  destruct (nullish_or entries (VArr [])); try done.
  assert (Hmap : ∀ f g : value → result IDataObject,
            (∀ x, f x = g x) → mapEntries f l = mapEntries g l).
  { intros f g Hfg. induction l as [|x l IH]; [done|].
    simpl. by rewrite Hfg, IH. }
  erewrite Hmap; [reflexivity|]. intros x. apply exec_run_eq.
Qed.

Lemma exec_stmts_app this itemIndex entry fields1 fields2 o :
  exec_stmts JSON this itemIndex entry (fields1 ++ fields2)%list o
  = (o' ← exec_stmts JSON this itemIndex entry fields1 o;
     exec_stmts JSON this itemIndex entry fields2 o').
Proof.
  revert o. induction fields1 as [|f rest IH]; intros o; [reflexivity|].
  simpl. destruct (exec_stmt JSON this itemIndex entry f o); [apply IH | done].
Qed.

(** Induction on statements, with the induction hypothesis for every
    statement of a nested block. *)
Lemma stmt_nested_ind (P : stmt → Prop) :
  (∀ key e, P (AddIfNotEmpty key e)) →
  (∀ key e, P (SetIfTruthy key e)) →
  (∀ key e, P (SetTrueIf key e)) →
  (∀ key e, P (SetIfLength key e)) →
  (∀ key p, P (SetIfJsonKeys key p)) →
  (∀ key p, P (SetIfPropKeys key p)) →
  (∀ key e, P (SetCsv key e)) →
  (∀ key e, P (SetCsvInts key e)) →
  (∀ key e, P (Assign key e)) →
  (∀ key fields, Forall P fields → P (Nested key fields)) →
  (∀ key p property fields,
     Forall P fields → P (MapEntries key p property fields)) →
  (∀ p, P (AssignAdditional p)) →
  ∀ s, P s.
Proof.
  intros H1 H2 H3 H4 H5 H6 H7 H8 H9 HN HM HA.
  fix IH 1. intros [key e|key e|key e|key e|key p|key p|key e|key e|key e
                   |key fields|key p property fields|p].
  - apply H1.
  - apply H2.
  - apply H3.
  - apply H4.
  - apply H5.
  - apply H6.
  - apply H7.
  - apply H8.
  - apply H9.
  - apply HN. induction fields as [|f fields IHf]; constructor;
      [apply IH | apply IHf].
  - apply HM. induction fields as [|f fields IHf]; constructor;
      [apply IH | apply IHf].
  - apply HA.
Qed.

(** ** Which errors a supported resource can raise *)





















Lemma getJsonParameter_defined this parameterName itemIndex defaultValue v :
  getJsonParameter JSON this parameterName itemIndex defaultValue = Ok v →
  v ≠ VUndefined.
Proof.
  unfold getJsonParameter.
  destruct (getNodeParameter this parameterName itemIndex (VObj defaultValue))
    as [raw|] eqn:Hraw; [|done].
  apply getNodeParameter_defined in Hraw. simpl.
  destruct (is_empty raw); [intros [= <-]; done|].
  destruct raw; try (intros [= <-]; done).
  destruct (JSON_parse JSON s) as [parsed|]; [|done].
  destruct parsed; simpl; rewrite ?andb_false_r; intros [= <-]; done.
Qed.

Lemma getJsonParameter_not_null this parameterName itemIndex defaultValue v :
  getJsonParameter JSON this parameterName itemIndex defaultValue = Ok v →
  v ≠ VNull.
Proof.
  unfold getJsonParameter.
  destruct (getNodeParameter this parameterName itemIndex (VObj defaultValue))
    as [raw|]; [|done]. simpl.
  destruct raw; simpl; try (intros [= <-]; done).
  destruct (String.eqb s ""); [intros [= <-]; done|].
  destruct (JSON_parse JSON s) as [parsed|]; [|done].
  destruct parsed; simpl; rewrite ?andb_false_r; intros [= <-]; done.
Qed.

(** ** Dispatcher: unsupported resources and unhandled operations *)


(** ** Dispatcher: the structured bodies *)

Lemma streq_true (v : value) (literal : string) :
  streq v literal = true → v = VStr literal.
Proof.
  destruct v; simpl; try done. by intros ->%String.eqb_eq.
Qed.

Ltac split_structuredFields H resource operation :=
  unfold structuredFields in H;
  repeat match type of H with
         | (if String.eqb resource ?l then _ else _) = _ =>
             destruct (String.eqb_spec resource l) as [-> | _]
         | (if streq operation ?l then _ else _) = _ =>
             let E := fresh "Hop" in
             destruct (streq operation l) eqn:E;
             [apply streq_true in E; try subst operation |]
         end;
  try discriminate H; injection H as <- <-.

(** In structured mode the dispatcher runs the table that
    [structuredFields] names and places its result in the body. *)
Lemma buildRequest_structured this itemIndex resource operation pl fields u
    spec :
  getNodeParameter this "resource" itemIndex VUndefined = Ok (VStr resource) →
  getNodeParameter this "operation" itemIndex VUndefined = Ok operation →
  structuredFields resource operation = Some (pl, fields) →
  getNodeParameter this (rawToggle pl) itemIndex (VBool false) = Ok u →
  truthy u = false →
  buildRequest JSON this itemIndex = Ok spec →
  ∃ o, exec_stmts JSON this itemIndex VUndefined fields ∅ = Ok o ∧
       structuredPart pl spec = Some o.
Proof.
  intros Hres Hop Hsf Hu Hfalse.
  destruct (buildRequest_switch this itemIndex _ _ Hres Hop)
    as (av & u1 & u2 & q & _ & Hu1 & Hu2 & _ & ->).
  split_structuredFields Hsf resource operation;
    simpl in Hu; rewrite ?Hu1, ?Hu2 in Hu; injection Hu as ->;
    unfold switchResource; cbn [streq String.eqb Ascii.eqb Bool.eqb];
    unfold companyCase, contactCase, dealCase, noteCase, taskCase,
      activityCase, listCase, strategyCase, externalPropertyCase, userCase;
    cbn [streq String.eqb Ascii.eqb Bool.eqb];
    unfold searchPayload, dataPayload, wrapDataWithScrapeOptions, wrapData;
    rewrite ?Hfalse;
    repeat match goal with
           | H : streq _ _ = false |- _ => rewrite H
           end;
    repeat match goal with
           | |- context [exec_stmts JSON this itemIndex VUndefined ?t ∅] =>
               destruct (exec_stmts JSON this itemIndex VUndefined t ∅)
                 as [o|] eqn:?; cbn [mbind result_bind]
           | |- context [getNodeParameter this ?p itemIndex ?d] =>
               destruct (getNodeParameter this p itemIndex d);
               cbn [mbind result_bind]
           | |- context [getJsonParameter JSON this ?p itemIndex ?d] =>
               destruct (getJsonParameter JSON this p itemIndex d);
               cbn [mbind result_bind]
           | |- context [Object_keys_length ?v] =>
               destruct (Object_keys_length v); cbn [mbind result_bind]
           | |- context [Nat.eqb ?n 0] => destruct (Nat.eqb n 0)
           end;
    try discriminate; intros [= <-]; eexists; split; reflexivity.
Qed.

(** ** What a statement writes *)

Lemma written_union (c : bool) (k : string) (v : value) (target : IDataObject) :
  (if c then <[k := v]> target else target)
  = (if c then <[k := v]> ∅ else ∅) ∪ target.
Proof.
  destruct c.
  - by rewrite insert_empty, <- insert_union_singleton_l.
  - by rewrite (left_id_L ∅ (∪)).
Qed.

Lemma written_other (c : bool) (k k' : string) (v : value) :
  k' ≠ k → (if c then <[k := v]> (∅ : IDataObject) else ∅) !! k' = None.
Proof.
  intros Hne. destruct c; [|done]. by rewrite lookup_insert_ne.
Qed.

Ltac destruct_results H :=
  repeat match type of H with
         | context [mbind _ ?m] =>
             let E := fresh "E" in
             destruct m eqn:E; cbn [mbind result_bind] in H;
             [|discriminate H]
         | context [match ?m with Ok _ => _ | Err _ => _ end] =>
             let E := fresh "E" in
             destruct m eqn:E; [|discriminate H]
         end.

(** A keyed statement writes at most its own key, and what it writes
    does not depend on the target. *)
Lemma exec_stmt_keyed this itemIndex entry s k target target' :
  stmt_key s = Some k →
  exec_stmt JSON this itemIndex entry s target = Ok target' →
  ∃ o_s,
    exec_stmt JSON this itemIndex entry s ∅ = Ok o_s ∧
    (∀ k', k' ≠ k → o_s !! k' = None) ∧
    target' = o_s ∪ target.
Proof.
  intros Hk H.
  destruct s; simpl in Hk; simplify_eq;
    try rewrite exec_stmt_Nested in *;
    try rewrite exec_stmt_MapEntries in *;
    try (cbn [exec_stmt] in *);
    unfold addIfNotEmpty in *.
  all: destruct_results H.
  all: try match type of H with
       | context [nullish_or ?a ?b] =>
           destruct (nullish_or a b) eqn:?; try discriminate H;
           destruct_results H
       end.
  all: try match type of H with
       | (if truthy ?v then _ else _) = _ =>
           destruct (truthy v) eqn:?; destruct_results H
       end.
  all: injection H as <-.
  all: cbn [mbind result_bind];
    repeat match goal with
           | E : ?l = _ |- context [?l] => rewrite E; cbn [mbind result_bind]
           end;
    eexists; (split; [reflexivity|]);
    (split; [intros k' Hne|]);
    repeat match goal with
           | |- context [if ?c then _ else _] => destruct c
           end;
    rewrite ?lookup_insert_ne by done;
    rewrite ?insert_empty, ?(left_id_L ∅ (∪)); try done;
    by rewrite <- insert_union_singleton_l.
Qed.

(** ** Blocks and tables *)

Lemma wf_block_cons f rest :
  wf_block (f :: rest) = true →
  ∃ k, stmt_key f = Some k ∧ (k ∉ keys rest) ∧ wf_block rest = true.
Proof.
  unfold wf_block. simpl. intros H.
  apply andb_true_iff in H as [H Hnd].
  apply andb_true_iff in H as [Hf Hrest].
  apply bool_decide_eq_true_1 in Hf as [k Hk].
  apply bool_decide_eq_true_1 in Hnd.
  unfold keys in *. simpl in Hnd. rewrite Hk in Hnd.
  apply NoDup_cons in Hnd as [Hnotin Hnd].
  exists k. repeat split; [done..|].
  apply andb_true_iff. split; [done|]. by apply bool_decide_eq_true_2.
Qed.

Lemma exec_stmts_frame this itemIndex entry fields o o' k :
  wf_block fields = true →
  k ∉ keys fields →
  exec_stmts JSON this itemIndex entry fields o = Ok o' →
  o' !! k = o !! k.
Proof.
  revert o. induction fields as [|f rest IH]; intros o Hwf Hk H.
  - by injection H as <-.
  - apply wf_block_cons in Hwf as (kf & Hkf & _ & Hwf).
    unfold keys in Hk. simpl in Hk. rewrite Hkf in Hk.
    apply not_elem_of_cons in Hk as [Hne Hk].
    simpl in H.
    destruct (exec_stmt JSON this itemIndex entry f o) as [o1|] eqn:Hf;
      [|done].
    apply (exec_stmt_keyed _ _ _ _ kf) in Hf as (o_f & _ & Hother & ->);
      [|done].
    rewrite (IH _ Hwf Hk H).
    rewrite lookup_union_r; [done|]. by apply Hother.
Qed.

(** In a well-formed block, the final value at the key of a statement is
    what that statement alone writes. *)
Lemma exec_block_field this itemIndex entry fields s k target target' :
  wf_block fields = true →
  s ∈ fields →
  stmt_key s = Some k →
  target !! k = None →
  exec_stmts JSON this itemIndex entry fields target = Ok target' →
  ∃ o_s,
    exec_stmt JSON this itemIndex entry s ∅ = Ok o_s ∧
    target' !! k = o_s !! k.
Proof.
  revert target. induction fields as [|f rest IH];
    intros target Hwf Hin Hk Hnone H.
  - by apply elem_of_nil in Hin.
  - apply wf_block_cons in Hwf as (kf & Hkf & Hnotin & Hwf).
    simpl in H.
    destruct (exec_stmt JSON this itemIndex entry f target) as [o1|] eqn:Hf;
      [|done].
    apply (exec_stmt_keyed _ _ _ _ kf) in Hf as (o_f & Hf & Hother & ->);
      [|done].
    apply elem_of_cons in Hin as [-> | Hin].
    + rewrite Hkf in Hk. injection Hk as ->.
      exists o_f. split; [done|].
      rewrite (exec_stmts_frame _ _ _ _ _ _ _ Hwf Hnotin H).
      destruct (o_f !! k) as [v|] eqn:Hv.
      * by apply lookup_union_Some_l.
      * by rewrite lookup_union_r.
    + assert (k ≠ kf) as Hne.
      { intros ->. apply Hnotin. unfold keys. apply list_elem_of_omap.
        by exists s. }
      apply (IH (o_f ∪ target)); try done.
      rewrite lookup_union_r; [done|]. by apply Hother.
Qed.

Lemma wf_table_inv pl table :
  wf_table pl table = true →
  ∃ init,
    table = (init ++ [AssignAdditional (additionalParameter pl)])%list ∧
    wf_block init = true ∧
    (∀ key sub, Nested key sub ∈ init → wf_block sub = true).
Proof.
  unfold wf_table. intros H.
  destruct (rev table) as [|last rinit] eqn:Hrev; [done|].
  destruct last; try done.
  apply andb_true_iff in H as [H Hnested].
  apply andb_true_iff in H as [Hp Hwf].
  apply String.eqb_eq in Hp as ->.
  exists (rev rinit). repeat split; [|done|].
  - rewrite <- (rev_involutive table), Hrev. reflexivity.
  - intros key sub Hin. rewrite forallb_forall in Hnested.
    apply (Hnested (Nested key sub)).
    by apply in_rev, list_elem_of_In.
Qed.

Lemma structuredFields_wf resource operation pl fields :
  structuredFields resource operation = Some (pl, fields) →
  wf_table pl fields = true.
Proof.
  intros Hsf.
  split_structuredFields Hsf resource operation; vm_compute; reflexivity.
Qed.

(** Running a table: the block, then the merge of the additional fields. *)
Lemma exec_table this itemIndex entry init p o :
  exec_stmts JSON this itemIndex entry (init ++ [AssignAdditional p])%list ∅
  = Ok o →
  ∃ o0 additional,
    exec_stmts JSON this itemIndex entry init ∅ = Ok o0 ∧
    getAdditionalFields this p itemIndex = Ok additional ∧
    o = Object_assign o0 additional.
Proof.
  rewrite exec_stmts_app.
  destruct (exec_stmts JSON this itemIndex entry init ∅) as [o0|]; [|done].
  simpl. destruct (getAdditionalFields this p itemIndex) as [add|]; [|done].
  simpl. intros [= <-]. by exists o0, add.
Qed.

(** The final value at a top-level key of a table, when no additional
    field names the key, is what the statement of that key alone writes. *)
Lemma exec_table_top_field this itemIndex pl table o s k additional :
  wf_table pl table = true →
  exec_stmts JSON this itemIndex VUndefined table ∅ = Ok o →
  s ∈ table →
  stmt_key s = Some k →
  getAdditionalFields this (additionalParameter pl) itemIndex = Ok additional →
  additional !! k = None →
  ∃ o_s,
    exec_stmt JSON this itemIndex VUndefined s ∅ = Ok o_s ∧
    o !! k = o_s !! k.
Proof.
  intros Hwf Hrun Hin Hk Hadd Hnone.
  apply wf_table_inv in Hwf as (init & -> & Hwf & _).
  apply exec_table in Hrun as (o0 & add' & Hinit & Hadd' & ->).
  rewrite Hadd in Hadd'. injection Hadd' as <-.
  apply elem_of_app in Hin as [Hin | Hin].
  2:{ apply list_elem_of_singleton in Hin. subst s. discriminate Hk. }
  destruct (exec_block_field _ _ _ _ _ _ _ _ Hwf Hin Hk (lookup_empty k) Hinit)
    as (o_s & Hs & Hlook).
  exists o_s. split; [done|].
  unfold Object_assign. by rewrite lookup_union_r.
Qed.

(** The same one level down, for a statement of a nested block. *)
Lemma exec_table_nested_field this itemIndex pl table o outer sub s k
    additional :
  wf_table pl table = true →
  exec_stmts JSON this itemIndex VUndefined table ∅ = Ok o →
  Nested outer sub ∈ table →
  s ∈ sub →
  stmt_key s = Some k →
  getAdditionalFields this (additionalParameter pl) itemIndex = Ok additional →
  additional !! outer = None →
  ∃ o_s,
    exec_stmt JSON this itemIndex VUndefined s ∅ = Ok o_s ∧
    lookup2 o outer k = o_s !! k.
Proof.
  intros Hwf Hrun Hnested Hin Hk Hadd Hnone.
  destruct (exec_table_top_field _ _ _ _ _ _ outer _ Hwf Hrun Hnested
              eq_refl Hadd Hnone) as (o_n & Hn & Hlook).
  apply wf_table_inv in Hwf as (init & -> & _ & Hsub).
  apply elem_of_app in Hnested as [Hnested | Hnested].
  2:{ by apply list_elem_of_singleton in Hnested. }
  specialize (Hsub _ _ Hnested).
  rewrite exec_stmt_Nested in Hn.
  destruct (exec_stmts JSON this itemIndex VUndefined sub ∅) as [o_sub|] eqn:Hrun_sub;
    [|done].
  injection Hn as <-.
  destruct (exec_block_field _ _ _ _ _ _ _ _ Hsub Hin Hk (lookup_empty k)
              Hrun_sub) as (o_s & Hs & Hlook_sub).
  exists o_s. split; [done|].
  unfold lookup2. rewrite Hlook, <- Hlook_sub.
  destruct (Nat.eqb_spec (size o_sub) 0) as [Hsize | _].
  - apply map_size_empty_iff in Hsize. subst o_sub. by rewrite !lookup_empty.
  - by rewrite lookup_insert_eq.
Qed.

Lemma exec_table_located this itemIndex pl table o pos s k additional :
  wf_table pl table = true →
  exec_stmts JSON this itemIndex VUndefined table ∅ = Ok o →
  located table pos s →
  stmt_key s = Some k →
  getAdditionalFields this (additionalParameter pl) itemIndex = Ok additional →
  additional !! topKey pos k = None →
  ∃ o_s,
    exec_stmt JSON this itemIndex VUndefined s ∅ = Ok o_s ∧
    readAt o pos k = o_s !! k.
Proof.
  destruct pos as [|outer]; simpl.
  - apply exec_table_top_field.
  - intros Hwf Hrun (sub & Hnested & Hin).
    by apply (exec_table_nested_field this itemIndex pl table o outer sub).
Qed.

(** ** When a structured request is produced *)

(** Whether a statement succeeds, and what it writes, does not depend on
    the target. *)
Lemma exec_stmt_any_target this itemIndex entry s o_s target :
  exec_stmt JSON this itemIndex entry s ∅ = Ok o_s →
  exec_stmt JSON this itemIndex entry s target = Ok (o_s ∪ target).
Proof.
  intros H.
  destruct s;
    try rewrite exec_stmt_Nested in *;
    try rewrite exec_stmt_MapEntries in *;
    try (cbn [exec_stmt] in *);
    unfold addIfNotEmpty, Object_assign in *.
  all: destruct_results H.
  all: try match type of H with
       | context [nullish_or ?a ?b] =>
           destruct (nullish_or a b) eqn:?; try discriminate H;
           destruct_results H
       end.
  all: try match type of H with
       | (if truthy ?v then _ else _) = _ =>
           destruct (truthy v) eqn:?; destruct_results H
       end.
  all: injection H as <-.
  all: cbn [mbind result_bind];
    repeat match goal with
           | E : ?l = _ |- context [?l] => rewrite E; cbn [mbind result_bind]
           end;
    f_equal;
    repeat match goal with
           | |- context [if ?c then _ else _] => destruct c
           end;
    rewrite ?insert_empty, ?(left_id_L ∅ (∪)), ?(right_id_L ∅ (∪)); try done;
    by rewrite <- insert_union_singleton_l.
Qed.

Lemma exec_stmts_total this itemIndex entry fields :
  Forall (fun s => ∃ o_s, exec_stmt JSON this itemIndex entry s ∅ = Ok o_s)
    fields →
  ∀ target, ∃ o, exec_stmts JSON this itemIndex entry fields target = Ok o.
Proof.
  induction 1 as [|s rest [o_s Hs] _ IH]; intros target; [by eexists|].
  simpl. rewrite (exec_stmt_any_target _ _ _ _ _ target Hs). apply IH.
Qed.

(** In structured mode a request is produced as soon as every statement
    of the table succeeds on its own input and, where the dispatcher reads
    it, [scrapeOptions] is readable. *)
Lemma structured_request_produced this itemIndex resource operation pl table u :
  getNodeParameter this "resource" itemIndex VUndefined = Ok (VStr resource) →
  getNodeParameter this "operation" itemIndex VUndefined = Ok operation →
  structuredFields resource operation = Some (pl, table) →
  getNodeParameter this (rawToggle pl) itemIndex (VBool false) = Ok u →
  truthy u = false →
  Forall (fun s => ∃ o_s,
            exec_stmt JSON this itemIndex VUndefined s ∅ = Ok o_s) table →
  (∃ v, getJsonParameter JSON this "scrapeOptions" itemIndex ∅ = Ok v) →
  ∃ spec, buildRequest JSON this itemIndex = Ok spec.
Proof.
  intros Hres Hop Hsf Hu Hfalse Hfields [scrape Hscrape].
  destruct (exec_stmts_total _ _ _ _ Hfields ∅) as [o Hrun].
  pose proof (getJsonParameter_defined _ _ _ _ _ Hscrape) as Hdefined.
  pose proof (getJsonParameter_not_null _ _ _ _ _ Hscrape) as Hnotnull.
  destruct (buildRequest_switch this itemIndex _ _ Hres Hop)
    as (av & u1 & u2 & q & _ & Hu1 & Hu2 & _ & ->).
  destruct (getNodeParameter_total this "withOpportunities" itemIndex
              (VBool false)) as [w Hw]; [done|].
  split_structuredFields Hsf resource operation;
    simpl in Hu; rewrite ?Hu1, ?Hu2 in Hu; injection Hu as ->;
    unfold switchResource; cbn [streq String.eqb Ascii.eqb Bool.eqb];
    unfold companyCase, contactCase, dealCase, noteCase, taskCase,
      activityCase, listCase, strategyCase, externalPropertyCase, userCase;
    cbn [streq String.eqb Ascii.eqb Bool.eqb];
    unfold searchPayload, dataPayload, wrapDataWithScrapeOptions, wrapData;
    rewrite ?Hfalse, ?Hw;
    repeat match goal with
           | H : streq _ _ = false |- _ => rewrite H
           end;
    cbn [mbind result_bind]; rewrite Hrun; cbn [mbind result_bind];
    rewrite ?Hscrape; cbn [mbind result_bind];
    try (destruct scrape; try done; cbn [Object_keys_length mbind result_bind]);
    by eexists.
Qed.

(** * Comma-separated lists

    [parseCsv] and [parseInt] against the description of a list as
    segments. *)

Lemma append_nil (t : string) : "" +:+ t = t.
Proof. reflexivity. Qed.

Lemma append_cons a (s t : string) : String a s +:+ t = String a (s +:+ t).
Proof. reflexivity. Qed.

Lemma list_ascii_app (s t : string) :
  list_ascii_of_string (s +:+ t)
  = (list_ascii_of_string s ++ list_ascii_of_string t)%list.
Proof.
  induction s as [|a s IH]; [done|]. rewrite append_cons. simpl.
  by rewrite IH.
Qed.

Lemma list_ascii_rev_app s t :
  list_ascii_of_string (String.rev_app s t)
  = (rev (list_ascii_of_string s) ++ list_ascii_of_string t)%list.
Proof.
  revert t. induction s as [|a s IH]; intros t; [done|].
  simpl. rewrite IH. simpl. by rewrite <- app_assoc.
Qed.

Lemma list_ascii_rev s :
  list_ascii_of_string (String.rev s) = rev (list_ascii_of_string s).
Proof. unfold String.rev. rewrite list_ascii_rev_app. apply app_nil_r. Qed.

Lemma list_ascii_inj s t :
  list_ascii_of_string s = list_ascii_of_string t → s = t.
Proof.
  intros H. rewrite <- (string_of_list_ascii_of_string s),
    <- (string_of_list_ascii_of_string t). by rewrite H.
Qed.

Lemma string_rev_involutive s : String.rev (String.rev s) = s.
Proof.
  apply list_ascii_inj. rewrite !list_ascii_rev. apply rev_involutive.
Qed.

Lemma string_rev_app (s t : string) :
  String.rev (s +:+ t) = String.rev t +:+ String.rev s.
Proof.
  apply list_ascii_inj.
  rewrite list_ascii_rev, !list_ascii_app, !list_ascii_rev.
  apply rev_app_distr.
Qed.

Lemma head_rev_last {A} (l : list A) : head (rev l) = last l.
Proof.
  rewrite <- (rev_involutive l) at 2.
  destruct (rev l) as [|a r]; [done|]. simpl. by rewrite last_snoc.
Qed.

(** The white space of the specification is the white space [trim]
    strips. *)
Lemma isSpaceChar_isWhiteSpace a : isSpaceChar a = isWhiteSpace a.
Proof. by destruct a as [[] [] [] [] [] [] [] []]. Qed.

Lemma trim_start_clean s :
  match trim_start s with
  | String a _ => isSpaceChar a = false
  | EmptyString => True
  end.
Proof.
  induction s as [|a s IH]; [done|]. simpl.
  destruct (isWhiteSpace a) eqn:Ha; [apply IH|].
  by rewrite isSpaceChar_isWhiteSpace.
Qed.

Lemma trim_start_fixed s :
  match s with
  | String a _ => isSpaceChar a = false
  | EmptyString => True
  end →
  trim_start s = s.
Proof.
  destruct s as [|a s]; [done|]. simpl.
  rewrite isSpaceChar_isWhiteSpace. by intros ->.
Qed.

Lemma trim_start_blank (l r : string) :
  blank l = true → trim_start (l +:+ r) = trim_start r.
Proof.
  induction l as [|a l IH]; [done|]. unfold blank. simpl.
  intros [Ha Hl]%andb_prop.
  rewrite <- isSpaceChar_isWhiteSpace, Ha. by apply IH.
Qed.

Lemma blank_rev s : blank s = true → blank (String.rev s) = true.
Proof.
  unfold blank. rewrite list_ascii_rev, !forallb_forall.
  intros H a Ha. apply H. by apply (proj2 (in_rev _ _)).
Qed.

(** Every text is white space followed by what [trim_start] leaves. *)
Lemma trim_start_split s :
  ∃ w : string, blank w = true ∧ s = w +:+ trim_start s.
Proof.
  induction s as [|a s (w & Hw & IH)]; [by exists ""|]. simpl.
  destruct (isWhiteSpace a) eqn:Ha.
  - exists (String a w). split.
    + unfold blank in *. simpl. by rewrite isSpaceChar_isWhiteSpace, Ha.
    + rewrite append_cons. by rewrite <- IH.
  - by exists "".
Qed.

Lemma commaFree_app (s t : string) :
  commaFree (s +:+ t) = commaFree s && commaFree t.
Proof. unfold commaFree. by rewrite list_ascii_app, forallb_app. Qed.

Lemma blank_commaFree s : blank s = true → commaFree s = true.
Proof.
  unfold blank, commaFree. rewrite !forallb_forall. intros H a Ha.
  specialize (H a Ha). by destruct a as [[] [] [] [] [] [] [] []].
Qed.

(** [trim] removes the white space around the item of a segment. *)
Lemma trim_segment g : segmentOk g = true → trim (segmentText g) = core g.
Proof.
  unfold segmentOk, segmentText, tidy.
  intros [[Hlead [[_ Hhead]%andb_prop Hlast]%andb_prop]%andb_prop
            Htrail]%andb_prop.
  unfold trim. rewrite (trim_start_blank _ _ Hlead).
  destruct (core g) as [|a c] eqn:Hcore.
  - rewrite append_nil.
    destruct (trim_start_split (trail g)) as (w & Hw & Hsplit).
    assert (Hnone : trim_start (trail g) = "").
    { pose proof (trim_start_clean (trail g)) as Hclean.
      destruct (trim_start (trail g)) as [|b r] eqn:Ht; [done|].
      unfold blank in Htrail. rewrite forallb_forall in Htrail.
      rewrite (Htrail b) in Hclean; [done|].
      rewrite Hsplit, list_ascii_app. apply in_or_app. right. by left. }
    by rewrite Hnone.
  - simpl in Hhead. apply negb_true_iff in Hhead.
    rewrite (trim_start_fixed (String a c +:+ trail g))
      by (by rewrite append_cons).
    rewrite string_rev_app, (trim_start_blank _ _ (blank_rev _ Htrail)).
    rewrite trim_start_fixed; [apply string_rev_involutive|].
    destruct (String.rev (String a c)) as [|b r] eqn:Hrev; [done|].
    apply (f_equal list_ascii_of_string) in Hrev.
    rewrite list_ascii_rev in Hrev.
    apply (f_equal head) in Hrev. rewrite head_rev_last in Hrev.
    rewrite Hrev in Hlast. by apply negb_true_iff in Hlast.
Qed.

Lemma segmentText_commaFree g :
  segmentOk g = true → commaFree (segmentText g) = true.
Proof.
  unfold segmentOk, segmentText, tidy.
  intros [[Hlead [[Hcore _]%andb_prop _]%andb_prop]%andb_prop Htrail]%andb_prop.
  by rewrite !commaFree_app, (blank_commaFree _ Hlead), Hcore,
    (blank_commaFree _ Htrail).
Qed.

Lemma split_comma_commaFree s :
  Forall (fun piece => commaFree piece = true) (split_comma s).
Proof.
  induction s as [|a s IH]; [by repeat constructor|]. simpl.
  destruct (Ascii.eqb a ","%char) eqn:Ha; [by constructor|].
  destruct (split_comma s) as [|h t]; [repeat constructor|].
  - unfold commaFree. simpl. by rewrite Ha.
  - inversion IH as [|? ? Hh Ht]; subst. constructor; [|done].
    unfold commaFree in *. simpl. by rewrite Ha.
Qed.

Lemma split_comma_item x : commaFree x = true → split_comma x = [x].
Proof.
  induction x as [|a x IH]; [done|]. unfold commaFree. simpl.
  intros [Ha H]%andb_prop. apply negb_true_iff in Ha. rewrite Ha.
  by rewrite (IH H).
Qed.

Lemma split_comma_cons x rest :
  commaFree x = true →
  split_comma (x +:+ "," +:+ rest) = x :: split_comma rest.
Proof.
  induction x as [|a x IH]; [done|]. unfold commaFree. simpl.
  intros [Ha H]%andb_prop. apply negb_true_iff in Ha.
  rewrite Ha. by rewrite (IH H).
Qed.

Lemma split_comma_concat l :
  l ≠ [] →
  Forall (fun item => commaFree item = true) l →
  split_comma (String.concat "," l) = l.
Proof.
  induction l as [|x l IH]; [done|]. intros _ Hl.
  inversion Hl as [|? ? Hx Hrest]; subst.
  destruct l as [|y l]; [by apply split_comma_item|].
  change (String.concat "," (x :: y :: l))
    with (x +:+ "," +:+ String.concat "," (y :: l)).
  rewrite (split_comma_cons _ _ Hx). by rewrite IH.
Qed.

Lemma concat_split_comma s : String.concat "," (split_comma s) = s.
Proof.
  induction s as [|a s IH]; [done|]. simpl.
  destruct (Ascii.eqb_spec a ","%char) as [-> | _].
  - destruct (split_comma s) as [|h t] eqn:Hs.
    + by destruct s.
    + change (String.concat "," ("" :: h :: t))
        with ("" +:+ "," +:+ String.concat "," (h :: t)).
      by rewrite IH.
  - destruct (split_comma s) as [|h t] eqn:Hs.
    + by destruct s.
    + rewrite <- IH. by destruct t.
Qed.

Lemma parseCsv_segments gs :
  Forall (fun g => segmentOk g = true) gs →
  parseCsv (VStr (csvText gs)) = Ok (csvItems gs).
Proof.
  intros Hgs. unfold parseCsv. cbn [truthy].
  assert (Hfilter : ∀ l : list string,
            List.filter (fun item => negb (Nat.eqb (String.length item) 0)) l
            = List.filter (fun c => negb (String.eqb c "")) l).
  { intros l. apply filter_ext. by intros []. }
  destruct (String.eqb_spec (csvText gs) "") as [Hempty | Hne]; cbn [negb].
  - f_equal. unfold csvItems, csvText in *.
    destruct gs as [|g [|g' gs]]; [done| |].
    + simpl in Hempty. unfold segmentText in Hempty.
      destruct (lead g); [|done]. rewrite append_nil in Hempty.
      simpl. by destruct (core g).
    + exfalso. rewrite !fmap_cons in Hempty.
      change (String.concat "," (?x :: ?y :: ?l))
        with (x +:+ "," +:+ String.concat "," (y :: l)) in Hempty.
      by destruct (segmentText g).
  - f_equal. unfold csvText in *.
    rewrite split_comma_concat.
    + rewrite Hfilter. unfold csvItems. f_equal.
      clear Hne. induction Hgs as [|g rest Hg _ IH]; [done|].
      rewrite !fmap_cons. f_equal; [by apply trim_segment | exact IH].
    + intros Hnil. apply fmap_nil_inv in Hnil. by subst.
    + apply Forall_fmap. eapply Forall_impl; [exact Hgs|].
      apply segmentText_commaFree.
Qed.

(** Every text without comma is a segment. *)
Lemma segment_exists piece :
  commaFree piece = true →
  ∃ g, segmentOk g = true ∧ segmentText g = piece.
Proof.
  intros Hfree.
  destruct (trim_start_split piece) as (w1 & Hw1 & Hsplit1).
  pose proof (trim_start_clean piece) as Ht.
  set (t := trim_start piece) in *.
  destruct (trim_start_split (String.rev t)) as (w2 & Hw2 & Hsplit2).
  pose proof (trim_start_clean (String.rev t)) as Hu.
  set (u := trim_start (String.rev t)) in *.
  assert (Ht' : t = String.rev u +:+ String.rev w2).
  { rewrite <- string_rev_app, <- Hsplit2. by rewrite string_rev_involutive. }
  exists (Segment w1 (String.rev u) (String.rev w2)).
  split; [|unfold segmentText; cbn [lead core trail]; by rewrite <- Ht'].
  unfold segmentOk, tidy. cbn [lead core trail].
  rewrite Hw1, (blank_rev _ Hw2). cbn [andb]. rewrite andb_true_r.
  assert (Hfree' : commaFree (String.rev u) = true).
  { rewrite Hsplit1, commaFree_app, Ht', commaFree_app in Hfree.
    by apply andb_prop in Hfree as [_ [? _]%andb_prop]. }
  rewrite Hfree'. cbn [andb]. apply andb_true_iff. split.
  - destruct (String.rev u) as [|a r] eqn:Hrev; [done|]. simpl.
    rewrite Ht', append_cons in Ht. by rewrite Ht.
  - rewrite list_ascii_rev, <- head_rev_last, rev_involutive.
    destruct u as [|a r]; [done|]. simpl. by rewrite Hu.
Qed.

(** X13.  [parseCsv] against the description of a list.  A text is a
    sequence of segments separated by commas, each made of white space, an
    item without comma that neither starts nor ends with white space, and
    white space again.  [parseCsv] returns the items of the segments that
    are not empty, in order; and every text is such a sequence. *)
Theorem parseCsv_items :
  (∀ gs, Forall (fun g => segmentOk g = true) gs →
         parseCsv (VStr (csvText gs)) = Ok (csvItems gs)) ∧
  (∀ s, ∃ gs, Forall (fun g => segmentOk g = true) gs ∧ csvText gs = s).
Proof.
  split; [apply parseCsv_segments|].
  intros s.
  assert (Hsegments : ∃ gs, Forall (fun g => segmentOk g = true) gs ∧
                            segmentText <$> gs = split_comma s).
  { pose proof (split_comma_commaFree s) as Hfree.
    induction Hfree as [|piece rest Hpiece _ (gs & Hgs & Htext)].
    - by exists [].
    - destruct (segment_exists piece Hpiece) as (g & Hg & <-).
      exists (g :: gs). split; [by constructor|].
      by rewrite fmap_cons, Htext. }
  destruct Hsegments as (gs & Hgs & Htext). exists gs. split; [done|].
  unfold csvText. rewrite Htext. apply concat_split_comma.
Qed.

(** ** Lists of identifiers *)

Lemma is_nat_pretty_N_char d :
  (d < 10)%N → Ascii.is_nat (pretty_N_char d) = Some (N.to_nat d).
Proof.
  intros Hd.
  assert (d = 0 ∨ d = 1 ∨ d = 2 ∨ d = 3 ∨ d = 4 ∨ d = 5 ∨ d = 6 ∨ d = 7
          ∨ d = 8 ∨ d = 9)%N as Hcases by lia.
  repeat destruct Hcases as [-> | Hcases]; try reflexivity.
  by subst d.
Qed.

Lemma digits_prefix_pretty_N_go x : ∀ s acc,
  (0 < x)%N → default 0%Z acc = 0%Z →
  digits_prefix (pretty_N_go x s) acc = digits_prefix s (Some (Z.of_N x)).
Proof.
  induction (N.lt_wf_0 x) as [x _ IH]; intros s acc Hx Hacc.
  rewrite pretty_N_go_step by done.
  assert (Hd : (x `mod` 10 < 10)%N) by (apply N.mod_lt; lia).
  pose proof (N.div_mod x 10 ltac:(lia)) as Hdm.
  destruct (decide (x `div` 10 = 0)%N) as [H0 | Hn0].
  - rewrite H0, pretty_N_go_0. simpl.
    rewrite (is_nat_pretty_N_char _ Hd), Hacc. do 2 f_equal. lia.
  - rewrite IH; [|apply N.div_lt; lia|lia|done]. simpl.
    rewrite (is_nat_pretty_N_char _ Hd). do 2 f_equal. lia.
Qed.

Lemma pretty_N_go_head x : ∀ s,
  (0 < x)%N →
  ∃ d rest, (d < 10)%N ∧ pretty_N_go x s = String (pretty_N_char d) rest.
Proof.
  induction (N.lt_wf_0 x) as [x _ IH]; intros s Hx.
  rewrite pretty_N_go_step by done.
  destruct (decide (x `div` 10 = 0)%N) as [H0 | Hn0].
  - rewrite H0, pretty_N_go_0. eexists _, _. split; [|reflexivity].
    apply N.mod_lt. lia.
  - apply IH; [apply N.div_lt; lia | by apply N.neq_0_lt_0].
Qed.

Lemma pretty_N_go_chars (P : ascii → bool) x : ∀ s,
  (∀ d, (d < 10)%N → P (pretty_N_char d) = true) →
  forallb P (list_ascii_of_string s) = true →
  forallb P (list_ascii_of_string (pretty_N_go x s)) = true.
Proof.
  induction (N.lt_wf_0 x) as [x _ IH]; intros s HP Hs.
  destruct (decide (0 < x)%N) as [Hx | Hx].
  - rewrite pretty_N_go_step by done.
    apply IH; [apply N.div_lt; lia | done |].
    simpl. rewrite HP by (apply N.mod_lt; lia). exact Hs.
  - assert (x = 0%N) as -> by lia. by rewrite pretty_N_go_0.
Qed.

Lemma pretty_N_char_plain d :
  (d < 10)%N →
  negb (isSpaceChar (pretty_N_char d))
  && negb (Ascii.eqb (pretty_N_char d) ","%char) = true.
Proof.
  intros Hd.
  assert (d = 0 ∨ d = 1 ∨ d = 2 ∨ d = 3 ∨ d = 4 ∨ d = 5 ∨ d = 6 ∨ d = 7
          ∨ d = 8 ∨ d = 9)%N as Hcases by lia.
  repeat destruct Hcases as [-> | Hcases]; try reflexivity.
  by subst d.
Qed.

Lemma parseInt_digit d rest :
  (d < 10)%N →
  parseInt (String (pretty_N_char d) rest)
  = match digits_prefix (String (pretty_N_char d) rest) None with
    | Some n => numberOfInteger n
    | None => VNaN
    end.
Proof.
  intros Hd.
  assert (d = 0 ∨ d = 1 ∨ d = 2 ∨ d = 3 ∨ d = 4 ∨ d = 5 ∨ d = 6 ∨ d = 7
          ∨ d = 8 ∨ d = 9)%N as Hcases by lia.
  repeat destruct Hcases as [-> | Hcases]; try reflexivity.
  by subst d.
Qed.

Lemma pretty_Z_text (z : Z) :
  pretty z = match z with
             | Z0 => "0"
             | Zpos p => pretty_N_go (Npos p) ""
             | Zneg p => String "-"%char (pretty_N_go (Npos p) "")
             end.
Proof. by destruct z. Qed.

Lemma numberOfInteger_safe z : safeInteger z = true → numberOfInteger z = VNum z.
Proof.
  unfold safeInteger, numberOfInteger, roundInteger. by intros ->.
Qed.

(** A numeral of a safe integer reads back as the integer. *)
Lemma parseInt_pretty (z : Z) :
  safeInteger z = true → parseInt (pretty z) = VNum z.
Proof.
  intros Hsafe. rewrite <- (numberOfInteger_safe z Hsafe).
  rewrite pretty_Z_text. destruct z as [|p|p]; [reflexivity| |].
  - destruct (pretty_N_go_head (Npos p) "") as (d & rest & Hd & Heq); [lia|].
    rewrite Heq, (parseInt_digit _ _ Hd), <- Heq.
    by rewrite digits_prefix_pretty_N_go.
  - change (parseInt (String "-"%char (pretty_N_go (N.pos p) "")))
      with (match digits_prefix (pretty_N_go (N.pos p) "") None with
            | Some n => numberOfInteger (- n)
            | None => VNaN
            end).
    by rewrite digits_prefix_pretty_N_go.
Qed.

Lemma parseInt_numerals (ids : list Z) :
  Forall (fun z => safeInteger z = true) ids →
  parseInt <$> (pretty <$> ids) = VNum <$> ids.
Proof.
  induction 1 as [|z ids Hz _ IH]; [done|].
  rewrite !fmap_cons, (parseInt_pretty _ Hz). by rewrite IH.
Qed.

(** A numeral is an item: it has no comma and no white space. *)
Lemma tidy_pretty (z : Z) : tidy (pretty z) = true ∧ pretty z ≠ "".
Proof.
  set (P := fun a => negb (isSpaceChar a) && negb (Ascii.eqb a ","%char)).
  assert (Hchars : forallb P (list_ascii_of_string (pretty z)) = true).
  { rewrite pretty_Z_text. destruct z as [|p|p]; [done| |].
    - apply pretty_N_go_chars; [|done]. apply pretty_N_char_plain.
    - simpl. apply pretty_N_go_chars; [|done]. apply pretty_N_char_plain. }
  assert (Hne : pretty z ≠ "").
  { rewrite pretty_Z_text. destruct z as [|p|p]; [done| |done].
    destruct (pretty_N_go_head (Npos p) "") as (d & rest & _ & ->);
      [lia | done]. }
  split; [|done]. unfold tidy, commaFree.
  rewrite forallb_forall in Hchars.
  rewrite !andb_true_iff. repeat split.
  - apply forallb_forall. intros a Ha.
    by apply Hchars, andb_prop in Ha as [_ ?].
  - destruct (list_ascii_of_string (pretty z)) as [|a l] eqn:Hl; [done|].
    assert (Ha : In a (a :: l)) by (by left).
    by apply Hchars, andb_prop in Ha as [? _].
  - destruct (last (list_ascii_of_string (pretty z))) as [a|] eqn:Hlast;
      [|done].
    apply last_Some in Hlast as [l' Hl'].
    assert (Ha : In a (list_ascii_of_string (pretty z))).
    { rewrite Hl'. apply in_or_app. right. by left. }
    by apply Hchars, andb_prop in Ha as [? _].
Qed.

Lemma parseCsv_numerals (ids : list Z) (gs : list segment) :
  Forall (fun g => blank (lead g) && blank (trail g) = true) gs →
  core <$> gs = pretty <$> ids →
  parseCsv (VStr (csvText gs)) = Ok (pretty <$> ids).
Proof.
  intros Hblank Hcores. rewrite parseCsv_segments.
  - f_equal. unfold csvItems. rewrite Hcores.
    clear. induction ids as [|z ids IH]; [done|].
    rewrite fmap_cons. simpl.
    destruct (String.eqb_spec (pretty z) "") as [Hz | _].
    + by destruct (tidy_pretty z) as [_ Hne].
    + simpl. by rewrite IH.
  - revert ids Hcores.
    induction Hblank as [|g gs Hg _ IH]; intros ids Hcores; [constructor|].
    destruct ids as [|z ids]; [done|]. rewrite !fmap_cons in Hcores.
    injection Hcores as Hcore Hcores.
    constructor; [|by eapply IH].
    unfold segmentOk. apply andb_prop in Hg as [-> ->].
    rewrite Hcore. by destruct (tidy_pretty z) as [-> _].
Qed.

(** X14.  A comma-separated list of integers up to [2 ^ 53] in absolute
    value, each written in decimal with any white space around it, is
    decoded to those integers: [parseCsv] yields the numerals in order and
    [parseInt] reads each one back as its number, so no identifier is
    lost, reordered or turned into [NaN]. *)
Theorem csv_identifiers_decoded (ids : list Z) (gs : list segment) :
  Forall (fun z => safeInteger z = true) ids →
  Forall (fun g => blank (lead g) && blank (trail g) = true) gs →
  core <$> gs = pretty <$> ids →
  parseCsv (VStr (csvText gs)) = Ok (pretty <$> ids) ∧
  parseInt <$> (pretty <$> ids) = VNum <$> ids.
Proof.
  intros Hsafe Hblank Hcores.
  split; [by apply parseCsv_numerals | by apply parseInt_numerals].
Qed.

(** ** The catalog and the tables *)

Lemma fallback_same_eq a b : fallback_same a b = true → a = b.
Proof.
  destruct a, b; simpl; try discriminate;
    try match goal with |- _ → VArr ?l = _ => destruct l end;
    try match goal with |- _ → _ = VArr ?l => destruct l end;
    try discriminate.
  - by intros ->%Bool.eqb_prop.
  - by intros ->%Z.eqb_eq.
  - by intros ->%String.eqb_eq.
  - done.
Qed.

Lemma operand_same_eq a b : operand_same a b = true → a = b.
Proof.
  destruct a, b; simpl; try discriminate.
  - intros [->%String.eqb_eq ->%fallback_same_eq]%andb_prop. reflexivity.
  - by intros ->%String.eqb_eq.
Qed.

Lemma stmt_same_eq a b : stmt_same a b = true → a = b.
Proof.
  destruct a, b; simpl; try discriminate;
    intros [->%String.eqb_eq H]%andb_prop;
    first [ apply operand_same_eq in H | apply String.eqb_eq in H ];
    by subst.
Qed.

Lemma stmts_same_eq l1 l2 : stmts_same l1 l2 = true → l1 = l2.
Proof.
  revert l2. induction l1 as [|a l1 IH]; intros [|b l2]; simpl;
    try discriminate; [done|].
  intros [->%stmt_same_eq ->%IH]%andb_prop. reflexivity.
Qed.

Lemma placement_same_eq a b : placement_same a b = true → a = b.
Proof. by destruct a, b. Qed.

Lemma existsb_same table s :
  existsb (stmt_same s) table = true → s ∈ table.
Proof.
  intros (t & Hin & ->%stmt_same_eq)%existsb_exists.
  by apply list_elem_of_In.
Qed.

Lemma locatedb_located table pos s :
  locatedb table pos s = true → located table pos s.
Proof.
  destruct pos as [|outer]; simpl; [apply existsb_same|].
  intros (t & Hin & Ht)%existsb_exists.
  destruct t; try discriminate.
  apply andb_prop in Ht as [->%String.eqb_eq Hs%existsb_same].
  eexists. split; [by apply list_elem_of_In | done].
Qed.

Lemma catalog_checked : forallb fieldChecked fieldCatalog = true.
Proof. vm_compute. reflexivity. Qed.

Lemma catalog_fallbacks : forallb fallbackChecked fieldCatalog = true.
Proof. vm_compute. reflexivity. Qed.

Lemma nested_checked : forallb nestedChecked nestedObjects = true.
Proof. vm_compute. reflexivity. Qed.

Lemma arrays_checked : forallb arrayChecked entryArrays = true.
Proof. vm_compute. reflexivity. Qed.


Lemma catalog_located f :
  f ∈ fieldCatalog →
  ∃ table,
    structuredFields (f_resource f) (VStr (f_operation f))
    = Some (placementOf (f_operation f), table) ∧
    located table (f_position f) (fieldStmt f).
Proof.
  intros Hf%list_elem_of_In.
  pose proof catalog_checked as Hall. rewrite forallb_forall in Hall.
  specialize (Hall f Hf). unfold fieldChecked in Hall.
  destruct (structuredFields (f_resource f) (VStr (f_operation f)))
    as [[pl table]|]; [|discriminate].
  apply andb_prop in Hall as [->%placement_same_eq Hloc%locatedb_located].
  by exists table.
Qed.

Lemma catalog_fallback f :
  f ∈ fieldCatalog →
  match f_type f with
  | TBoolean => f_fallback f = VBool (cleanEmptyName f)
  | TNumber =>
      if writtenAtZero f then isNumber (f_fallback f) = true
      else f_fallback f = VNum 0
  | _ => True
  end.
Proof.
  intros Hf%list_elem_of_In.
  pose proof catalog_fallbacks as Hall. rewrite forallb_forall in Hall.
  specialize (Hall f Hf). unfold fallbackChecked in Hall.
  destruct (f_type f); try done; [by apply fallback_same_eq|].
  by destruct (writtenAtZero f); [|apply fallback_same_eq].
Qed.

Lemma fieldStmt_key f : stmt_key (fieldStmt f) = Some (f_key f).
Proof.
  unfold fieldStmt.
  by destruct (f_type f), (cleanEmptyName f), (writtenAtZero f),
    (f_position f).
Qed.

(** ** The additional fields of an item *)

Lemma entryObject_field e :
  get_prop (entryObject e) "field"
  = Ok (match entry_field e with
        | Some name => VStr name
        | None => VUndefined
        end).
Proof.
  destruct e as [[name|] [v|]]; unfold entryObject;
    cbn [entry_field entry_value get_prop];
    rewrite ?lookup_insert_ne by done;
    by rewrite ?lookup_insert_eq, ?lookup_empty.
Qed.

Lemma entryObject_value e :
  get_prop (entryObject e) "value" = Ok (default VUndefined (entry_value e)).
Proof.
  destruct e as [[name|] [v|]]; unfold entryObject;
    cbn [entry_field entry_value get_prop];
    rewrite ?lookup_insert_eq; rewrite ?lookup_insert_ne by done;
    by rewrite ?lookup_empty.
Qed.

Lemma nullish_or_valueOrEmpty e :
  nullish_or (default VUndefined (entry_value e)) (VStr "") = valueOrEmpty e.
Proof. unfold valueOrEmpty. by destruct (entry_value e) as [[]|]. Qed.

Lemma mergedFields_cons e entries k :
  mergedFields (e :: entries) k
  = match mergedFields entries k with
    | Some v => Some v
    | None => if names k e then Some (valueOrEmpty e) else None
    end.
Proof.
  unfold mergedFields. simpl.
  destruct (names k e); [|by destruct (last _)].
  destruct (List.filter (names k) entries) as [|e' l]; [done|].
  change (last (e :: e' :: l)) with (last (e' :: l)).
  destruct (last (e' :: l)) eqn:Hlast; [done|].
  by apply last_None in Hlast.
Qed.

Lemma additionalLoop_entries entries additional :
  ∃ r,
    additionalLoop (entryObject <$> entries) additional = Ok r ∧
    ∀ k, r !! k = match mergedFields entries k with
                  | Some v => Some v
                  | None => additional !! k
                  end.
Proof.
  revert additional. induction entries as [|e rest IH]; intros additional.
  - exists additional. by split.
  - rewrite fmap_cons. cbn [additionalLoop].
    rewrite entryObject_field. cbn [mbind result_bind].
    destruct (entry_field e) as [name|] eqn:Hname; cbn [truthy].
    + destruct (String.eqb_spec name "") as [-> | Hne]; cbn [negb].
      * destruct (IH additional) as (r & Hr & Hlook).
        exists r. split; [done|]. intros k.
        rewrite Hlook, mergedFields_cons.
        destruct (mergedFields rest k); [done|].
        unfold names. rewrite Hname. cbn [String.eqb negb].
        by rewrite andb_false_r.
      * rewrite entryObject_value. cbn [mbind result_bind toString].
        rewrite nullish_or_valueOrEmpty. unfold set_property.
        destruct (String.eqb_spec name "__proto__") as [-> | Hproto].
        -- destruct (IH additional) as (r & Hr & Hlook).
           exists r. split; [done|]. intros k.
           rewrite Hlook, mergedFields_cons.
           destruct (mergedFields rest k); [done|].
           unfold names. rewrite Hname. cbn [String.eqb Ascii.eqb Bool.eqb negb].
           by rewrite andb_false_r.
        -- destruct (IH (<[name := valueOrEmpty e]> additional))
             as (r & Hr & Hlook).
           exists r. split; [done|]. intros k.
           rewrite Hlook, mergedFields_cons.
           destruct (mergedFields rest k); [done|].
           unfold names. rewrite Hname.
           rewrite (proj2 (String.eqb_neq name "") Hne),
             (proj2 (String.eqb_neq name "__proto__") Hproto).
           cbn [negb]. rewrite !andb_true_r.
           destruct (String.eqb_spec name k) as [<- | Hk].
           ++ by rewrite lookup_insert_eq.
           ++ by rewrite lookup_insert_ne.
    + destruct (IH additional) as (r & Hr & Hlook).
      exists r. split; [done|]. intros k.
      rewrite Hlook, mergedFields_cons.
      destruct (mergedFields rest k); [done|].
      unfold names. by rewrite Hname.
Qed.

Lemma getAdditionalFields_entries this parameterName itemIndex entries :
  getNodeParameter this parameterName itemIndex (VArr [])
  = Ok (VArr (entryObject <$> entries)) →
  ∃ additional,
    getAdditionalFields this parameterName itemIndex = Ok additional ∧
    ∀ k, additional !! k = mergedFields entries k.
Proof.
  intros Hentries. unfold getAdditionalFields. rewrite Hentries.
  cbn [mbind result_bind].
  destruct (additionalLoop_entries entries ∅) as (r & Hr & Hlook).
  exists r. split; [done|]. intros k. rewrite Hlook.
  by destruct (mergedFields entries k).
Qed.

Lemma mergedFields_unnamed k entries :
  unnamed k entries → mergedFields entries k = None.
Proof.
  induction 1 as [|e rest He _ IH]; [done|].
  rewrite mergedFields_cons, IH. unfold names.
  destruct (entry_field e) as [name|]; [|done].
  destruct (String.eqb_spec name k) as [-> | _]; [by destruct He | done].
Qed.

(** ** The fields of the catalog *)

Lemma structuredItem_run this itemIndex resource operation table spec :
  structuredItem this itemIndex resource operation →
  structuredFields resource (VStr operation)
  = Some (placementOf operation, table) →
  buildRequest JSON this itemIndex = Ok spec →
  wf_table (placementOf operation) table = true ∧
  ∃ o,
    exec_stmts JSON this itemIndex VUndefined table ∅ = Ok o ∧
    structuredPart (placementOf operation) spec = Some o.
Proof.
  intros (Hres & Hop & Hraw) Hsf Hbuild.
  split; [by apply structuredFields_wf in Hsf|].
  by apply (buildRequest_structured this itemIndex resource (VStr operation)
              (placementOf operation) table (VBool false) spec).
Qed.

(** What the request holds at the place of a field is what the statement
    of the field writes on its own. *)
Lemma catalog_field this itemIndex f entries spec :
  f ∈ fieldCatalog →
  structuredItem this itemIndex (f_resource f) (f_operation f) →
  additionalEntries this itemIndex (f_operation f) entries →
  unnamed (topKey (f_position f) (f_key f)) entries →
  buildRequest JSON this itemIndex = Ok spec →
  ∃ o_s,
    exec_stmt JSON this itemIndex VUndefined (fieldStmt f) ∅ = Ok o_s ∧
    bodyField spec f = Some (o_s !! f_key f).
Proof.
  intros Hf Hitem Hentries Hunnamed Hbuild.
  destruct (catalog_located f Hf) as (table & Hsf & Hloc).
  destruct (structuredItem_run _ _ _ _ _ _ Hitem Hsf Hbuild)
    as (Hwf & o & Hrun & Hpart).
  destruct (getAdditionalFields_entries _ _ _ _ Hentries)
    as (additional & Hadd & Hlook).
  assert (Hnone : additional !! topKey (f_position f) (f_key f) = None).
  { rewrite Hlook. by apply mergedFields_unnamed. }
  destruct (exec_table_located this itemIndex _ table o _ _ (f_key f)
              additional Hwf Hrun Hloc (fieldStmt_key f) Hadd Hnone)
    as (o_s & Hs & Hread).
  exists o_s. split; [done|]. unfold bodyField. rewrite Hpart. simpl.
  by rewrite Hread.
Qed.

Lemma tables_catalogued resource operation pl table s ty kind :
  (ty = TBoolean ∧ kind = isBoolean) ∨ (ty = TNumber ∧ kind = isInteger) →
  structuredFields resource operation = Some (pl, table) →
  s ∈ allStatements table →
  readsCatalogued resource ty kind s = true.
Proof.
  intros Hty Hsf Hin%list_elem_of_In. revert s Hin. apply forallb_forall.
  split_structuredFields Hsf resource operation;
    destruct Hty as [[-> ->] | [-> ->]]; vm_compute; reflexivity.
Qed.

(** C4, as the code has it.  In structured mode, a boolean field of the
    catalog leaves its key out of the body when the input is [false] and
    writes the key with [true] when the input is [true], at the top level
    and inside the nested include objects alike, provided no
    Additional-Fields entry names the key (or, for a nested field, the
    object that holds it).  The one exception is
    [companySearchCleanEmptyName]: its fallback is [true], where every
    other boolean field falls back to [false], and its input is written to
    [CleanEmptyName] whether [true] or [false].  The tables read no
    boolean parameter outside the catalog. *)
Theorem boolean_fields_omitted_unless_true :
  (∀ this itemIndex f (b : bool) entries spec,
     f ∈ fieldCatalog →
     f_type f = TBoolean →
     structuredItem this itemIndex (f_resource f) (f_operation f) →
     getNodeParameter this (f_parameter f) itemIndex (f_fallback f)
     = Ok (VBool b) →
     additionalEntries this itemIndex (f_operation f) entries →
     unnamed (topKey (f_position f) (f_key f)) entries →
     buildRequest JSON this itemIndex = Ok spec →
     bodyField spec f
     = Some (if cleanEmptyName f then Some (VBool b)
             else if b then Some (VBool true) else None)) ∧
  (∀ f, f ∈ fieldCatalog → f_type f = TBoolean →
        f_fallback f = VBool (cleanEmptyName f)) ∧
  (∀ resource operation pl table s p d,
     structuredFields resource operation = Some (pl, table) →
     s ∈ allStatements table →
     stmt_operand s = Some (Param p (VBool d)) →
     ∃ f, f ∈ fieldCatalog ∧ f_type f = TBoolean ∧ f_resource f = resource ∧
          f_parameter f = p ∧ f_fallback f = VBool d).
Proof.
  split; [|split].
  - intros this itemIndex f b entries spec Hf Hty Hitem Hinput Hentries
      Hunnamed Hbuild.
    destruct (catalog_field _ _ _ _ _ Hf Hitem Hentries Hunnamed Hbuild)
      as (o_s & Hs & ->).
    f_equal. unfold fieldStmt in Hs. rewrite Hty in Hs.
    destruct (cleanEmptyName f); cbn [exec_stmt eval_operand] in Hs;
      rewrite Hinput in Hs; cbn [mbind result_bind truthy] in Hs;
      injection Hs as <-.
    + by rewrite lookup_insert_eq.
    + destruct b; [by rewrite lookup_insert_eq | done].
  - intros f Hf Hty. pose proof (catalog_fallback f Hf) as H.
    by rewrite Hty in H.
  - intros resource operation pl table s p d Hsf Hin Hoperand.
    pose proof (tables_catalogued _ _ _ _ s TBoolean isBoolean
                  (or_introl (conj eq_refl eq_refl)) Hsf Hin) as Hread.
    unfold readsCatalogued in Hread. rewrite Hoperand in Hread.
    cbn [isBoolean] in Hread.
    apply existsb_exists in Hread as (f & Hf & Hmatch).
    apply andb_prop in Hmatch as [Hmatch Hty].
    apply andb_prop in Hmatch as [Hmatch Hd%fallback_same_eq].
    apply andb_prop in Hmatch as [Hr%String.eqb_eq Hp%String.eqb_eq].
    exists f. split; [by apply list_elem_of_In|].
    by destruct (f_type f).
Qed.

(** ** What the statement of a field writes *)

Lemma field_contribution this itemIndex f v :
  getNodeParameter this (f_parameter f) itemIndex (f_fallback f) = Ok v →
  wellTyped (f_type f) v = true →
  ∃ o_s,
    exec_stmt JSON this itemIndex VUndefined (fieldStmt f) ∅ = Ok o_s ∧
    o_s !! f_key f = contribution f v.
Proof.
  intros Hinput Htyped. unfold fieldStmt, contribution.
  destruct (f_type f) eqn:Hty; try discriminate Htyped.
  - destruct v as [| | | | |s| | | |]; try discriminate Htyped.
    cbn [exec_stmt eval_operand]. rewrite Hinput. cbn [mbind result_bind].
    eexists. split; [reflexivity|]. unfold addIfNotEmpty. cbn [is_empty].
    destruct (String.eqb s ""); cbn [negb];
      [done | by rewrite lookup_insert_eq].
  - destruct v as [| |b| | | | | | |]; try discriminate Htyped.
    destruct (cleanEmptyName f); cbn [exec_stmt eval_operand];
      rewrite Hinput; cbn [mbind result_bind truthy];
      (eexists; split; [reflexivity|]).
    + by rewrite lookup_insert_eq.
    + destruct b; [by rewrite lookup_insert_eq | done].
  - destruct (writtenAtZero f); [destruct (f_position f)|];
      cbn [exec_stmt eval_operand]; rewrite Hinput; cbn [mbind result_bind];
      (eexists; split; [reflexivity|]);
      destruct v as [| | |[|n|n]| | | | | |]; try discriminate Htyped;
      unfold addIfNotEmpty; cbn [is_empty negb truthy Z.eqb];
      rewrite ?lookup_insert_eq; done.
  - destruct v as [| | | | | |l| | |]; try discriminate Htyped.
    cbn [exec_stmt eval_operand]. rewrite Hinput.
    cbn [mbind result_bind has_length].
    eexists. split; [reflexivity|].
    destruct l; cbn [length Nat.eqb negb];
      [done | by rewrite lookup_insert_eq].
Qed.

(** What the request holds under the key of a top-level statement of the
    table is what that statement writes on its own. *)
Lemma top_statement this itemIndex resource operation table s k entries spec :
  structuredItem this itemIndex resource operation →
  structuredFields resource (VStr operation)
  = Some (placementOf operation, table) →
  s ∈ table →
  stmt_key s = Some k →
  additionalEntries this itemIndex operation entries →
  unnamed k entries →
  buildRequest JSON this itemIndex = Ok spec →
  wf_table (placementOf operation) table = true ∧
  ∃ o o_s,
    structuredPart (placementOf operation) spec = Some o ∧
    exec_stmt JSON this itemIndex VUndefined s ∅ = Ok o_s ∧
    o !! k = o_s !! k.
Proof.
  intros Hitem Hsf Hin Hk Hentries Hunnamed Hbuild.
  destruct (structuredItem_run _ _ _ _ _ _ Hitem Hsf Hbuild)
    as (Hwf & o & Hrun & Hpart).
  split; [done|].
  destruct (getAdditionalFields_entries _ _ _ _ Hentries)
    as (additional & Hadd & Hlook).
  assert (Hnone : additional !! k = None).
  { rewrite Hlook. by apply mergedFields_unnamed. }
  destruct (exec_table_top_field this itemIndex _ table o s k additional
              Hwf Hrun Hin Hk Hadd Hnone) as (o_s & Hs & Hread).
  by exists o, o_s.
Qed.

Lemma nested_block resource operation outer :
  (resource, operation, outer) ∈ nestedObjects →
  ∃ table,
    structuredFields resource (VStr operation)
    = Some (placementOf operation, table) ∧
    Nested outer (fieldStmt <$> membersOf resource operation outer) ∈ table.
Proof.
  intros Hin%list_elem_of_In.
  pose proof nested_checked as Hall. rewrite forallb_forall in Hall.
  specialize (Hall _ Hin). unfold nestedChecked in Hall.
  destruct (structuredFields resource (VStr operation)) as [[pl table]|];
    [|discriminate].
  apply andb_prop in Hall as [->%placement_same_eq Hex].
  exists table. split; [done|].
  apply existsb_exists in Hex as (t & Ht & Hsame).
  destruct t; try discriminate Hsame.
  apply andb_prop in Hsame as [->%String.eqb_eq <-%stmts_same_eq].
  by apply list_elem_of_In.
Qed.

Lemma array_block a :
  a ∈ entryArrays →
  ∃ table,
    structuredFields (a_resource a) (VStr "import") = Some (InData, table) ∧
    MapEntries (a_key a) (a_parameter a) (a_property a)
      (entryStmt <$> entriesOf a) ∈ table.
Proof.
  intros Hin%list_elem_of_In.
  pose proof arrays_checked as Hall. rewrite forallb_forall in Hall.
  specialize (Hall _ Hin). unfold arrayChecked in Hall.
  destruct (structuredFields (a_resource a) (VStr "import"))
    as [[pl table]|]; [|discriminate].
  apply andb_prop in Hall as [->%placement_same_eq Hex].
  exists table. split; [done|].
  apply existsb_exists in Hex as (t & Ht & Hsame).
  destruct t; try discriminate Hsame.
  apply andb_prop in Hsame as [Hsame <-%stmts_same_eq].
  apply andb_prop in Hsame as [Hsame ->%String.eqb_eq].
  apply andb_prop in Hsame as [->%String.eqb_eq ->%String.eqb_eq].
  by apply list_elem_of_In.
Qed.

Lemma entry_blocks_wf a :
  a ∈ entryArrays → wf_block (entryStmt <$> entriesOf a) = true.
Proof.
  intros Hin%list_elem_of_In. revert a Hin. apply forallb_forall.
  vm_compute. reflexivity.
Qed.

Lemma entryStmt_key c : stmt_key (entryStmt c) = Some (e_key c).
Proof. unfold entryStmt. by destruct (e_type c). Qed.

Lemma exec_stmts_keys this itemIndex entry fields o k :
  wf_block fields = true →
  exec_stmts JSON this itemIndex entry fields ∅ = Ok o →
  is_Some (o !! k) →
  ∃ s, s ∈ fields ∧ stmt_key s = Some k.
Proof.
  intros Hwf Hrun Hsome.
  destruct (decide (k ∈ keys fields)) as [Hin | Hnotin].
  - unfold keys in Hin. apply list_elem_of_omap in Hin as (s & Hs & Hk).
    by exists s.
  - rewrite (exec_stmts_frame _ _ _ _ _ _ _ Hwf Hnotin Hrun) in Hsome.
    rewrite lookup_empty in Hsome. by destruct Hsome.
Qed.

Lemma mapEntries_lookup (f : value → result IDataObject) l xs :
  mapEntries f l = Ok xs →
  length xs = length l ∧
  ∀ n x, l !! n = Some x → ∃ o, f x = Ok o ∧ xs !! n = Some (VObj o).
Proof.
  revert xs. induction l as [|x l IH]; intros xs; simpl.
  - intros [= <-]. split; [done|]. intros n x Hn. by destruct n.
  - destruct (f x) as [o|] eqn:Hx; [|done].
    destruct (mapEntries f l) as [os|]; [|done].
    intros [= <-]. destruct (IH os eq_refl) as [Hlen Hlook].
    split; [simpl; by rewrite Hlen|].
    intros [|n] y Hn; simpl in *.
    + injection Hn as <-. by exists o.
    + by apply Hlook.
Qed.

(** What the statement of an entry property writes. *)
Lemma entry_contribution this itemIndex (e : IDataObject) c :
  entryTyped (e_type c) (e !! e_property c) = true →
  ∃ o_s,
    exec_stmt JSON this itemIndex (VObj e) (entryStmt c) ∅ = Ok o_s ∧
    o_s !! e_key c = entryContribution (e_type c) (e !! e_property c).
Proof.
  intros Htyped. unfold entryStmt, entryContribution.
  destruct (e_type c) eqn:Hty;
    cbn [exec_stmt eval_operand get_prop mbind result_bind];
    destruct (e !! e_property c) as [v|]; cbn [default from_option id];
    try (destruct v as [| | |[|n|n]| |s| |m| |]); try discriminate Htyped;
    cbn [truthy negb Z.eqb Object_keys_length mbind result_bind];
    unfold addIfNotEmpty; cbn [is_empty negb];
    try (eexists; split; [reflexivity|]);
    rewrite ?lookup_insert_eq; try done.
  - destruct (String.eqb s ""); cbn [negb];
      [done | by rewrite lookup_insert_eq].
  - case_bool_decide as Hm.
    + subst m. by rewrite map_size_empty.
    + destruct (Nat.eqb_spec (size m) 0) as [Hsize%map_size_empty_iff | _];
        [done | by rewrite lookup_insert_eq].
Qed.

(** The array an import sends: one object per declared entry, in order,
    each holding what the properties of the entry contribute. *)
Lemma import_entries this itemIndex a es entries spec :
  a ∈ entryArrays →
  structuredItem this itemIndex (a_resource a) "import" →
  declaredEntries this itemIndex a es →
  additionalEntries this itemIndex "import" entries →
  unnamed (a_key a) entries →
  buildRequest JSON this itemIndex = Ok spec →
  ∃ xs,
    importedArray spec a
    = Some (match xs with [] => None | _ => Some (VArr xs) end) ∧
    length xs = length es ∧
    ∀ n e,
      es !! n = Some e →
      ∃ obj,
        xs !! n = Some (VObj obj) ∧
        (∀ c, c ∈ entriesOf a →
              entryTyped (e_type c) (e !! e_property c) = true →
              obj !! e_key c
              = entryContribution (e_type c) (e !! e_property c)) ∧
        (∀ k, is_Some (obj !! k) → ∃ c, c ∈ entriesOf a ∧ e_key c = k).
Proof.
  intros Ha Hitem (container & Hcontainer & Hdeclared) Hentries Hunnamed Hbuild.
  destruct (array_block a Ha) as (table & Hsf & Hin).
  destruct (top_statement _ _ _ _ _ _ (a_key a) _ _ Hitem Hsf Hin eq_refl
              Hentries Hunnamed Hbuild) as (_ & o & o_s & Hpart & Hs & Hlook).
  change (placementOf "import") with InData in Hpart.
  rewrite exec_stmt_MapEntries, Hcontainer in Hs.
  cbn [mbind result_bind get_prop] in Hs.
  assert (Hl : nullish_or (default VUndefined (container !! a_property a))
                 (VArr []) = VArr (VObj <$> es)).
  { destruct Hdeclared as [-> | [-> ->]]; reflexivity. }
  rewrite Hl in Hs.
  destruct (mapEntries _ (VObj <$> es)) as [xs|] eqn:Hmap; [|done].
  injection Hs as <-.
  apply mapEntries_lookup in Hmap as [Hlen Hmap].
  rewrite length_fmap in Hlen.
  pose proof (entry_blocks_wf a Ha) as Hwf.
  exists xs. split; [|split; [done|]].
  { unfold importedArray. rewrite Hpart. simpl. rewrite Hlook.
    destruct xs; simpl; [done | by rewrite lookup_insert_eq]. }
  intros n e Hn.
  destruct (Hmap n (VObj e)) as (obj & Hobj & Hxs);
    [by rewrite list_lookup_fmap, Hn|].
  exists obj. split; [done|]. split.
  - intros c Hc Htyped.
    destruct (entry_contribution this itemIndex e c Htyped)
      as (o_c & Hrun_c & <-).
    destruct (exec_block_field _ _ _ _ (entryStmt c) (e_key c) _ _ Hwf
                (list_elem_of_fmap_2 entryStmt _ _ Hc) (entryStmt_key c)
                (lookup_empty _) Hobj) as (o_c' & Hrun_c' & ->).
    rewrite Hrun_c in Hrun_c'. by injection Hrun_c' as <-.
  - intros k Hk.
    destruct (exec_stmts_keys _ _ _ _ _ k Hwf Hobj Hk) as (s & Hs & Hkey).
    apply list_elem_of_fmap in Hs as (c & -> & Hc).
    exists c. split; [done|].
    rewrite entryStmt_key in Hkey. by injection Hkey.
Qed.

(** C1, as the code has it.  In structured mode, a numeric field of the
    catalog writes its number to its key, except that the number [0]
    leaves the key out; an Additional-Fields entry of the same name is
    merged afterwards.  The exception does not hold for the fields that are
    written at zero: the [Limit] and [Offset] of every [Pagination]
    object, the [Limit] and [Offset] of the task search and the
    [StrategyId] of the strategy details keep the key, with the value [0].
    Every other numeric field falls back to [0].  The numeric properties
    of a declared account or prospect of an import follow the rule of the
    specification: the number is written to the key of the object sent for
    the entry, and left out when it is [0].  The tables read no numeric
    parameter outside the catalog. *)
Theorem numeric_fields_by_kind :
  (∀ this itemIndex f v entries spec,
     f ∈ fieldCatalog →
     f_type f = TNumber →
     structuredItem this itemIndex (f_resource f) (f_operation f) →
     getNodeParameter this (f_parameter f) itemIndex (f_fallback f) = Ok v →
     isNumber v = true →
     additionalEntries this itemIndex (f_operation f) entries →
     unnamed (topKey (f_position f) (f_key f)) entries →
     buildRequest JSON this itemIndex = Ok spec →
     bodyField spec f
     = Some (if writtenAtZero f then Some v
             else match v with VNum 0 => None | _ => Some v end)) ∧
  (∀ f, f ∈ fieldCatalog → f_type f = TNumber → writtenAtZero f = false →
        f_fallback f = VNum 0) ∧
  (∀ this itemIndex a c es n e v entries spec,
     a ∈ entryArrays →
     c ∈ entriesOf a →
     e_type c = TNumber →
     structuredItem this itemIndex (a_resource a) "import" →
     declaredEntries this itemIndex a es →
     es !! n = Some e →
     e !! e_property c = Some v →
     isNumber v = true →
     additionalEntries this itemIndex "import" entries →
     unnamed (a_key a) entries →
     buildRequest JSON this itemIndex = Ok spec →
     ∃ xs obj,
       importedArray spec a = Some (Some (VArr xs)) ∧
       xs !! n = Some (VObj obj) ∧
       obj !! e_key c = match v with VNum 0 => None | _ => Some v end) ∧
  (∀ resource operation pl table s p d,
     structuredFields resource operation = Some (pl, table) →
     s ∈ allStatements table →
     stmt_operand s = Some (Param p (VNum d)) →
     ∃ f, f ∈ fieldCatalog ∧ f_type f = TNumber ∧ f_resource f = resource ∧
          f_parameter f = p ∧ f_fallback f = VNum d).
Proof.
  split; [|split; [|split]].
  - intros this itemIndex f v entries spec Hf Hty Hitem Hinput Hnumber
      Hentries Hunnamed Hbuild.
    destruct (catalog_field _ _ _ _ _ Hf Hitem Hentries Hunnamed Hbuild)
      as (o_s & Hs & ->).
    destruct (field_contribution this itemIndex f v Hinput) as (o' & Hs' & H').
    { by rewrite Hty. }
    rewrite Hs in Hs'. injection Hs' as <-. rewrite H'. f_equal.
    unfold contribution. rewrite Hty.
    by destruct (writtenAtZero f), v as [| | |[|n|n]| | | | | |].
  - intros f Hf Hty Hzero. pose proof (catalog_fallback f Hf) as H.
    by rewrite Hty, Hzero in H.
  - intros this itemIndex a c es n e v entries spec Ha Hc Hty Hitem Hdeclared
      Hn Hv Hnumber Hentries Hunnamed Hbuild.
    destruct (import_entries _ _ _ _ _ _ Ha Hitem Hdeclared Hentries Hunnamed
                Hbuild) as (xs & Harray & Hlen & Hxs).
    destruct (Hxs n e Hn) as (obj & Hobj & Hprops & _).
    exists xs, obj. split; [|split; [done|]].
    + rewrite Harray. destruct xs; [|done]. by destruct n.
    + rewrite (Hprops c Hc); rewrite Hty, Hv; [|done].
      by destruct v as [| | |[|k|k]| | | | | |].
  - intros resource operation pl table s p d Hsf Hin Hoperand.
    pose proof (tables_catalogued _ _ _ _ s TNumber isInteger
                  (or_intror (conj eq_refl eq_refl)) Hsf Hin) as Hread.
    unfold readsCatalogued in Hread. rewrite Hoperand in Hread.
    cbn [isInteger] in Hread.
    apply existsb_exists in Hread as (f & Hf & Hmatch).
    apply andb_prop in Hmatch as [Hmatch Hty].
    apply andb_prop in Hmatch as [Hmatch Hd%fallback_same_eq].
    apply andb_prop in Hmatch as [Hr%String.eqb_eq Hp%String.eqb_eq].
    exists f. split; [by apply list_elem_of_In|].
    by destruct (f_type f).
Qed.

(** ** Text fields and collections *)

(** X1.  In structured mode, a text field of the catalog (a string, an
    option or a date) writes its text to its key, and leaves the key out
    when the text is empty, provided no Additional-Fields entry names the
    key. *)
Theorem text_fields_omitted_when_empty
    this itemIndex f (s : string) entries spec :
  f ∈ fieldCatalog →
  f_type f = TText →
  structuredItem this itemIndex (f_resource f) (f_operation f) →
  getNodeParameter this (f_parameter f) itemIndex (f_fallback f)
  = Ok (VStr s) →
  additionalEntries this itemIndex (f_operation f) entries →
  unnamed (topKey (f_position f) (f_key f)) entries →
  buildRequest JSON this itemIndex = Ok spec →
  bodyField spec f = Some (if String.eqb s "" then None else Some (VStr s)).
Proof.
  intros Hf Hty Hitem Hinput Hentries Hunnamed Hbuild.
  destruct (catalog_field _ _ _ _ _ Hf Hitem Hentries Hunnamed Hbuild)
    as (o_s & Hs & ->).
  destruct (field_contribution this itemIndex f _ Hinput) as (o' & Hs' & H').
  { by rewrite Hty. }
  rewrite Hs in Hs'. injection Hs' as <-. rewrite H'.
  unfold contribution. by rewrite Hty.
Qed.

(** X2.  In structured mode, and with no Additional-Fields entry naming
    the key: a multiple-choice field writes its array and leaves the key
    out when nothing is chosen; a JSON field holding the text of an object
    writes the object and leaves the key out when the object has no key; a
    comma-separated field writes the array of its items and leaves the key
    out when there is none; a comma-separated field of identifiers writes
    the array of the numbers. *)
Theorem collection_fields_omitted_when_empty this itemIndex f entries spec :
  f ∈ fieldCatalog →
  structuredItem this itemIndex (f_resource f) (f_operation f) →
  additionalEntries this itemIndex (f_operation f) entries →
  unnamed (topKey (f_position f) (f_key f)) entries →
  buildRequest JSON this itemIndex = Ok spec →
  (∀ l, f_type f = TMulti →
        getNodeParameter this (f_parameter f) itemIndex (f_fallback f)
        = Ok (VArr l) →
        bodyField spec f
        = Some (match l with [] => None | _ => Some (VArr l) end)) ∧
  (∀ s m, f_type f = TJson →
          getNodeParameter this (f_parameter f) itemIndex (VObj ∅)
          = Ok (VStr s) →
          s ≠ "" →
          JSON_parse JSON s = Some (VObj m) →
          bodyField spec f
          = Some (if bool_decide (m = ∅) then None else Some (VObj m))) ∧
  (∀ gs, f_type f = TList →
         getNodeParameter this (f_parameter f) itemIndex (f_fallback f)
         = Ok (VStr (csvText gs)) →
         Forall (fun g => segmentOk g = true) gs →
         bodyField spec f
         = Some (match csvItems gs with
                 | [] => None
                 | items => Some (VArr (VStr <$> items))
                 end)) ∧
  (∀ gs ids, f_type f = TIdList →
             getNodeParameter this (f_parameter f) itemIndex (f_fallback f)
             = Ok (VStr (csvText gs)) →
             Forall (fun g => blank (lead g) && blank (trail g) = true) gs →
             core <$> gs = pretty <$> ids →
             Forall (fun z => safeInteger z = true) ids →
             bodyField spec f
             = Some (match ids with
                     | [] => None
                     | _ => Some (VArr (VNum <$> ids))
                     end)).
Proof.
  intros Hf Hitem Hentries Hunnamed Hbuild.
  destruct (catalog_field _ _ _ _ _ Hf Hitem Hentries Hunnamed Hbuild)
    as (o_s & Hs & ->).
  unfold fieldStmt in Hs. repeat split.
  - intros l Hty Hinput. rewrite Hty in Hs.
    cbn [exec_stmt eval_operand] in Hs. rewrite Hinput in Hs.
    cbn [mbind result_bind has_length] in Hs. injection Hs as <-. f_equal.
    destruct l; cbn [length Nat.eqb negb];
      [done | by rewrite lookup_insert_eq].
  - intros s m Hty Hinput Hne Hparse. rewrite Hty in Hs.
    cbn [exec_stmt] in Hs. unfold getJsonParameter in Hs.
    rewrite Hinput in Hs. cbn [mbind result_bind is_empty] in Hs.
    rewrite (proj2 (String.eqb_neq s "") Hne), Hparse in Hs.
    cbn [truthy typeof_object andb Object_keys_length mbind result_bind] in Hs.
    injection Hs as <-. f_equal. case_bool_decide as Hm.
    + subst m. by rewrite map_size_empty.
    + destruct (Nat.eqb_spec (size m) 0) as [Hsize%map_size_empty_iff | _];
        [done | by rewrite lookup_insert_eq].
  - intros gs Hty Hinput Hgs. rewrite Hty in Hs.
    cbn [exec_stmt eval_operand] in Hs. rewrite Hinput in Hs.
    cbn [mbind result_bind] in Hs. rewrite (parseCsv_segments gs Hgs) in Hs.
    cbn [mbind result_bind] in Hs. injection Hs as <-. f_equal.
    destruct (csvItems gs); cbn [length Nat.eqb];
      [done | by rewrite lookup_insert_eq].
  - intros gs ids Hty Hinput Hblank Hcores Hsafe. rewrite Hty in Hs.
    cbn [exec_stmt eval_operand] in Hs. rewrite Hinput in Hs.
    cbn [mbind result_bind] in Hs.
    rewrite (parseCsv_numerals ids gs Hblank Hcores) in Hs.
    cbn [mbind result_bind] in Hs. injection Hs as <-. f_equal.
    rewrite (parseInt_numerals ids Hsafe).
    destruct ids; cbn [fmap list_fmap length Nat.eqb];
      [done | by rewrite lookup_insert_eq].
Qed.

(** ** Nested objects *)

(** X3.  A nested object of a search body ([Includes], [Pagination],
    ...) holds what its fields contribute and nothing else, and is never
    sent empty: its key is absent from the body exactly when none of its
    fields contributes. *)
Theorem nested_objects_never_empty
    this itemIndex resource operation outer (inputs : field → value) entries
    spec :
  (resource, operation, outer) ∈ nestedObjects →
  structuredItem this itemIndex resource operation →
  (∀ f, f ∈ membersOf resource operation outer →
        getNodeParameter this (f_parameter f) itemIndex (f_fallback f)
        = Ok (inputs f) ∧
        wellTyped (f_type f) (inputs f) = true) →
  additionalEntries this itemIndex operation entries →
  unnamed outer entries →
  buildRequest JSON this itemIndex = Ok spec →
  ∃ o,
    structuredPart (placementOf operation) spec = Some o ∧
    (o !! outer = None ↔
     ∀ f, f ∈ membersOf resource operation outer →
          contribution f (inputs f) = None) ∧
    (∀ x, o !! outer = Some x →
          ∃ m : IDataObject,
            x = VObj m ∧ m ≠ ∅ ∧
            (∀ f, f ∈ membersOf resource operation outer →
                  m !! f_key f = contribution f (inputs f)) ∧
            (∀ k, is_Some (m !! k) →
                  ∃ f, f ∈ membersOf resource operation outer ∧
                       f_key f = k)).
Proof.
  intros Hnested Hitem Hinputs Hentries Hunnamed Hbuild.
  destruct (nested_block _ _ _ Hnested) as (table & Hsf & Hin).
  destruct (top_statement _ _ _ _ _ _ outer _ _ Hitem Hsf Hin eq_refl
              Hentries Hunnamed Hbuild)
    as (Hwf & o & o_s & Hpart & Hs & Hlook).
  exists o. split; [done|].
  rewrite exec_stmt_Nested in Hs.
  destruct (exec_stmts JSON this itemIndex VUndefined _ ∅) as [m|] eqn:Hm;
    [|done].
  injection Hs as <-.
  apply wf_table_inv in Hwf as (init & -> & _ & Hwf_sub).
  apply elem_of_app in Hin as [Hin | Hin];
    [|by apply list_elem_of_singleton in Hin].
  specialize (Hwf_sub _ _ Hin).
  assert (Hfields : ∀ f, f ∈ membersOf resource operation outer →
                         m !! f_key f = contribution f (inputs f)).
  { intros f Hf. destruct (Hinputs f Hf) as [Hinput Htyped].
    destruct (field_contribution this itemIndex f _ Hinput Htyped)
      as (o_f & Hrun_f & <-).
    destruct (exec_block_field _ _ _ _ (fieldStmt f) (f_key f) _ _ Hwf_sub
                (list_elem_of_fmap_2 fieldStmt _ _ Hf) (fieldStmt_key f)
                (lookup_empty _) Hm) as (o_f' & Hrun_f' & ->).
    rewrite Hrun_f in Hrun_f'. by injection Hrun_f' as <-. }
  assert (Hkeys : ∀ k, is_Some (m !! k) →
                       ∃ f, f ∈ membersOf resource operation outer ∧
                            f_key f = k).
  { intros k Hk.
    destruct (exec_stmts_keys _ _ _ _ _ k Hwf_sub Hm Hk) as (s & Hs & Hkey).
    apply list_elem_of_fmap in Hs as (f & -> & Hf).
    exists f. split; [done|].
    rewrite fieldStmt_key in Hkey. by injection Hkey. }
  rewrite Hlook.
  destruct (Nat.eqb_spec (size m) 0) as [Hsize | Hsize].
  - apply map_size_empty_iff in Hsize. subst m. rewrite lookup_empty.
    split; [|done]. split; [|done].
    intros _ f Hf. by rewrite <- (Hfields f Hf), lookup_empty.
  - assert (Hne : m ≠ ∅).
    { intros ->. by rewrite map_size_empty in Hsize. }
    rewrite lookup_insert_eq. split.
    + split; [done|]. intros Hall. exfalso.
      destruct (map_choose _ Hne) as (k & v & Hkv).
      destruct (Hkeys k) as (f & Hf & <-); [by eexists|].
      rewrite (Hfields f Hf), (Hall f Hf) in Hkv. done.
    + intros x [= <-]. by exists m.
Qed.

(** ** Import entries *)

(** X5.  An import sends one object per declared account or prospect, in
    the order of the declaration, and leaves the array out when nothing is
    declared.  The object holds what the properties of the entry
    contribute and nothing else: a text unless it is empty or missing, a
    number unless it is zero or missing, an object of external values
    unless it has no key or is missing. *)
Theorem import_entries_mapped_in_order this itemIndex a es entries spec :
  a ∈ entryArrays →
  structuredItem this itemIndex (a_resource a) "import" →
  declaredEntries this itemIndex a es →
  additionalEntries this itemIndex "import" entries →
  unnamed (a_key a) entries →
  buildRequest JSON this itemIndex = Ok spec →
  ∃ xs,
    importedArray spec a
    = Some (match xs with [] => None | _ => Some (VArr xs) end) ∧
    length xs = length es ∧
    ∀ n e,
      es !! n = Some e →
      ∃ obj,
        xs !! n = Some (VObj obj) ∧
        (∀ c, c ∈ entriesOf a →
              entryTyped (e_type c) (e !! e_property c) = true →
              obj !! e_key c
              = entryContribution (e_type c) (e !! e_property c)) ∧
        (∀ k, is_Some (obj !! k) → ∃ c, c ∈ entriesOf a ∧ e_key c = k).
Proof. apply import_entries. Qed.

(** ** Additional fields *)




(** * Further properties of the dispatcher *)

Lemma initialQs_getAll this itemIndex limit offset :
  getNodeParameter this "limit" itemIndex (VNum 50) = Ok limit →
  getNodeParameter this "offset" itemIndex (VNum 0) = Ok offset →
  initialQs this itemIndex (VStr "getAll") = Ok (paging limit offset).
Proof. intros Hl Ho. unfold initialQs. simpl. by rewrite Hl, Ho. Qed.

(** X6.  A [getAll] sends a GET to the collection with the query
    [limit] and [offset].  For company, contact, deal, note and activity
    the include options are laid over them, so an include option named
    [limit] or [offset] replaces the paging value; for user nothing is
    added; for import, [type] and [statusType] are added exactly when the
    import type and status are non-empty. *)
Theorem getAll_query_parameters this itemIndex resource apiVersion limit offset :
  getNodeParameter this "resource" itemIndex VUndefined = Ok (VStr resource) →
  getNodeParameter this "operation" itemIndex VUndefined = Ok (VStr "getAll") →
  getNodeParameter this "apiVersion" itemIndex (VStr "1") = Ok apiVersion →
  getNodeParameter this "limit" itemIndex (VNum 50) = Ok limit →
  getNodeParameter this "offset" itemIndex (VNum 0) = Ok offset →
  (In resource ["company"; "contact"; "deal"; "note"; "activity"] →
   ∀ includeOptions : IDataObject,
     getJsonParameter JSON this "includeOptions" itemIndex ∅
     = Ok (VObj includeOptions) →
     ∃ q : IDataObject,
       buildRequest JSON this itemIndex
       = Ok (request GET (collectionEndpoint apiVersion resource) (VObj q)
               VUndefined) ∧
       ∀ k, q !! k = match includeOptions !! k with
                     | Some v => Some v
                     | None => paging limit offset !! k
                     end) ∧
  (resource = "user" →
   buildRequest JSON this itemIndex
   = Ok (request GET (collectionEndpoint apiVersion resource)
           (VObj (paging limit offset)) VUndefined)) ∧
  (resource = "import" →
   ∀ importType importStatus,
     getNodeParameter this "importType" itemIndex VUndefined = Ok importType →
     getNodeParameter this "importStatus" itemIndex VUndefined
     = Ok importStatus →
     ∃ q : IDataObject,
       buildRequest JSON this itemIndex
       = Ok (request GET (collectionEndpoint apiVersion resource) (VObj q)
               VUndefined) ∧
       q !! "limit" = Some limit ∧
       q !! "offset" = Some offset ∧
       q !! "type" = (if truthy importType then Some importType else None) ∧
       q !! "statusType"
       = (if truthy importStatus then Some importStatus else None) ∧
       ∀ k, is_Some (q !! k) →
            k ∈ ["limit"; "offset"; "type"; "statusType"]).
Proof.
  intros Hres Hop Hav Hl Ho.
  destruct (buildRequest_switch this itemIndex _ _ Hres Hop)
    as (av & u1 & u2 & q & Hav' & _ & _ & Hq & ->).
  rewrite Hav in Hav'. injection Hav' as <-.
  rewrite (initialQs_getAll _ _ _ _ Hl Ho) in Hq. injection Hq as <-.
  split; [|split].
  - intros Hin includeOptions Hinclude.
    exists (Object_assign (paging limit offset) (spread (VObj includeOptions))).
    split.
    + simpl in Hin.
      repeat destruct Hin as [<- | Hin]; try done;
        unfold switchResource; cbn [streq String.eqb Ascii.eqb Bool.eqb];
        unfold companyCase, contactCase, dealCase, noteCase, activityCase;
        cbn [streq String.eqb Ascii.eqb Bool.eqb];
        rewrite Hinclude; reflexivity.
    + intros k. unfold Object_assign. simpl. rewrite lookup_union.
      destruct (includeOptions !! k), (paging limit offset !! k); done.
  - intros ->. reflexivity.
  - intros -> importType importStatus Htype Hstatus.
    unfold switchResource; cbn [streq String.eqb Ascii.eqb Bool.eqb].
    unfold importCase. cbn [streq String.eqb Ascii.eqb Bool.eqb].
    rewrite Htype, Hstatus. cbn [mbind result_bind].
    eexists. split; [reflexivity|].
    unfold paging.
    destruct (truthy importType), (truthy importStatus);
      repeat split; try reflexivity;
      intros k [v Hk];
      repeat (rewrite lookup_insert in Hk; case_decide;
              [subst k; set_solver|]);
      by rewrite lookup_empty in Hk.
Qed.

(** X7.  A task search sends the query [withOpportunities=true] exactly
    when that flag is set; with the flag off the query is empty and the
    executor attaches no query string at all. *)
Theorem task_search_query this itemIndex (b : bool) spec :
  getNodeParameter this "resource" itemIndex VUndefined = Ok (VStr "task") →
  getNodeParameter this "operation" itemIndex VUndefined = Ok (VStr "search") →
  getNodeParameter this "withOpportunities" itemIndex (VBool false)
  = Ok (VBool b) →
  buildRequest JSON this itemIndex = Ok spec →
  req_qs spec
  = VObj (if b then {["withOpportunities" := VBool true]} else ∅) ∧
  qs (requestOptions this (req_method spec) (req_endpoint spec) (req_qs spec)
        (req_body spec))
  = if b then Some (VObj {["withOpportunities" := VBool true]}) else None.
Proof.
  intros Hres Hop Hw.
  destruct (buildRequest_switch this itemIndex _ _ Hres Hop)
    as (av & u1 & u2 & q & _ & _ & _ & _ & ->).
  unfold switchResource; cbn [streq String.eqb Ascii.eqb Bool.eqb].
  unfold taskCase. cbn [streq String.eqb Ascii.eqb Bool.eqb].
  rewrite Hw. cbn [mbind result_bind].
  destruct (searchPayload JSON this itemIndex u2 taskSearchBody) as [body|];
    [|done].
  cbn [mbind result_bind]. intros [= <-]. destruct b; split; reflexivity.
Qed.

(** X8.  A create, update or import body has the key [data] and, for a
    company or contact create whose scrape options have a key, the key
    [scrapeOptions] with those options, and no other key; the method is
    PATCH for an update and POST otherwise.  In raw-JSON mode [data] is
    exactly the parsed object of the [data] field. *)
Theorem data_bodies_wrapped
    this itemIndex resource operation table spec (scrape : IDataObject) :
  getNodeParameter this "resource" itemIndex VUndefined = Ok (VStr resource) →
  getNodeParameter this "operation" itemIndex VUndefined = Ok operation →
  structuredFields resource operation = Some (InData, table) →
  getJsonParameter JSON this "scrapeOptions" itemIndex ∅ = Ok (VObj scrape) →
  buildRequest JSON this itemIndex = Ok spec →
  ∃ (b : IDataObject) data,
    req_body spec = VObj b ∧
    b !! "data" = Some data ∧
    b !! "scrapeOptions"
    = (if readsScrapeOptions resource operation && bool_decide (scrape ≠ ∅)
       then Some (VObj scrape) else None) ∧
    (∀ k, is_Some (b !! k) → k = "data" ∨ k = "scrapeOptions") ∧
    req_method spec = (if streq operation "update" then PATCH else POST) ∧
    (∀ s (parsed : IDataObject),
       getNodeParameter this "useRawJsonData" itemIndex (VBool false)
       = Ok (VBool true) →
       nodeParameters this itemIndex !! "data" = Some (VStr s) →
       JSON_parse JSON s = Some (VObj parsed) →
       data = VObj parsed).
Proof.
  intros Hres Hop Hsf Hscrape.
  destruct (buildRequest_switch this itemIndex _ _ Hres Hop)
    as (av & u1 & u2 & q & _ & Hu1 & _ & _ & ->).
  assert (Hraw : ∀ s (parsed : IDataObject),
            nodeParameters this itemIndex !! "data" = Some (VStr s) →
            JSON_parse JSON s = Some (VObj parsed) →
            getJsonParameter JSON this "data" itemIndex ∅ = Ok (VObj parsed)).
  { intros s parsed Hs Hparse. unfold getJsonParameter.
    rewrite (getNodeParameter_stored _ _ _ _ (VStr s)) by done.
    simpl. destruct (String.eqb_spec s "") as [-> | _].
    { rewrite JSON_parse_empty in Hparse. done. }
    by rewrite Hparse. }
  assert (Hkeys : Object_keys_length (VObj scrape)
                  = Ok (size scrape)) by done.
  remember InData as pl eqn:Hpl in Hsf.
  split_structuredFields Hsf resource operation; try discriminate Hpl;
    clear Hpl;
    unfold switchResource; cbn [streq String.eqb Ascii.eqb Bool.eqb];
    unfold companyCase, contactCase, dealCase, noteCase, taskCase;
    cbn [streq String.eqb Ascii.eqb Bool.eqb];
    unfold wrapDataWithScrapeOptions, wrapData;
    (destruct (dataPayload JSON this itemIndex u1 _) as [data|?] eqn:Hdata;
     [|done]);
    cbn [mbind result_bind]; rewrite ?Hscrape; cbn [mbind result_bind];
    rewrite ?Hkeys; cbn [mbind result_bind];
    intros [= <-]; cbn [req_body req_method];
    unfold readsScrapeOptions; cbn [streq String.eqb Ascii.eqb Bool.eqb orb andb].
  all: try (destruct (Nat.eqb_spec (size scrape) 0) as [Hsize | Hsize];
            [ apply map_size_empty_iff in Hsize; subst scrape;
              rewrite bool_decide_eq_false_2 by (by intros ?)
            | rewrite bool_decide_eq_true_2
                by (intros ->; by rewrite map_size_empty in Hsize) ]).
  all: eexists _, data; split; [reflexivity|].
  all: split; [reflexivity|]. all: split; [reflexivity|].
  all: split;
    [ intros k [v Hk];
      repeat (rewrite lookup_insert in Hk; case_decide; [subst k; tauto|]);
      try (rewrite lookup_singleton in Hk; case_decide; [subst k; tauto|]);
      done
    | ].
  all: split; [reflexivity|].
  all: intros s parsed Hu Hs Hparse; rewrite Hu in Hu1; injection Hu1 as <-;
    unfold dataPayload in Hdata; cbn [truthy] in Hdata;
    rewrite (Hraw s parsed Hs Hparse) in Hdata; by injection Hdata as <-.
Qed.



(** * Further properties of the item loop and of the errors *)

Lemma executeLoop_Ok this remaining : ∀ itemIndex returnData out,
  executeLoop JSON this remaining itemIndex returnData = Ok out ↔
  ∃ items,
    out = (returnData ++ items)%list ∧
    length items = remaining ∧
    ∀ j item, items !! j = Some item →
              executeItem JSON this (itemIndex + j) = Ok item.
Proof.
  induction remaining as [|n IH]; intros itemIndex returnData out.
  - simpl. split.
    + intros [= <-]. exists []. rewrite app_nil_r. repeat split. intros j item H.
      by rewrite lookup_nil in H.
    + intros (items & -> & Hlen & _). destruct items; [|done].
      by rewrite app_nil_r.
  - cbn [executeLoop]. split.
    + destruct (executeItem JSON this itemIndex) as [item|e] eqn:Hitem;
        [|done]. cbn [mbind result_bind]. intros H.
      apply IH in H as (items & -> & Hlen & Hitems).
      exists (item :: items). rewrite <- app_assoc. repeat split.
      * simpl. by rewrite Hlen.
      * intros [|j] item' Hj; simpl in Hj.
        -- injection Hj as <-. by rewrite Nat.add_0_r.
        -- rewrite <- Nat.add_succ_comm. by apply Hitems.
    + intros (items & -> & Hlen & Hitems).
      destruct items as [|item items]; [done|].
      rewrite <- (Nat.add_0_r itemIndex) at 1.
      rewrite (Hitems 0 item) by done. cbn [mbind result_bind].
      apply IH. exists items. rewrite <- app_assoc. repeat split.
      * simpl in Hlen. lia.
      * intros j item' Hj. rewrite Nat.add_succ_comm. by apply (Hitems (S j)).
Qed.

Lemma executeLoop_Err this remaining : ∀ itemIndex returnData e,
  executeLoop JSON this remaining itemIndex returnData = Err e ↔
  ∃ k, k < remaining ∧
       (∀ j, j < k → ∃ item, executeItem JSON this (itemIndex + j) = Ok item) ∧
       executeItem JSON this (itemIndex + k) = Err e.
Proof.
  induction remaining as [|n IH]; intros itemIndex returnData e.
  - simpl. split; [done|]. intros (k & Hk & _). lia.
  - cbn [executeLoop]. split.
    + destruct (executeItem JSON this itemIndex) as [item|e'] eqn:Hitem;
        cbn [mbind result_bind].
      * intros H. apply IH in H as (k & Hk & Hbefore & Hat).
        exists (S k). split; [lia|]. split.
        -- intros [|j] Hj.
           ++ rewrite Nat.add_0_r. eauto.
           ++ rewrite <- Nat.add_succ_comm. apply Hbefore. lia.
        -- by rewrite <- Nat.add_succ_comm.
      * intros [= <-]. exists 0. split; [lia|]. split; [intros j Hj; lia|].
        by rewrite Nat.add_0_r.
    + intros (k & Hk & Hbefore & Hat). destruct k as [|k].
      * rewrite Nat.add_0_r in Hat. by rewrite Hat.
      * destruct (Hbefore 0) as [item Hitem]; [lia|].
        rewrite Nat.add_0_r in Hitem. rewrite Hitem.
        cbn [mbind result_bind]. apply IH. exists k. split; [lia|]. split.
        -- intros j Hj. rewrite Nat.add_succ_comm. apply Hbefore. lia.
        -- by rewrite Nat.add_succ_comm.
Qed.

(** X10.  [execute] returns a list exactly when every input item yields a
    request that the HTTP helper answers: the list has one entry per input
    item, in input order, and entry [i] holds the response to the request
    built for item [i], paired with the item index [i]. *)
Theorem execute_one_output_per_item this out :
  execute JSON this = Ok out ↔
  length out = getInputData this ∧
  ∀ i item, out !! i = Some item →
    ∃ spec,
      buildRequest JSON this i = Ok spec ∧
      cronoApiRequest this (req_method spec) (req_endpoint spec) (req_qs spec)
        (req_body spec) = Ok (data_json item) ∧
      data_pairedItem item = i.
Proof.
  unfold execute. rewrite executeLoop_Ok. split.
  - intros (items & -> & Hlen & Hitems). split; [done|].
    intros i item Hi. specialize (Hitems i item Hi). simpl in *.
    unfold executeItem in Hitems.
    destruct (buildRequest JSON this i) as [spec|]; [|done].
    cbn [mbind result_bind] in Hitems.
    destruct (cronoApiRequest this _ _ _ _) as [response|] eqn:Hresponse;
      [|done].
    injection Hitems as <-. exists spec. by rewrite Hresponse.
  - intros [Hlen Hitems]. exists out. repeat split; [done|].
    intros j [response paired] Hj.
    destruct (Hitems j _ Hj) as (spec & Hspec & Hresponse & Hpaired).
    simpl in *. unfold executeItem. rewrite Hspec. cbn [mbind result_bind].
    rewrite Hresponse. cbn [mbind result_bind]. by rewrite Hpaired.
Qed.

(** X11.  [execute] fails exactly when some item fails, and then with the
    error of the first item that fails: the items before it all succeeded
    and the items after it play no part. *)
Theorem execute_fails_with_first_error this e :
  execute JSON this = Err e ↔
  ∃ i, i < getInputData this ∧
       (∀ j, j < i → ∃ item, executeItem JSON this j = Ok item) ∧
       executeItem JSON this i = Err e.
Proof. unfold execute. by rewrite executeLoop_Err. Qed.

Section Faults.

Variable this : IExecuteFunctions.
Variable itemIndex : nat.

Lemma raises_ok {A} (a : A) : raises (fieldFault JSON this itemIndex) (Ok a).
Proof. intros e He. discriminate He. Qed.

Lemma raises_bind {A B} (m : result A) (f : A → result B) :
  raises (fieldFault JSON this itemIndex) m → (∀ a, raises (fieldFault JSON this itemIndex) (f a)) → raises (fieldFault JSON this itemIndex) (m ≫= f).
Proof.
  intros Hm Hf e He. destruct m as [a|e']; simpl in He.
  - by apply (Hf a).
  - injection He as <-. by apply Hm.
Qed.

Lemma raises_match {A B} (m : result A) (f : A → result B) :
  raises (fieldFault JSON this itemIndex) m → (∀ a, raises (fieldFault JSON this itemIndex) (f a)) →
  raises (fieldFault JSON this itemIndex) (match m with Ok a => f a | Err e => Err e end).
Proof. apply raises_bind. Qed.

Lemma raises_getNodeParameter parameterName fallbackValue :
  raises (fieldFault JSON this itemIndex) (getNodeParameter this parameterName itemIndex fallbackValue).
Proof.
  intros e He. unfold getNodeParameter in He.
  destruct (match nodeParameters this itemIndex !! parameterName with
            | Some VUndefined | None => fallbackValue
            | Some v => v
            end); by simplify_eq.
Qed.

Lemma raises_get_prop v name : raises (fieldFault JSON this itemIndex) (get_prop v name).
Proof. intros e He. destruct v; simpl in He; by simplify_eq. Qed.

Lemma raises_has_length v : raises (fieldFault JSON this itemIndex) (has_length v).
Proof. intros e He. destruct v; simpl in He; by simplify_eq. Qed.

Lemma raises_Object_keys_length v : raises (fieldFault JSON this itemIndex) (Object_keys_length v).
Proof. intros e He. destruct v; simpl in He; by simplify_eq. Qed.

Lemma raises_parseCsv v : raises (fieldFault JSON this itemIndex) (parseCsv v).
Proof.
  intros e He. unfold parseCsv in He.
  destruct (negb (truthy v)); [done|]. destruct v; by simplify_eq.
Qed.

Lemma raises_getJsonParameter parameterName defaultValue :
  raises (fieldFault JSON this itemIndex) (getJsonParameter JSON this parameterName itemIndex defaultValue).
Proof.
  unfold getJsonParameter. intros e.
  destruct (getNodeParameter this parameterName itemIndex (VObj defaultValue))
    as [v|e'] eqn:Hv.
  - cbn [mbind result_bind]. destruct (is_empty v); [done|].
    destruct v; try done.
    destruct (JSON_parse JSON s) as [parsed|] eqn:Hparse.
    + by destruct (truthy parsed && typeof_object parsed).
    + intros [= <-]. split; [done|]. exists parameterName, s.
      split; [|done]. unfold getNodeParameter in Hv.
      destruct (nodeParameters this itemIndex !! parameterName) as [[]|];
        by simplify_eq.
  - intros [= <-]. by apply (raises_getNodeParameter _ _ _ Hv).
Qed.

Lemma raises_additionalLoop entries additional :
  raises (fieldFault JSON this itemIndex) (additionalLoop entries additional).
Proof.
  revert additional. induction entries as [|entry rest IH]; intros additional.
  - apply raises_ok.
  - simpl. apply raises_bind; [apply raises_get_prop|]. intros field.
    destruct (truthy field); [|apply IH].
    apply raises_bind; [apply raises_get_prop|]. intros v. apply IH.
Qed.

Lemma raises_getAdditionalFields parameterName :
  raises (fieldFault JSON this itemIndex) (getAdditionalFields this parameterName itemIndex).
Proof.
  unfold getAdditionalFields.
  apply raises_bind; [apply raises_getNodeParameter|]. intros entries.
  destruct entries; try apply raises_ok; try apply raises_additionalLoop;
    by intros ? [= <-].
Qed.

Lemma raises_eval_operand entry e :
  raises (fieldFault JSON this itemIndex) (eval_operand this itemIndex entry e).
Proof.
  destruct e; [apply raises_getNodeParameter | apply raises_get_prop].
Qed.

Lemma raises_mapEntries (f : value → result IDataObject) l :
  (∀ x, raises (fieldFault JSON this itemIndex) (f x)) → raises (fieldFault JSON this itemIndex) (mapEntries f l).
Proof.
  intros Hf. induction l as [|x l IH]; [apply raises_ok|].
  simpl. apply raises_match; [apply Hf|]. intros o.
  apply raises_match; [apply IH|]. intros os. apply raises_ok.
Qed.

Lemma raises_exec_stmts_Forall fields :
  Forall (fun s => ∀ entry target,
            raises (fieldFault JSON this itemIndex) (exec_stmt JSON this itemIndex entry s target))
    fields →
  ∀ entry o, raises (fieldFault JSON this itemIndex) (exec_stmts JSON this itemIndex entry fields o).
Proof.
  induction 1 as [|f rest Hf _ IH]; intros entry o; [apply raises_ok|].
  simpl. apply raises_match; [apply Hf|]. intros o'. apply IH.
Qed.

Lemma raises_exec_stmt s :
  ∀ entry target, raises (fieldFault JSON this itemIndex) (exec_stmt JSON this itemIndex entry s target).
Proof.
  induction s using stmt_nested_ind; intros entry target;
    try (simpl; repeat first
           [ apply raises_ok
           | apply raises_eval_operand
           | apply raises_has_length
           | apply raises_parseCsv
           | apply raises_Object_keys_length
           | apply raises_getJsonParameter
           | apply raises_get_prop
           | apply raises_getAdditionalFields
           | apply raises_bind; [|intros ?]
           | match goal with
             | |- raises _ (if ?b then _ else _) => destruct b
             end ];
         fail).
  - rewrite exec_stmt_Nested. apply raises_match.
    + by apply raises_exec_stmts_Forall.
    + intros o. apply raises_ok.
  - rewrite exec_stmt_MapEntries.
    apply raises_bind; [apply raises_getNodeParameter|]. intros container.
    apply raises_bind; [apply raises_get_prop|]. intros entries.
    destruct (nullish_or entries (VArr [])); try by intros ? [= <-].
    apply raises_match; [|intros xs; apply raises_ok].
    apply raises_mapEntries. intros x. by apply raises_exec_stmts_Forall.
Qed.

Lemma raises_exec_stmts entry fields o :
  raises (fieldFault JSON this itemIndex) (exec_stmts JSON this itemIndex entry fields o).
Proof.
  apply raises_exec_stmts_Forall. apply Forall_forall.
  intros s _. apply raises_exec_stmt.
Qed.

Ltac raises_tac :=
  repeat first
    [ apply raises_ok
    | apply raises_getNodeParameter
    | apply raises_getJsonParameter
    | apply raises_exec_stmts
    | apply raises_Object_keys_length
    | apply raises_bind; [|intros ?]
    | match goal with |- raises _ (if ?b then _ else _) => destruct b end ].

Lemma raises_initialQs operation :
  raises (fieldFault JSON this itemIndex) (initialQs this itemIndex operation).
Proof. unfold initialQs. raises_tac. Qed.

Lemma raises_switchResource resource operation basePath
    useRawJsonData useRawJsonSearch q :
  In resource supportedResources →
  raises (fieldFault JSON this itemIndex)
    (switchResource JSON this itemIndex (VStr resource) operation basePath
       useRawJsonData useRawJsonSearch q).
Proof.
  intros Hin. simpl in Hin.
  repeat destruct Hin as [<- | Hin]; try done;
    unfold switchResource; cbn [streq String.eqb Ascii.eqb Bool.eqb];
    unfold companyCase, contactCase, dealCase, noteCase, taskCase,
      activityCase, listCase, pipelineCase, strategyCase,
      externalPropertyCase, userCase, importCase, searchPayload, dataPayload,
      wrapDataWithScrapeOptions;
    raises_tac.
Qed.

Lemma switchResource_unsupported resource operation basePath
    useRawJsonData useRawJsonSearch q :
  (∀ r, In r supportedResources → resource ≠ VStr r) →
  switchResource JSON this itemIndex resource operation basePath
    useRawJsonData useRawJsonSearch q
  = Err (NodeOperationError (unsupportedResourceMessage resource) itemIndex).
Proof.
  intros Hnot. unfold switchResource.
  repeat match goal with
         | |- context [streq resource ?l] =>
             rewrite (streq_false resource l)
               by (apply Hnot; simpl; tauto)
         end.
  reflexivity.
Qed.

(** X12.  The errors of request building.  When building the request of
    an item fails with a [NodeOperationError], the error carries the index
    of that item, and either the resource is none of the twelve supported
    ones and the message is [Unsupported resource: ...], or the message
    names a parameter of that item whose stored text [JSON.parse] rejects.
    Every other failure is a missing parameter or a type error of the
    field code; none comes from the HTTP helper. *)
Theorem build_errors_name_their_item e :
  buildRequest JSON this itemIndex = Err e →
  match e with
  | NodeOperationError message idx =>
      idx = itemIndex ∧
      ((∃ resource,
          getNodeParameter this "resource" itemIndex VUndefined = Ok resource ∧
          (∀ r, In r supportedResources → resource ≠ VStr r) ∧
          message = unsupportedResourceMessage resource) ∨
       (∃ parameterName s,
          nodeParameters this itemIndex !! parameterName = Some (VStr s) ∧
          JSON_parse JSON s = None ∧
          message = invalidJsonMessage parameterName))
  | ApplicationError _ | TypeError _ => True
  | RequestError _ => False
  end.
Proof.
  assert (Hweaken : ∀ e', fieldFault JSON this itemIndex e' →
    match e' with
    | NodeOperationError message idx =>
        idx = itemIndex ∧
        ((∃ resource,
            getNodeParameter this "resource" itemIndex VUndefined
            = Ok resource ∧
            (∀ r, In r supportedResources → resource ≠ VStr r) ∧
            message = unsupportedResourceMessage resource) ∨
         (∃ parameterName s,
            nodeParameters this itemIndex !! parameterName = Some (VStr s) ∧
            JSON_parse JSON s = None ∧
            message = invalidJsonMessage parameterName))
    | ApplicationError _ | TypeError _ => True
    | RequestError _ => False
    end).
  { intros [message idx| | |]; simpl; try done. intros [-> H]. eauto. }
  unfold buildRequest.
  destruct (getNodeParameter this "resource" itemIndex VUndefined)
    as [resource|e'] eqn:Hres; cbn [mbind result_bind];
    [|intros [= <-]; by apply Hweaken, (raises_getNodeParameter _ _ _ Hres)].
  destruct (getNodeParameter this "operation" itemIndex VUndefined)
    as [operation|e'] eqn:Hop; cbn [mbind result_bind];
    [|intros [= <-]; by apply Hweaken, (raises_getNodeParameter _ _ _ Hop)].
  destruct (getNodeParameter this "apiVersion" itemIndex (VStr "1"))
    as [apiVersion|e'] eqn:Hav; cbn [mbind result_bind];
    [|intros [= <-]; by apply Hweaken, (raises_getNodeParameter _ _ _ Hav)].
  destruct (getNodeParameter this "useRawJsonData" itemIndex (VBool false))
    as [u1|e'] eqn:Hu1; cbn [mbind result_bind];
    [|intros [= <-]; by apply Hweaken, (raises_getNodeParameter _ _ _ Hu1)].
  destruct (getNodeParameter this "useRawJsonSearch" itemIndex (VBool false))
    as [u2|e'] eqn:Hu2; cbn [mbind result_bind];
    [|intros [= <-]; by apply Hweaken, (raises_getNodeParameter _ _ _ Hu2)].
  destruct (initialQs this itemIndex operation) as [q|e'] eqn:Hq;
    cbn [mbind result_bind];
    [|intros [= <-]; by apply Hweaken, (raises_initialQs _ _ Hq)].
  assert (Hdec : (∃ r, In r supportedResources ∧ resource = VStr r) ∨
                 (∀ r, In r supportedResources → resource ≠ VStr r)).
  { destruct resource as [| | | | |s| | | |]; try (right; intros r _; discriminate).
    destruct (in_dec string_dec s supportedResources) as [Hin | Hnot].
    - left. by exists s.
    - right. intros r Hin [= ->]. by apply Hnot. }
  destruct Hdec as [(r & Hin & ->) | Hnot].
  - intros H. by apply Hweaken, (raises_switchResource _ _ _ _ _ _ Hin _ H).
  - rewrite switchResource_unsupported by done.
    intros [= <-]. split; [done|]. left. by exists resource.
Qed.

End Faults.

End Properties.

(** * The properties on concrete inputs *)

Ltac solve_In := simpl; repeat (first [left; reflexivity | right]).
Ltac find_index x l n :=
  lazymatch l with
  | x :: _ => constr:(n)
  | _ :: ?rest => find_index x rest (S n)
  end.
Ltac solve_elem :=
  lazymatch goal with
  | |- ?x ∈ ?l =>
      let l' := eval vm_compute in l in
      let x' := eval vm_compute in x in
      let n := find_index x' l' O in
      apply (list_elem_of_lookup_2 l n x); vm_compute; reflexivity
  end.
Ltac solve_unnamed := repeat (constructor; [discriminate|]); constructor.
Ltac solve_item := repeat split; reflexivity.

(** An explicitly zero task-search [Limit] and [Offset], and an explicitly
    zero company-search [Offset], are sent with value [0]. *)
Lemma numeric_zero_still_written :
  (∃ spec o,
     buildRequest subsetJson taskSearchHost 0 = Ok spec ∧
     req_body spec = VObj o ∧
     getNodeParameter taskSearchHost "taskSearchOffset" 0 (VNum 0)
     = Ok (VNum 0) ∧
     o !! "Limit" = Some (VNum 0) ∧
     o !! "Offset" = Some (VNum 0)) ∧
  (∃ spec o,
     buildRequest subsetJson companySearchHost 0 = Ok spec ∧
     req_body spec = VObj o ∧
     getNodeParameter companySearchHost "companySearchOffset" 0 (VNum 0)
     = Ok (VNum 0) ∧
     lookup2 o "Pagination" "Offset" = Some (VNum 0)).
Proof.
  split; eexists _, _; (split; [vm_compute; reflexivity|]);
    repeat split; vm_compute; reflexivity.
Qed.

Lemma numeric_fields_by_kind_witness :
  (∃ spec,
     buildRequest subsetJson companySearchHost 0 = Ok spec ∧
     bodyField spec
       (Field "company" "search" Top "NumberOfEmployeesMin"
          "companySearchNumberOfEmployeesMin" TNumber (VNum 0))
     = Some (Some (VNum 25)) ∧
     bodyField spec
       (Field "company" "search" Top "NumberOfEmployeesMax"
          "companySearchNumberOfEmployeesMax" TNumber (VNum 0))
     = Some None ∧
     bodyField spec
       (Field "company" "search" (Inside "Pagination") "Offset"
          "companySearchOffset" TNumber (VNum 0))
     = Some (Some (VNum 0))) ∧
  (∃ spec xs obj,
     buildRequest subsetJson companyImportHost 0 = Ok spec ∧
     importedArray spec
       (EntryArray "company" "Accounts" "companyImportAccounts" "account")
     = Some (Some (VArr xs)) ∧
     xs !! 1 = Some (VObj obj) ∧
     obj !! "NumberOfEmployees" = Some (VNum 12)).
Proof.
  pose proof (proj1 (numeric_fields_by_kind subsetJson)) as Hfield.
  pose proof (proj1 (proj2 (proj2 (numeric_fields_by_kind subsetJson))))
    as Hentry.
  split.
  - destruct (buildRequest subsetJson companySearchHost 0) as [spec|e] eqn:Hb;
      [|vm_compute in Hb; discriminate Hb].
    exists spec. split; [reflexivity|]. repeat split.
    + apply (Hfield companySearchHost 0
               (Field "company" "search" Top "NumberOfEmployeesMin"
                  "companySearchNumberOfEmployeesMin" TNumber (VNum 0))
               (VNum 25) [AdditionalField (Some "Name") (Some (VStr "B"))]
               spec);
        [solve_elem | reflexivity | solve_item | reflexivity | reflexivity
        | reflexivity | solve_unnamed | exact Hb].
    + apply (Hfield companySearchHost 0
               (Field "company" "search" Top "NumberOfEmployeesMax"
                  "companySearchNumberOfEmployeesMax" TNumber (VNum 0))
               (VNum 0) [AdditionalField (Some "Name") (Some (VStr "B"))]
               spec);
        [solve_elem | reflexivity | solve_item | reflexivity | reflexivity
        | reflexivity | solve_unnamed | exact Hb].
    + apply (Hfield companySearchHost 0
               (Field "company" "search" (Inside "Pagination") "Offset"
                  "companySearchOffset" TNumber (VNum 0))
               (VNum 0) [AdditionalField (Some "Name") (Some (VStr "B"))]
               spec);
        [solve_elem | reflexivity | solve_item | reflexivity | reflexivity
        | reflexivity | solve_unnamed | exact Hb].
  - destruct (buildRequest subsetJson companyImportHost 0) as [spec|e] eqn:Hb;
      [|vm_compute in Hb; discriminate Hb].
    destruct (Hentry companyImportHost 0
                (EntryArray "company" "Accounts" "companyImportAccounts"
                   "account")
                (EntryField "company" "Accounts" "NumberOfEmployees"
                   "numberOfEmployees" TNumber)
                [ <["name" := VStr "Acme"]>
                    (<["website" := VStr ""]>
                       {["numberOfEmployees" := VNum 0]});
                  <["name" := VStr "Beta"]>
                    {["numberOfEmployees" := VNum 12]} ]
                1 (<["name" := VStr "Beta"]> {["numberOfEmployees" := VNum 12]})
                (VNum 12) [] spec)
      as (xs & obj & Harray & Hxs & Hobj);
      [solve_elem | solve_elem | reflexivity | solve_item
      | eexists; split; [reflexivity | left; reflexivity]
      | reflexivity | reflexivity | reflexivity | reflexivity | solve_unnamed
      | exact Hb |].
    exists spec, xs, obj. split; [reflexivity|]. by repeat split.
Defined.

(** For a user, [get] sends no query parameters although [includeOptions]
    holds a JSON object. *)
Lemma user_get_ignores_include_options :
  ∃ spec,
    buildRequest subsetJson userGetHost 0 = Ok spec ∧
    req_qs spec = VObj ∅ ∧
    getJsonParameter subsetJson userGetHost "includeOptions" 0 ∅
    = Ok (VObj {["withTeam" := VBool true]}) ∧
    getJsonParameter subsetJson userGetHost "includeOptions" 0 ∅
    ≠ Ok (req_qs spec).
Proof.
  eexists. split; [vm_compute; reflexivity|].
  split; [reflexivity|]. split; [vm_compute; reflexivity|].
  vm_compute. discriminate.
Qed.

Lemma get_operation_request_witness :
  buildRequest subsetJson companyGetHost 0
  = Ok (request GET "/api/v1/Accounts/123"
          (VObj {["withTeam" := VBool true]}) VUndefined) ∧
  buildRequest subsetJson userGetHost 0
  = Ok (request GET "/api/v1/Users/7" (VObj ∅) VUndefined).
Proof.
  split.
  - rewrite (proj1 (get_operation_request subsetJson companyGetHost 0 "company"
                      (VStr "1") eq_refl eq_refl eq_refl)
               ltac:(solve_In) (VStr "123") eq_refl).
    vm_compute. reflexivity.
  - apply (proj1 (proj2 (get_operation_request subsetJson userGetHost 0 "user"
                           (VStr "1") eq_refl eq_refl eq_refl))
             eq_refl (VStr "7") eq_refl).
Defined.

Lemma import_getAll_scenario_witness :
  ∃ spec (q : IDataObject),
    buildRequest subsetJson importGetAllHost 0 = Ok spec ∧
    req_method spec = GET ∧
    req_endpoint spec = "/api/v1/Import" ∧
    req_body spec = VUndefined ∧
    req_qs spec = VObj q ∧
    q !! "type" = Some (VStr "Account") ∧
    q !! "statusType" = None.
Proof.
  apply (import_getAll_scenario subsetJson importGetAllHost 0); reflexivity.
Defined.

(** With the raw JSON body switched on, a flag that is set does not reach
    the body; and a flag that is off has its key in the body when an
    additional field names it. *)
Lemma boolean_input_not_decisive :
  (∃ spec o,
     buildRequest subsetJson rawFlagHost 0 = Ok spec ∧
     req_body spec = VObj o ∧
     getNodeParameter rawFlagHost "companySearchNoUser" 0 (VBool false)
     = Ok (VBool true) ∧
     o !! "NoUser" = None) ∧
  (∃ spec o,
     buildRequest subsetJson namedFlagHost 0 = Ok spec ∧
     req_body spec = VObj o ∧
     getNodeParameter namedFlagHost "companySearchNoUser" 0 (VBool false)
     = Ok (VBool false) ∧
     o !! "NoUser" = Some (VStr "yes")).
Proof.
  split; eexists _, _; (split; [vm_compute; reflexivity|]);
    repeat split; vm_compute; reflexivity.
Qed.

Lemma boolean_fields_omitted_unless_true_witness :
  ∃ spec,
    buildRequest subsetJson companySearchHost 0 = Ok spec ∧
    bodyField spec
      (Field "company" "search" Top "NoUser" "companySearchNoUser" TBoolean
         (VBool false))
    = Some (Some (VBool true)) ∧
    bodyField spec
      (Field "company" "search" Top "HasPhone" "companySearchHasPhone"
         TBoolean (VBool false))
    = Some None ∧
    bodyField spec
      (Field "company" "search" (Inside "Includes") "WithTags"
         "companySearchIncludeTags" TBoolean (VBool false))
    = Some (Some (VBool true)) ∧
    bodyField spec
      (Field "company" "search" (Inside "Includes") "WithTasks"
         "companySearchIncludeTasks" TBoolean (VBool false))
    = Some None ∧
    bodyField spec
      (Field "company" "search" Top "CleanEmptyName"
         "companySearchCleanEmptyName" TBoolean (VBool true))
    = Some (Some (VBool true)).
Proof.
  pose proof (proj1 (boolean_fields_omitted_unless_true subsetJson)) as Hflag.
  destruct (buildRequest subsetJson companySearchHost 0) as [spec|e] eqn:Hb;
    [|vm_compute in Hb; discriminate Hb].
  exists spec. split; [reflexivity|]. repeat split.
  - apply (Hflag companySearchHost 0
             (Field "company" "search" Top "NoUser" "companySearchNoUser"
                TBoolean (VBool false))
             true [AdditionalField (Some "Name") (Some (VStr "B"))] spec);
      [solve_elem | reflexivity | solve_item | reflexivity | reflexivity
      | solve_unnamed | exact Hb].
  - apply (Hflag companySearchHost 0
             (Field "company" "search" Top "HasPhone" "companySearchHasPhone"
                TBoolean (VBool false))
             false [AdditionalField (Some "Name") (Some (VStr "B"))] spec);
      [solve_elem | reflexivity | solve_item | reflexivity | reflexivity
      | solve_unnamed | exact Hb].
  - apply (Hflag companySearchHost 0
             (Field "company" "search" (Inside "Includes") "WithTags"
                "companySearchIncludeTags" TBoolean (VBool false))
             true [AdditionalField (Some "Name") (Some (VStr "B"))] spec);
      [solve_elem | reflexivity | solve_item | reflexivity | reflexivity
      | solve_unnamed | exact Hb].
  - apply (Hflag companySearchHost 0
             (Field "company" "search" (Inside "Includes") "WithTasks"
                "companySearchIncludeTasks" TBoolean (VBool false))
             false [AdditionalField (Some "Name") (Some (VStr "B"))] spec);
      [solve_elem | reflexivity | solve_item | reflexivity | reflexivity
      | solve_unnamed | exact Hb].
  - apply (Hflag companySearchHost 0
             (Field "company" "search" Top "CleanEmptyName"
                "companySearchCleanEmptyName" TBoolean (VBool true))
             true [AdditionalField (Some "Name") (Some (VStr "B"))] spec);
      [solve_elem | reflexivity | solve_item | reflexivity | reflexivity
      | solve_unnamed | exact Hb].
Defined.

Lemma raw_search_body_verbatim_witness :
  ∃ spec,
    buildRequest subsetJson rawSearchHost 0 = Ok spec ∧
    req_method spec = POST ∧
    req_body spec = VObj {["Name" := VStr "x"]}.
Proof.
  apply (raw_search_body_verbatim subsetJson rawSearchHost 0 "contact"
           (VStr "search") searchText {["Name" := VStr "x"]});
    reflexivity.
Defined.



Lemma getJsonParameter_default_or_named_error_witness :
  getJsonParameter subsetJson (hostWith ∅ ∅) "search" 0 ∅ = Ok (VObj ∅) ∧
  getJsonParameter subsetJson malformedHost "search" 3 ∅
  = Err (NodeOperationError
           ("Parameter " +:+ dquote +:+ "search" +:+ dquote
            +:+ " is not valid JSON.") 3).
Proof.
  split.
  - apply (proj1 (getJsonParameter_default_or_named_error subsetJson
                    (hostWith ∅ ∅) "search" 0 ∅)).
    right. right. left. reflexivity.
  - apply (proj2 (getJsonParameter_default_or_named_error subsetJson
                    malformedHost "search" 3 ∅) "{invalid");
      [reflexivity | discriminate | reflexivity].
Defined.



Lemma cronoApiRequest_options_witness :
  url (requestOptions customUrlHost GET "/api/v1/Users" (VObj ∅) VUndefined)
  = "https://crono.test/api/v1/Users" ∧
  url (requestOptions (hostWith ∅ ∅) GET "/api/v1/Users" (VObj ∅) VUndefined)
  = "https://ext.crono.one/api/v1/Users" ∧
  qs (requestOptions (hostWith ∅ ∅) GET "/api/v1/Users" (VObj ∅) VUndefined)
  = None.
Proof.
  destruct (cronoApiRequest_options (hostWith ∅ ∅) GET "/api/v1/Users"
              (VObj ∅) VUndefined) as (_ & _ & _ & Hdefault & Hqs & _).
  destruct (cronoApiRequest_options customUrlHost GET "/api/v1/Users"
              (VObj ∅) VUndefined) as (_ & _ & Hcustom & _).
  split; [|split].
  - apply (Hcustom "https://crono.test"); [reflexivity | discriminate].
  - apply Hdefault. right. reflexivity.
  - apply (Hqs ∅ eq_refl).
Defined.

Lemma getJsonParameter_primitive_json_returns_string_witness :
  getJsonParameter subsetJson primitiveHost "search" 0 ∅ = Ok (VStr "42").
Proof.
  apply (getJsonParameter_primitive_json_returns_string subsetJson primitiveHost
           "search" 0 ∅ "42" (VNum 42)); [reflexivity | reflexivity | exact I].
Defined.

(** ** The further properties on concrete inputs *)

Lemma text_fields_omitted_when_empty_witness :
  ∃ spec,
    buildRequest subsetJson companyFilterHost 0 = Ok spec ∧
    bodyField spec
      (Field "company" "search" Top "CurrentSolution"
         "companySearchCurrentSolution" TText (VStr ""))
    = Some (Some (VStr "HubSpot")) ∧
    bodyField spec
      (Field "company" "search" Top "Industry" "companySearchIndustry" TText
         (VStr ""))
    = Some None.
Proof.
  destruct (buildRequest subsetJson companyFilterHost 0) as [spec|e] eqn:Hb;
    [|vm_compute in Hb; discriminate Hb].
  exists spec. split; [reflexivity|]. split.
  - apply (text_fields_omitted_when_empty subsetJson companyFilterHost 0
             (Field "company" "search" Top "CurrentSolution"
                "companySearchCurrentSolution" TText (VStr ""))
             "HubSpot" [] spec);
      [solve_elem | reflexivity | solve_item | reflexivity | reflexivity
      | solve_unnamed | exact Hb].
  - apply (text_fields_omitted_when_empty subsetJson companyFilterHost 0
             (Field "company" "search" Top "Industry" "companySearchIndustry"
                TText (VStr ""))
             "" [] spec);
      [solve_elem | reflexivity | solve_item | reflexivity | reflexivity
      | solve_unnamed | exact Hb].
Defined.

Lemma collection_fields_omitted_when_empty_witness :
  (∃ spec,
     buildRequest subsetJson companyFilterHost 0 = Ok spec ∧
     bodyField spec
       (Field "company" "search" Top "Status" "companySearchStatus" TMulti
          (VArr []))
     = Some (Some (VArr [VStr "Customer"])) ∧
     bodyField spec
       (Field "company" "search" Top "ExternalProperties"
          "companySearchExternalProperties" TJson (VObj ∅))
     = Some None ∧
     bodyField spec
       (Field "company" "search" Top "ExternalPropertyNumericFilters"
          "companySearchExternalPropertyNumericFilters" TJson (VObj ∅))
     = Some (Some (VObj {["Name" := VStr "x"]})) ∧
     bodyField spec
       (Field "company" "search" Top "ExternalPropertyEmptyIds"
          "companySearchExternalPropertyEmptyIds" TIdList (VStr ""))
     = Some (Some (VArr [VNum 1; VNum 2; VNum 30]))) ∧
  (∃ spec,
     buildRequest subsetJson contactIdsHost 0 = Ok spec ∧
     bodyField spec
       (Field "contact" "search" Top "ObjectIds" "contactSearchObjectIds"
          TList (VStr ""))
     = Some (Some (VArr [VStr "a1"; VStr "b 2"; VStr "c"]))).
Proof.
  split.
  - destruct (buildRequest subsetJson companyFilterHost 0) as [spec|e] eqn:Hb;
      [|vm_compute in Hb; discriminate Hb].
    exists spec. split; [reflexivity|]. repeat split.
    + apply (proj1 (collection_fields_omitted_when_empty subsetJson
                      companyFilterHost 0
                      (Field "company" "search" Top "Status"
                         "companySearchStatus" TMulti (VArr []))
                      [] spec ltac:(solve_elem) ltac:(solve_item) eq_refl
                      ltac:(solve_unnamed) Hb)
               [VStr "Customer"]); reflexivity.
    + rewrite (proj1 (proj2 (collection_fields_omitted_when_empty subsetJson
                      companyFilterHost 0
                      (Field "company" "search" Top "ExternalProperties"
                         "companySearchExternalProperties" TJson (VObj ∅))
                      [] spec ltac:(solve_elem) ltac:(solve_item) eq_refl
                      ltac:(solve_unnamed) Hb))
                 "{}" ∅ eq_refl eq_refl ltac:(discriminate) eq_refl).
      case_bool_decide as Hm; [reflexivity | by destruct Hm].
    + rewrite (proj1 (proj2 (collection_fields_omitted_when_empty subsetJson
                      companyFilterHost 0
                      (Field "company" "search" Top
                         "ExternalPropertyNumericFilters"
                         "companySearchExternalPropertyNumericFilters" TJson
                         (VObj ∅))
                      [] spec ltac:(solve_elem) ltac:(solve_item) eq_refl
                      ltac:(solve_unnamed) Hb))
                 searchText {["Name" := VStr "x"]} eq_refl eq_refl
                 ltac:(discriminate) eq_refl).
      case_bool_decide as Hm; [|reflexivity].
      exfalso. exact (map_non_empty_singleton _ _ Hm).
    + apply (proj2 (proj2 (proj2 (collection_fields_omitted_when_empty
                      subsetJson companyFilterHost 0
                      (Field "company" "search" Top "ExternalPropertyEmptyIds"
                         "companySearchExternalPropertyEmptyIds" TIdList
                         (VStr ""))
                      [] spec ltac:(solve_elem) ltac:(solve_item) eq_refl
                      ltac:(solve_unnamed) Hb)))
               [Segment "" "1" ""; Segment " " "2" " "; Segment "" "30" ""]
               [1; 2; 30]%Z);
        [reflexivity | reflexivity | repeat constructor | reflexivity
        | repeat constructor].
  - destruct (buildRequest subsetJson contactIdsHost 0) as [spec|e] eqn:Hb;
      [|vm_compute in Hb; discriminate Hb].
    exists spec. split; [reflexivity|].
    apply (proj1 (proj2 (proj2 (collection_fields_omitted_when_empty
                    subsetJson contactIdsHost 0
                    (Field "contact" "search" Top "ObjectIds"
                       "contactSearchObjectIds" TList (VStr ""))
                    [] spec ltac:(solve_elem) ltac:(solve_item) eq_refl
                    ltac:(solve_unnamed) Hb)))
             [Segment "" "a1" ""; Segment " " "b 2" ""; Segment "" "" "";
              Segment "" "c" " "]);
      [reflexivity | reflexivity | repeat constructor].
Defined.

Lemma nested_objects_never_empty_witness :
  ∃ spec o (m : IDataObject),
    buildRequest subsetJson companySearchHost 0 = Ok spec ∧
    structuredPart InBody spec = Some o ∧
    o !! "Includes" = Some (VObj m) ∧
    m ≠ ∅ ∧
    m !! "WithTags" = Some (VBool true) ∧
    m !! "WithTasks" = None.
Proof.
  destruct (buildRequest subsetJson companySearchHost 0) as [spec|e] eqn:Hb;
    [|vm_compute in Hb; discriminate Hb].
  destruct (nested_objects_never_empty subsetJson companySearchHost 0
              "company" "search" "Includes"
              (fun f => VBool (String.eqb (f_parameter f)
                                 "companySearchIncludeTags"))
              [AdditionalField (Some "Name") (Some (VStr "B"))] spec)
    as (o & Hpart & Hnone & Hsome);
    [solve_elem | solve_item | | reflexivity | solve_unnamed | exact Hb |].
  { intros f Hf. apply list_elem_of_In in Hf. vm_compute in Hf.
    repeat destruct Hf as [<- | Hf]; [split; reflexivity..|destruct Hf]. }
  destruct (o !! "Includes") as [x|] eqn:Hincludes.
  - destruct (Hsome x eq_refl) as (m & -> & Hne & Hfields & _).
    exists spec, o, m. split; [reflexivity|]. split; [exact Hpart|].
    split; [exact Hincludes|]. split; [exact Hne|]. split.
    + apply (Hfields (Field "company" "search" (Inside "Includes") "WithTags"
                        "companySearchIncludeTags" TBoolean (VBool false))).
      solve_elem.
    + apply (Hfields (Field "company" "search" (Inside "Includes") "WithTasks"
                        "companySearchIncludeTasks" TBoolean (VBool false))).
      solve_elem.
  - exfalso.
    pose proof (proj1 Hnone eq_refl
                  (Field "company" "search" (Inside "Includes") "WithTags"
                     "companySearchIncludeTags" TBoolean (VBool false))
                  ltac:(solve_elem)) as Hcontra.
    discriminate Hcontra.
Defined.

Lemma import_entries_mapped_in_order_witness :
  ∃ spec xs first second,
    buildRequest subsetJson companyImportHost 0 = Ok spec ∧
    importedArray spec
      (EntryArray "company" "Accounts" "companyImportAccounts" "account")
    = Some (Some (VArr xs)) ∧
    xs = [VObj first; VObj second] ∧
    first !! "Name" = Some (VStr "Acme") ∧
    first !! "Website" = None ∧
    first !! "NumberOfEmployees" = None ∧
    second !! "Name" = Some (VStr "Beta") ∧
    second !! "NumberOfEmployees" = Some (VNum 12).
Proof.
  destruct (buildRequest subsetJson companyImportHost 0) as [spec|e] eqn:Hb;
    [|vm_compute in Hb; discriminate Hb].
  set (acme := <["name" := VStr "Acme"]>
                 (<["website" := VStr ""]>
                    {["numberOfEmployees" := VNum 0]}) : IDataObject).
  set (beta := <["name" := VStr "Beta"]> {["numberOfEmployees" := VNum 12]}
               : IDataObject).
  destruct (import_entries_mapped_in_order subsetJson companyImportHost 0
              (EntryArray "company" "Accounts" "companyImportAccounts"
                 "account")
              [acme; beta] [] spec)
    as (xs & Harray & Hlen & Hxs);
    [solve_elem | solve_item
    | eexists; split; [reflexivity | left; reflexivity]
    | reflexivity | solve_unnamed | exact Hb |].
  destruct (Hxs 0 acme eq_refl) as (first & Hfirst & Hprops1 & _).
  destruct (Hxs 1 beta eq_refl) as (second & Hsecond & Hprops2 & _).
  destruct xs as [|x1 [|x2 [|x3 xs]]]; try discriminate Hlen.
  injection Hfirst as ->. injection Hsecond as ->.
  exists spec, [VObj first; VObj second], first, second.
  split; [reflexivity|]. split; [exact Harray|]. split; [reflexivity|].
  repeat split.
  - apply (Hprops1 (EntryField "company" "Accounts" "Name" "name" TText));
      [solve_elem | reflexivity].
  - apply (Hprops1 (EntryField "company" "Accounts" "Website" "website" TText));
      [solve_elem | reflexivity].
  - apply (Hprops1 (EntryField "company" "Accounts" "NumberOfEmployees"
                      "numberOfEmployees" TNumber));
      [solve_elem | reflexivity].
  - apply (Hprops2 (EntryField "company" "Accounts" "Name" "name" TText));
      [solve_elem | reflexivity].
  - apply (Hprops2 (EntryField "company" "Accounts" "NumberOfEmployees"
                      "numberOfEmployees" TNumber));
      [solve_elem | reflexivity].
Defined.

Lemma getAll_query_parameters_witness :
  ∃ q : IDataObject,
    buildRequest subsetJson companyGetAllHost 0
    = Ok (request GET "/api/v1/Accounts" (VObj q) VUndefined) ∧
    q !! "limit" = Some (VNum 5) ∧
    q !! "offset" = Some (VNum 0).
Proof.
  destruct (proj1 (getAll_query_parameters subsetJson companyGetAllHost 0
                     "company" (VStr "1") (VNum 10) (VNum 0) eq_refl eq_refl
                     eq_refl eq_refl eq_refl)
              ltac:(solve_In) {["limit" := VNum 5]} eq_refl)
    as (q & Hbuild & Hq).
  exists q. split; [exact Hbuild|]. split.
  - apply (Hq "limit").
  - apply (Hq "offset").
Defined.

Lemma task_search_query_witness :
  ∃ spec,
    buildRequest subsetJson taskOpportunitiesHost 0 = Ok spec ∧
    req_qs spec = VObj {["withOpportunities" := VBool true]}.
Proof.
  destruct (buildRequest subsetJson taskOpportunitiesHost 0) as [spec|e]
    eqn:Hb; [|vm_compute in Hb; discriminate Hb].
  exists spec. split; [reflexivity|].
  apply (task_search_query subsetJson taskOpportunitiesHost 0 true spec
           eq_refl eq_refl eq_refl Hb).
Defined.

Lemma data_bodies_wrapped_witness :
  ∃ spec (b : IDataObject),
    buildRequest subsetJson companyCreateRawHost 0 = Ok spec ∧
    req_body spec = VObj b ∧
    b !! "data" = Some (VObj {["Name" := VStr "x"]}) ∧
    b !! "scrapeOptions" = Some (VObj {["withTeam" := VBool true]}) ∧
    req_method spec = POST.
Proof.
  destruct (buildRequest subsetJson companyCreateRawHost 0) as [spec|e]
    eqn:Hb; [|vm_compute in Hb; discriminate Hb].
  destruct (data_bodies_wrapped subsetJson companyCreateRawHost 0 "company"
              (VStr "create") companyCreateData spec
              {["withTeam" := VBool true]} eq_refl eq_refl eq_refl eq_refl Hb)
    as (b & data & Hbody & Hdata & Hscrape & _ & Hmethod & Hraw).
  exists spec, b. split; [reflexivity|]. split; [exact Hbody|].
  split; [|split; [exact Hscrape | exact Hmethod]].
  rewrite Hdata. f_equal.
  apply (Hraw searchText {["Name" := VStr "x"]}); reflexivity.
Defined.


Lemma execute_one_output_per_item_witness :
  execute subsetJson pipelineHost
  = Ok [ {| data_json := VStr "https://ext.crono.one/api/v1/Pipelines";
            data_pairedItem := 0 |} ].
Proof.
  apply (execute_one_output_per_item subsetJson pipelineHost).
  split; [reflexivity|].
  intros [|i] item Hi; [|discriminate Hi]. injection Hi as <-.
  eexists. split; [reflexivity|]. split; reflexivity.
Defined.

Lemma execute_fails_with_first_error_witness :
  execute subsetJson twoItemHost
  = Err (NodeOperationError "Unsupported resource: widget" 1).
Proof.
  apply (execute_fails_with_first_error subsetJson twoItemHost).
  exists 1. split; [cbn; lia|]. split; [|reflexivity].
  intros j Hj. assert (j = 0) as -> by lia. eexists. reflexivity.
Defined.

Lemma build_errors_name_their_item_witness :
  0 = 0 ∧
  ((∃ resource,
      getNodeParameter malformedSearchHost "resource" 0 VUndefined
      = Ok resource ∧
      (∀ r, In r supportedResources → resource ≠ VStr r) ∧
      invalidJsonMessage "search" = unsupportedResourceMessage resource) ∨
   (∃ parameterName s,
      nodeParameters malformedSearchHost 0 !! parameterName = Some (VStr s) ∧
      JSON_parse subsetJson s = None ∧
      invalidJsonMessage "search" = invalidJsonMessage parameterName)).
Proof.
  apply (build_errors_name_their_item subsetJson malformedSearchHost 0
           (NodeOperationError (invalidJsonMessage "search") 0)).
  reflexivity.
Defined.

Lemma parseCsv_items_witness :
  parseCsv (VStr (String.concat ","
                    ["a1"; " b 2"; ""; String "160"%char "c "]))
  = Ok ["a1"; "b 2"; "c"].
Proof.
  apply (proj1 parseCsv_items
           [ Segment "" "a1" ""; Segment " " "b 2" ""; Segment "" "" "";
             Segment (String "160"%char "") "c" " " ]).
  repeat constructor.
Defined.

Lemma csv_identifiers_decoded_witness :
  parseCsv (VStr "7, -20,300 ") = Ok ["7"; "-20"; "300"] ∧
  parseInt <$> ["7"; "-20"; "300"] = [VNum 7; VNum (-20); VNum 300].
Proof.
  apply (csv_identifiers_decoded [7; -20; 300]%Z
           [Segment "" "7" ""; Segment " " "-20" ""; Segment "" "300" " "]);
    [repeat constructor | repeat constructor | reflexivity].
Defined.
